(** * NXP SimTemp: the sample pipeline of the virtual temperature sensor

    A shallow embedding of the kernel module [nxp_simtemp.c] (with
    [nxp_simtemp.h] and [nxp_simtemp_ioctl.h]): the ring buffer, the
    temperature generator, the timer callback with its threshold latch,
    the [read()] file operation and the [sampling_ms] / [threshold_mC]
    sysfs attributes.

    Machine integers are [Z] with their wrap-around written out; the
    ring buffer's storage array is a [list] updated by index; the device
    structure is a record passed through every operation.  What the C
    code obtains from the kernel at run time (the clock, random bytes,
    the outcome of a wait or of a copy to user space) is an explicit
    argument of the operation that asks for it. *)

From Stdlib Require Import ZArith Lia List String Ascii Bool.
From stdpp Require Import base tactics list strings pretty.
Import ListNotations.

Local Open Scope Z_scope.

(** ** Integer widths *)

Definition wrap_u32 (x : Z) : Z := x mod 2 ^ 32.
Definition wrap_u64 (x : Z) : Z := x mod 2 ^ 64.
(** Two's complement reduction to [s32]; the kernel is built with
    wrapping signed arithmetic. *)
Definition wrap_s32 (x : Z) : Z := (x + 2 ^ 31) mod 2 ^ 32 - 2 ^ 31.

(** ** Error numbers (asm-generic/errno-base.h, linux/errno.h) *)

Definition EAGAIN : Z := 11.
Definition EFAULT : Z := 14.
Definition EINVAL : Z := 22.
Definition ENOSPC : Z := 28.
Definition ERANGE : Z := 34.
Definition ERESTARTSYS : Z := 512.

(** ** nxp_simtemp_ioctl.h *)

Record simtemp_sample := {
  timestamp_ns : Z;   (* __u64 *)
  temp_mC : Z;        (* __s32 *)
  flags : Z           (* __u32 *)
}.

(** [sizeof(struct simtemp_sample)]: packed, 8 + 4 + 4. *)
Definition sizeof_simtemp_sample : Z := 16.

Definition SIMTEMP_FLAG_NEW_SAMPLE : Z := Z.shiftl 1 0.
Definition SIMTEMP_FLAG_THRESHOLD_CROSSED : Z := Z.shiftl 1 1.

Definition SIMTEMP_SAMPLING_MS_MIN : Z := 1.
Definition SIMTEMP_SAMPLING_MS_MAX : Z := 10000.
Definition SIMTEMP_THRESHOLD_MC_MIN : Z := -40000.
Definition SIMTEMP_THRESHOLD_MC_MAX : Z := 125000.

(** ** nxp_simtemp.h *)

Definition DEFAULT_SAMPLING_MS : Z := 100.
Definition DEFAULT_THRESHOLD_MC : Z := 45000.

Definition RING_BUFFER_SIZE : Z := 64.
Definition RING_BUFFER_MASK : Z := RING_BUFFER_SIZE - 1.

(** [enum simtemp_mode] is an [int] in C: the field can hold values
    outside the three enumerators, which is what the generator's
    [default:] branch is for. *)
Definition SIMTEMP_MODE_NORMAL : Z := 0.
Definition SIMTEMP_MODE_NOISY : Z := 1.
Definition SIMTEMP_MODE_RAMP : Z := 2.
Definition DEFAULT_MODE : Z := SIMTEMP_MODE_NORMAL.

Record simtemp_stats := {
  total_samples : Z;     (* u64 *)
  threshold_alerts : Z;  (* u64 *)
  read_count : Z;        (* u64 *)
  poll_count : Z;        (* u64 *)
  last_error : Z         (* u32 *)
}.

(** The spinlock of the C structure carries no data; every operation
    below is one critical section. *)
Record simtemp_ringbuf := {
  buffer : list simtemp_sample;  (* RING_BUFFER_SIZE entries *)
  head : Z;                      (* unsigned int, write position *)
  tail : Z                       (* unsigned int, read position *)
}.

Definition zero_sample : simtemp_sample :=
  {| timestamp_ns := 0; temp_mC := 0; flags := 0 |}.

#[global] Instance simtemp_sample_inhabited : Inhabited simtemp_sample :=
  populate zero_sample.

(** ** Ring buffer operations *)

Definition simtemp_ringbuf_init (rb : simtemp_ringbuf) : simtemp_ringbuf :=
  {| buffer := replicate (Z.to_nat RING_BUFFER_SIZE) zero_sample;
     head := 0;
     tail := 0 |}.

Definition simtemp_ringbuf_empty (rb : simtemp_ringbuf) : bool :=
  head rb =? tail rb.

Definition simtemp_ringbuf_count (rb : simtemp_ringbuf) : Z :=
  Z.land (wrap_u32 (head rb - tail rb)) RING_BUFFER_MASK.

(** Returns the status and the buffer; on [-ENOSPC] the buffer is the
    one passed in. *)
Definition simtemp_ringbuf_put (rb : simtemp_ringbuf) (sample : simtemp_sample)
  : Z * simtemp_ringbuf :=
  let head_ := head rb in
  let next_head := Z.land (wrap_u32 (head_ + 1)) RING_BUFFER_MASK in
  if next_head =? tail rb then (- ENOSPC, rb)
  else
    (0, {| buffer := <[Z.to_nat head_ := sample]> (buffer rb);
           head := next_head;
           tail := tail rb |}).

(** [sample] is the caller's out-parameter: it is returned as it was
    when the buffer is empty. *)
Definition simtemp_ringbuf_get (rb : simtemp_ringbuf) (sample : simtemp_sample)
  : Z * simtemp_sample * simtemp_ringbuf :=
  if simtemp_ringbuf_empty rb then (- EAGAIN, sample, rb)
  else
    let tail_ := tail rb in
    (0, buffer rb !!! Z.to_nat tail_,
     {| buffer := buffer rb;
        head := head rb;
        tail := Z.land (wrap_u32 (tail_ + 1)) RING_BUFFER_MASK |}).

(** ** The sample timer

    [struct hrtimer] as the driver uses it: whether it is queued and its
    expiry on the monotonic clock, in nanoseconds.  The four kernel
    primitives below follow kernel/time/hrtimer.c; [now] is the clock
    at the call. *)

Record hrtimer := {
  hr_active : bool;
  hr_expires : Z   (* ktime_t, ns *)
}.

Definition NSEC_PER_MSEC : Z := 1000000.
Definition ms_to_ktime (ms : Z) : Z := ms * NSEC_PER_MSEC.

Definition hrtimer_init : hrtimer := {| hr_active := false; hr_expires := 0 |}.

(** [hrtimer_start(timer, tim, HRTIMER_MODE_REL)]. *)
Definition hrtimer_start (timer : hrtimer) (tim now : Z) : hrtimer :=
  {| hr_active := true; hr_expires := now + tim |}.

(** Returns whether the timer was active, and the dequeued timer. *)
Definition hrtimer_cancel (timer : hrtimer) : bool * hrtimer :=
  (hr_active timer, {| hr_active := false; hr_expires := hr_expires timer |}).

(** High-resolution mode: [HIGH_RES_NSEC]. *)
Definition hrtimer_resolution : Z := 1.

(** [hrtimer_forward_now(timer, interval)], called from the timer's own
    callback, followed by the re-queueing that [HRTIMER_RESTART] asks
    for. *)
Definition hrtimer_forward_now (timer : hrtimer) (interval now : Z) : hrtimer :=
  let delta := now - hr_expires timer in
  if delta <? 0 then {| hr_active := true; hr_expires := hr_expires timer |}
  else
    let interval := Z.max interval hrtimer_resolution in
    if interval <=? delta then
      let orun := delta / interval in
      let expires := hr_expires timer + interval * orun in
      if expires >? now then {| hr_active := true; hr_expires := expires |}
      else {| hr_active := true; hr_expires := expires + interval |}
    else {| hr_active := true; hr_expires := hr_expires timer + interval |}.

(** ** The device structure

    Fields without data of their own (the platform and misc device
    handles, the wait queue head, the configuration mutex) are left
    out. *)

Record simtemp_device := {
  timer : hrtimer;
  sampling_period : Z;      (* ktime_t *)
  ringbuf : simtemp_ringbuf;
  sampling_ms : Z;          (* u32 *)
  threshold_mC : Z;         (* s32 *)
  mode : Z;                 (* enum simtemp_mode *)
  current_temp_mC : Z;      (* s32 *)
  ramp_direction : bool;    (* true = up, false = down *)
  stats : simtemp_stats;
  threshold_crossed : bool;
  device_open : bool
}.

Definition set_timer (t : hrtimer) (d : simtemp_device) : simtemp_device :=
  {| timer := t; sampling_period := sampling_period d; ringbuf := ringbuf d;
     sampling_ms := sampling_ms d; threshold_mC := threshold_mC d; mode := mode d;
     current_temp_mC := current_temp_mC d; ramp_direction := ramp_direction d;
     stats := stats d; threshold_crossed := threshold_crossed d;
     device_open := device_open d |}.

Definition set_sampling (ms period : Z) (d : simtemp_device) : simtemp_device :=
  {| timer := timer d; sampling_period := period; ringbuf := ringbuf d;
     sampling_ms := ms; threshold_mC := threshold_mC d; mode := mode d;
     current_temp_mC := current_temp_mC d; ramp_direction := ramp_direction d;
     stats := stats d; threshold_crossed := threshold_crossed d;
     device_open := device_open d |}.

Definition set_ringbuf (rb : simtemp_ringbuf) (d : simtemp_device) : simtemp_device :=
  {| timer := timer d; sampling_period := sampling_period d; ringbuf := rb;
     sampling_ms := sampling_ms d; threshold_mC := threshold_mC d; mode := mode d;
     current_temp_mC := current_temp_mC d; ramp_direction := ramp_direction d;
     stats := stats d; threshold_crossed := threshold_crossed d;
     device_open := device_open d |}.

Definition set_threshold_mC (v : Z) (d : simtemp_device) : simtemp_device :=
  {| timer := timer d; sampling_period := sampling_period d; ringbuf := ringbuf d;
     sampling_ms := sampling_ms d; threshold_mC := v; mode := mode d;
     current_temp_mC := current_temp_mC d; ramp_direction := ramp_direction d;
     stats := stats d; threshold_crossed := threshold_crossed d;
     device_open := device_open d |}.

Definition set_ramp (temp : Z) (up : bool) (d : simtemp_device) : simtemp_device :=
  {| timer := timer d; sampling_period := sampling_period d; ringbuf := ringbuf d;
     sampling_ms := sampling_ms d; threshold_mC := threshold_mC d; mode := mode d;
     current_temp_mC := temp; ramp_direction := up;
     stats := stats d; threshold_crossed := threshold_crossed d;
     device_open := device_open d |}.

Definition set_stats (s : simtemp_stats) (d : simtemp_device) : simtemp_device :=
  {| timer := timer d; sampling_period := sampling_period d; ringbuf := ringbuf d;
     sampling_ms := sampling_ms d; threshold_mC := threshold_mC d; mode := mode d;
     current_temp_mC := current_temp_mC d; ramp_direction := ramp_direction d;
     stats := s; threshold_crossed := threshold_crossed d;
     device_open := device_open d |}.

Definition set_threshold_crossed (b : bool) (d : simtemp_device) : simtemp_device :=
  {| timer := timer d; sampling_period := sampling_period d; ringbuf := ringbuf d;
     sampling_ms := sampling_ms d; threshold_mC := threshold_mC d; mode := mode d;
     current_temp_mC := current_temp_mC d; ramp_direction := ramp_direction d;
     stats := stats d; threshold_crossed := b;
     device_open := device_open d |}.

(** The three counters the driver increments ([u64], [++]). *)
Definition inc_total_samples (s : simtemp_stats) : simtemp_stats :=
  {| total_samples := wrap_u64 (total_samples s + 1);
     threshold_alerts := threshold_alerts s; read_count := read_count s;
     poll_count := poll_count s; last_error := last_error s |}.

Definition inc_threshold_alerts (s : simtemp_stats) : simtemp_stats :=
  {| total_samples := total_samples s;
     threshold_alerts := wrap_u64 (threshold_alerts s + 1);
     read_count := read_count s;
     poll_count := poll_count s; last_error := last_error s |}.

Definition inc_read_count (s : simtemp_stats) : simtemp_stats :=
  {| total_samples := total_samples s;
     threshold_alerts := threshold_alerts s;
     read_count := wrap_u64 (read_count s + 1);
     poll_count := poll_count s; last_error := last_error s |}.

(** ** Temperature generation

    [random] stands for the four bytes [get_random_bytes] delivers; the
    Ramp branch and the fallback do not draw any.  Returns the
    temperature and the device with its ramp state updated. *)

Definition simtemp_generate_temperature (random : Z) (dev : simtemp_device)
  : Z * simtemp_device :=
  if mode dev =? SIMTEMP_MODE_NORMAL then
    (wrap_s32 (45000 + (wrap_s32 (wrap_u32 random mod 4000) - 2000)), dev)
  else if mode dev =? SIMTEMP_MODE_NOISY then
    let temp := wrap_s32 (45000 + (wrap_s32 (wrap_u32 random mod 30000) - 15000)) in
    let temp := if temp <? 30000 then 30000 else temp in
    let temp := if temp >? 60000 then 60000 else temp in
    (temp, dev)
  else if mode dev =? SIMTEMP_MODE_RAMP then
    let dev :=
      if ramp_direction dev then
        let t := wrap_s32 (current_temp_mC dev + 500) in
        if t >=? 70000 then set_ramp 70000 false dev
        else set_ramp t (ramp_direction dev) dev
      else
        let t := wrap_s32 (current_temp_mC dev - 500) in
        if t <=? 30000 then set_ramp 30000 true dev
        else set_ramp t (ramp_direction dev) dev in
    (current_temp_mC dev, dev)
  else
    (45000, dev).

(** ** Timer callback

    One tick of the producer.  [now] is the monotonic clock
    ([ktime_get_ns], and the base of [hrtimer_forward_now]).  Besides
    the device, the result records the two locals a tick computes: the
    sample it built and what [simtemp_ringbuf_put] returned.  The
    callback itself returns [HRTIMER_RESTART] and discards both. *)

Record tick_result := {
  tick_dev : simtemp_device;
  tick_sample : simtemp_sample;
  tick_ret : Z
}.

Definition simtemp_timer_callback (now random : Z) (dev : simtemp_device)
  : tick_result :=
  let '(temp, dev) := simtemp_generate_temperature random dev in
  let sample_flags := SIMTEMP_FLAG_NEW_SAMPLE in
  let '(sample_flags, dev) :=
    if temp >? threshold_mC dev then
      if negb (threshold_crossed dev) then
        (Z.lor sample_flags SIMTEMP_FLAG_THRESHOLD_CROSSED,
         set_stats (inc_threshold_alerts (stats dev))
                   (set_threshold_crossed true dev))
      else (sample_flags, dev)
    else (sample_flags, set_threshold_crossed false dev) in
  let sample :=
    {| timestamp_ns := now; temp_mC := temp; flags := sample_flags |} in
  let '(ret, rb) := simtemp_ringbuf_put (ringbuf dev) sample in
  let dev := set_ringbuf rb dev in
  let dev := set_stats (inc_total_samples (stats dev)) dev in
  let dev := set_timer (hrtimer_forward_now (timer dev) (sampling_period dev) now) dev in
  {| tick_dev := dev; tick_sample := sample; tick_ret := ret |}.

(** ** Probe

    The device as [simtemp_probe] leaves it when the registrations
    succeed.  The two arguments are the optional device-tree properties
    [sampling-ms] and [threshold-mC] ([None] when there is no node or
    no such property). *)

Definition zero_stats : simtemp_stats :=
  {| total_samples := 0; threshold_alerts := 0; read_count := 0;
     poll_count := 0; last_error := 0 |}.

Definition simtemp_probe (dt_sampling_ms dt_threshold_mC : option Z) (now : Z)
  : simtemp_device :=
  let ms :=
    match dt_sampling_ms with
    | Some val =>
        if (SIMTEMP_SAMPLING_MS_MIN <=? val) && (val <=? SIMTEMP_SAMPLING_MS_MAX)
        then val else DEFAULT_SAMPLING_MS
    | None => DEFAULT_SAMPLING_MS
    end in
  let thr :=
    match dt_threshold_mC with
    | Some val => wrap_s32 val
    | None => DEFAULT_THRESHOLD_MC
    end in
  let period := ms_to_ktime ms in
  {| timer := hrtimer_start hrtimer_init period now;
     sampling_period := period;
     ringbuf := simtemp_ringbuf_init
                  {| buffer := replicate (Z.to_nat RING_BUFFER_SIZE) zero_sample;
                     head := 0; tail := 0 |};
     sampling_ms := ms;
     threshold_mC := thr;
     mode := DEFAULT_MODE;
     current_temp_mC := 40000;
     ramp_direction := true;
     stats := zero_stats;
     threshold_crossed := false;
     device_open := false |}.

(** ** Text to number: the kernel's [kstrtouint] and [kstrtoint]

    lib/kstrtox.c, for base 10 (the only base the driver asks for): an
    optional sign, at least one decimal digit, at most one trailing
    newline, nothing else; [-EINVAL] for malformed text and [-ERANGE]
    for a number that does not fit the destination type.  The text is a
    C string: it ends at its first NUL byte, and what a buffer holds
    after that byte is not looked at. *)

Inductive kstrto_result :=
  | KOk (val : Z)
  | KErr (ret : Z).

Definition digit_of (c : ascii) : option Z :=
  let n := Z.of_nat (nat_of_ascii c) in
  if (48 <=? n) && (n <=? 57) then Some (n - 48) else None.

(** The value of the leading digits, how many there are, and the text
    after them. *)
Fixpoint _parse_integer (s : string) (res : Z) (rv : nat) : Z * nat * string :=
  match s with
  | String c s' =>
      match digit_of c with
      | Some v => _parse_integer s' (res * 10 + v) (S rv)
      | None => (res, rv, s)
      end
  | EmptyString => (res, rv, s)
  end.

Definition ULLONG_MAX : Z := 2 ^ 64 - 1.

Definition _kstrtoull (s : string) : kstrto_result :=
  let '(res, rv, s) := _parse_integer s 0 0 in
  if res >? ULLONG_MAX then KErr (- ERANGE)
  else if Nat.eqb rv 0 then KErr (- EINVAL)
  else
    let s := match s with
             | String "010"%char s' => s'
             | _ => s
             end in
    match s with
    | EmptyString => KOk res
    | String c _ => if Ascii.eqb c "000"%char then KOk res else KErr (- EINVAL)
    end.

Definition kstrtoull (s : string) : kstrto_result :=
  match s with
  | String "+"%char s' => _kstrtoull s'
  | _ => _kstrtoull s
  end.

Definition kstrtoll (s : string) : kstrto_result :=
  match s with
  | String "-"%char s' =>
      match _kstrtoull s' with
      | KErr rv => KErr rv
      | KOk tmp => if tmp >? 2 ^ 63 then KErr (- ERANGE) else KOk (- tmp)
      end
  | _ =>
      match kstrtoull s with
      | KErr rv => KErr rv
      | KOk tmp => if tmp >=? 2 ^ 63 then KErr (- ERANGE) else KOk tmp
      end
  end.

Definition kstrtouint (s : string) : kstrto_result :=
  match kstrtoull s with
  | KErr rv => KErr rv
  | KOk tmp => if tmp =? wrap_u32 tmp then KOk tmp else KErr (- ERANGE)
  end.

Definition kstrtoint (s : string) : kstrto_result :=
  match kstrtoll s with
  | KErr rv => KErr rv
  | KOk tmp => if tmp =? wrap_s32 tmp then KOk tmp else KErr (- ERANGE)
  end.

(** ** Sysfs attributes

    A [show] returns the text [sysfs_emit] wrote; a [store] returns its
    status ([count] on success) and the device. *)

Definition newline : string := String "010"%char EmptyString.

Definition sampling_ms_show (sdev : simtemp_device) : string :=
  (pretty (sampling_ms sdev) ++ newline)%string.

(** [now] is the clock when the timer is restarted. *)
Definition sampling_ms_store (now : Z) (buf : string) (count : Z)
    (sdev : simtemp_device) : Z * simtemp_device :=
  match kstrtouint buf with
  | KErr ret => (ret, sdev)
  | KOk val =>
      if (val <? SIMTEMP_SAMPLING_MS_MIN) || (val >? SIMTEMP_SAMPLING_MS_MAX)
      then (- EINVAL, sdev)
      else
        let sdev := set_sampling val (ms_to_ktime val) sdev in
        let sdev := set_timer (snd (hrtimer_cancel (timer sdev))) sdev in
        let sdev :=
          set_timer (hrtimer_start (timer sdev) (sampling_period sdev) now) sdev in
        (count, sdev)
  end.

Definition threshold_mC_show (sdev : simtemp_device) : string :=
  (pretty (threshold_mC sdev) ++ newline)%string.

Definition threshold_mC_store (buf : string) (count : Z)
    (sdev : simtemp_device) : Z * simtemp_device :=
  match kstrtoint buf with
  | KErr ret => (ret, sdev)
  | KOk val =>
      if (val <? SIMTEMP_THRESHOLD_MC_MIN) || (val >? SIMTEMP_THRESHOLD_MC_MAX)
      then (- EINVAL, sdev)
      else (count, set_threshold_mC val sdev)
  end.

(** ** Blocking and the [read()] file operation

    While a reader sleeps in [wait_event_interruptible] the rest of the
    system moves on; what happens during the sleep is given as a list
    of events: a tick of the sample timer (with the clock and the random
    bytes it draws) or the delivery of a signal to the sleeping reader.
    The condition is tested before sleeping and again after every
    wake-up.  [None]: the reader is still asleep when the events run
    out. *)

Inductive wait_event :=
  | WaitTick (now random : Z)
  | WaitSignal.

Fixpoint wait_event_interruptible (events : list wait_event)
    (dev : simtemp_device) : option (Z * simtemp_device) :=
  if negb (simtemp_ringbuf_empty (ringbuf dev)) then Some (0, dev)
  else
    match events with
    | [] => None
    | WaitSignal :: _ => Some (- ERESTARTSYS, dev)
    | WaitTick now random :: events' =>
        wait_event_interruptible events'
          (tick_dev (simtemp_timer_callback now random dev))
    end.

(** What a [read()] call did: its return value, the sample that
    reached the caller's buffer (if any), and the device. *)
Record read_result := {
  read_ret : Z;
  read_buf : option simtemp_sample;
  read_dev : simtemp_device
}.

(** [nonblock]: [O_NONBLOCK] is set on the file; [count]: the size of
    the destination; [user_ok]: whether [copy_to_user] can write the
    destination; [events]: see above (only a blocking read sleeps).
    The local [sample] is indeterminate in C until the ring buffer
    fills it; it starts as [zero_sample] here. *)
Definition simtemp_read (nonblock : bool) (count : Z) (user_ok : bool)
    (events : list wait_event) (dev : simtemp_device) : option read_result :=
  let finish (sample : simtemp_sample) (dev : simtemp_device) :=
    let dev := set_stats (inc_read_count (stats dev)) dev in
    if negb user_ok
    then {| read_ret := - EFAULT; read_buf := None; read_dev := dev |}
    else {| read_ret := sizeof_simtemp_sample; read_buf := Some sample;
            read_dev := dev |} in
  if count <? sizeof_simtemp_sample
  then Some {| read_ret := - EINVAL; read_buf := None; read_dev := dev |}
  else if nonblock then
    let '(ret, sample, rb) := simtemp_ringbuf_get (ringbuf dev) zero_sample in
    let dev := set_ringbuf rb dev in
    if ret =? - EAGAIN
    then Some {| read_ret := - EAGAIN; read_buf := None; read_dev := dev |}
    else Some (finish sample dev)
  else
    match wait_event_interruptible events dev with
    | None => None
    | Some (ret, dev) =>
        if negb (ret =? 0)
        then Some {| read_ret := - ERESTARTSYS; read_buf := None; read_dev := dev |}
        else
          let '(ret, sample, rb) := simtemp_ringbuf_get (ringbuf dev) zero_sample in
          let dev := set_ringbuf rb dev in
          if negb (ret =? 0)
          then Some {| read_ret := - EAGAIN; read_buf := None; read_dev := dev |}
          else Some (finish sample dev)
    end.

(** ** Running the producer and the ring buffer over lists of inputs *)

(** Consecutive ticks, one per (clock, random) pair; the results are
    listed in tick order. *)
Fixpoint run_ticks (inputs : list (Z * Z)) (dev : simtemp_device)
  : list tick_result * simtemp_device :=
  match inputs with
  | [] => ([], dev)
  | (now, random) :: inputs' =>
      let r := simtemp_timer_callback now random dev in
      let '(rs, dev') := run_ticks inputs' (tick_dev r) in
      (r :: rs, dev')
  end.

(** Consecutive [simtemp_ringbuf_put]s; the statuses in call order. *)
Fixpoint put_all (samples : list simtemp_sample) (rb : simtemp_ringbuf)
  : list Z * simtemp_ringbuf :=
  match samples with
  | [] => ([], rb)
  | s :: samples' =>
      let '(ret, rb1) := simtemp_ringbuf_put rb s in
      let '(rets, rb2) := put_all samples' rb1 in
      (ret :: rets, rb2)
  end.

(** [n] consecutive [simtemp_ringbuf_get]s; each call's status and
    out-parameter, in call order. *)
Fixpoint get_n (n : nat) (rb : simtemp_ringbuf)
  : list (Z * simtemp_sample) * simtemp_ringbuf :=
  match n with
  | O => ([], rb)
  | S n' =>
      let '(ret, s, rb1) := simtemp_ringbuf_get rb zero_sample in
      let '(outs, rb2) := get_n n' rb1 in
      ((ret, s) :: outs, rb2)
  end.

(** Consecutive ticks of the generator alone, one per element of
    [randoms] (the mode does not change in between); the temperatures
    in tick order. *)
Fixpoint generate_n (randoms : list Z) (dev : simtemp_device)
  : list Z * simtemp_device :=
  match randoms with
  | [] => ([], dev)
  | random :: randoms' =>
      let '(t, dev1) := simtemp_generate_temperature random dev in
      let '(ts, dev2) := generate_n randoms' dev1 in
      (t :: ts, dev2)
  end.

(** ** The ring buffer as a queue

    The live entries of a ring buffer, oldest first: the slots from
    [tail] up to (not including) [head], indices taken modulo the
    size. *)

Definition rb_wf (rb : simtemp_ringbuf) : Prop :=
  length (buffer rb) = Z.to_nat RING_BUFFER_SIZE /\
  0 <= head rb < RING_BUFFER_SIZE /\
  0 <= tail rb < RING_BUFFER_SIZE.

Definition rb_slot (rb : simtemp_ringbuf) (i : nat) : simtemp_sample :=
  buffer rb !!! Z.to_nat ((tail rb + Z.of_nat i) mod RING_BUFFER_SIZE).

Definition rb_contents (rb : simtemp_ringbuf) : list simtemp_sample :=
  map (rb_slot rb) (seq 0 (Z.to_nat (simtemp_ringbuf_count rb))).

(** ** The triangular wave of the Ramp mode

    The closed form the ramp follows when it starts at 40000 going up:
    60 ticks up to 70000, 80 ticks down to 30000, 20 ticks back up to
    40000, period 160.  [ramp_up k] is the direction after tick [k]. *)

Definition ramp_wave (k : Z) : Z :=
  let j := k mod 160 in
  if j <=? 60 then 40000 + 500 * j
  else if j <=? 140 then 70000 - 500 * (j - 60)
  else 30000 + 500 * (j - 140).

Definition ramp_up (k : Z) : bool :=
  let j := k mod 160 in
  (j <? 60) || (140 <=? j).

(** ** The counters a drop indicator could be

    Every field of [struct simtemp_stats], as an observation of the
    device. *)

Definition stats_fields : list (simtemp_stats -> Z) :=
  [total_samples; threshold_alerts; read_count; poll_count; last_error].

(** Whether the threshold-crossed bit is set in a sample's flags. *)
Definition crossed_flag (s : simtemp_sample) : bool :=
  negb (Z.land (flags s) SIMTEMP_FLAG_THRESHOLD_CROSSED =? 0).


Definition recognized_mode (m : Z) : bool :=
  (m =? SIMTEMP_MODE_NORMAL) || (m =? SIMTEMP_MODE_NOISY) ||
  (m =? SIMTEMP_MODE_RAMP).

(** The ramp state the driver maintains: the current temperature stays
    between the two turning points. *)
Definition ramp_inv (dev : simtemp_device) : Prop :=
  30000 <= current_temp_mC dev <= 70000.

(** ** Concrete runs used as test points *)

(** The device after a probe at clock 0 with no device-tree node. *)
Definition probed : simtemp_device := simtemp_probe None None 0.

(** [n] ticks, 100 ms apart, each drawing the random word 2000 (in
    Normal mode: jitter 0, temperature 45000, never above the default
    threshold). *)
Definition quiet_ticks (n : nat) : list (Z * Z) :=
  map (fun i => (ms_to_ktime (100 * (Z.of_nat i + 1)), 2000)) (seq 0 n).

(** The probed device once 63 such ticks have filled its ring buffer. *)
Definition probed_full : simtemp_device :=
  snd (run_ticks (quiet_ticks 63) probed).

(** ** The threshold latch of the design

    The edge detector as the design describes it: a two-state machine
    (below / above the threshold) that raises an alert on the step from
    below to above and on no other step.  [latch_run] lists, for a
    sequence of temperatures, whether each one raises an alert;
    [count_alerts] lists the alert counter after each. *)

Definition latch_step (threshold : Z) (above : bool) (t : Z) : bool * bool :=
  if t >? threshold then (negb above, true) else (false, false).

Fixpoint latch_run (threshold : Z) (above : bool) (temps : list Z) : list bool :=
  match temps with
  | [] => []
  | t :: temps' =>
      let '(alert, above') := latch_step threshold above t in
      alert :: latch_run threshold above' temps'
  end.

Fixpoint count_alerts (alerts : Z) (fired : list bool) : list Z :=
  match fired with
  | [] => []
  | b :: fired' =>
      let alerts' := if b then wrap_u64 (alerts + 1) else alerts in
      alerts' :: count_alerts alerts' fired'
  end.

(** ** open(), release() and poll() *)

Definition set_device_open (b : bool) (d : simtemp_device) : simtemp_device :=
  {| timer := timer d; sampling_period := sampling_period d; ringbuf := ringbuf d;
     sampling_ms := sampling_ms d; threshold_mC := threshold_mC d; mode := mode d;
     current_temp_mC := current_temp_mC d; ramp_direction := ramp_direction d;
     stats := stats d; threshold_crossed := threshold_crossed d;
     device_open := b |}.

Definition set_mode (m : Z) (d : simtemp_device) : simtemp_device :=
  {| timer := timer d; sampling_period := sampling_period d; ringbuf := ringbuf d;
     sampling_ms := sampling_ms d; threshold_mC := threshold_mC d; mode := m;
     current_temp_mC := current_temp_mC d; ramp_direction := ramp_direction d;
     stats := stats d; threshold_crossed := threshold_crossed d;
     device_open := device_open d |}.

Definition inc_poll_count (s : simtemp_stats) : simtemp_stats :=
  {| total_samples := total_samples s;
     threshold_alerts := threshold_alerts s;
     read_count := read_count s;
     poll_count := wrap_u64 (poll_count s + 1);
     last_error := last_error s |}.

(** Both return their status, always 0, and the device. *)
Definition simtemp_open (dev : simtemp_device) : Z * simtemp_device :=
  (0, set_device_open true dev).

Definition simtemp_release (dev : simtemp_device) : Z * simtemp_device :=
  (0, set_device_open false dev).

(** Event bits (uapi/linux/eventpoll.h). *)
Definition EPOLLIN : Z := 1.
Definition EPOLLPRI : Z := 2.
Definition EPOLLRDNORM : Z := 64.

(** Returns the event mask and the device.  [poll_wait] only registers
    the caller on the wait queue. *)
Definition simtemp_poll (dev : simtemp_device) : Z * simtemp_device :=
  let mask := 0 in
  let dev := set_stats (inc_poll_count (stats dev)) dev in
  let mask :=
    if negb (simtemp_ringbuf_empty (ringbuf dev))
    then Z.lor mask (Z.lor EPOLLIN EPOLLRDNORM) else mask in
  let mask :=
    if threshold_crossed dev then Z.lor mask EPOLLPRI else mask in
  (mask, dev).

(** ** The [mode] and [stats] attributes *)

(** The kernel's [sysfs_streq] (lib/string.c): equality of two C
    strings up to one trailing newline on either of them.  [str_head]
    is [*s], the byte a C string starts with, NUL at its end;
    [streq_rest] is the part after the loop that walks the common
    prefix. *)
Definition str_head (s : string) : ascii :=
  match s with
  | EmptyString => "000"%char
  | String c _ => c
  end.

Definition str_tail (s : string) : string :=
  match s with
  | EmptyString => EmptyString
  | String _ s' => s'
  end.

Definition is_nul (c : ascii) : bool := Ascii.eqb c "000"%char.

Definition streq_rest (s1 s2 : string) : bool :=
  if Ascii.eqb (str_head s1) (str_head s2) then true
  else if is_nul (str_head s1) && Ascii.eqb (str_head s2) "010"%char &&
          is_nul (str_head (str_tail s2)) then true
  else if Ascii.eqb (str_head s1) "010"%char &&
          is_nul (str_head (str_tail s1)) && is_nul (str_head s2) then true
  else false.

Fixpoint sysfs_streq (s1 s2 : string) : bool :=
  match s1, s2 with
  | String c1 s1', String c2 s2' =>
      if negb (is_nul c1) && Ascii.eqb c1 c2 then sysfs_streq s1' s2'
      else streq_rest s1 s2
  | _, _ => streq_rest s1 s2
  end.

(** The C string a buffer holds: its bytes before the first NUL. *)
Fixpoint c_str (s : string) : string :=
  match s with
  | EmptyString => EmptyString
  | String c s' => if is_nul c then EmptyString else String c (c_str s')
  end.

Definition mode_show (sdev : simtemp_device) : string :=
  let mode_str :=
    if mode sdev =? SIMTEMP_MODE_NORMAL then "normal"
    else if mode sdev =? SIMTEMP_MODE_NOISY then "noisy"
    else if mode sdev =? SIMTEMP_MODE_RAMP then "ramp"
    else "unknown" in
  (mode_str ++ newline)%string.

Definition mode_store (buf : string) (count : Z) (sdev : simtemp_device)
  : Z * simtemp_device :=
  if sysfs_streq buf "normal" then (count, set_mode SIMTEMP_MODE_NORMAL sdev)
  else if sysfs_streq buf "noisy" then (count, set_mode SIMTEMP_MODE_NOISY sdev)
  else if sysfs_streq buf "ramp" then (count, set_mode SIMTEMP_MODE_RAMP sdev)
  else (- EINVAL, sdev).

Definition stats_show (sdev : simtemp_device) : string :=
  ("total_samples: " ++ pretty (total_samples (stats sdev)) ++ newline ++
   "threshold_alerts: " ++ pretty (threshold_alerts (stats sdev)) ++ newline ++
   "read_count: " ++ pretty (read_count (stats sdev)) ++ newline ++
   "poll_count: " ++ pretty (poll_count (stats sdev)) ++ newline)%string.

(** ** The entry points as one step function

    Everything that can happen to a probed device: the timer fires, or
    user space calls one of the file operations or writes one of the
    attributes.  [None]: a blocking read that is still asleep when its
    events run out. *)

Inductive dev_op :=
  | OpTick (now random : Z)
  | OpOpen
  | OpRelease
  | OpRead (nonblock : bool) (count : Z) (user_ok : bool)
           (events : list wait_event)
  | OpPoll
  | OpStoreSampling (now : Z) (buf : string) (count : Z)
  | OpStoreThreshold (buf : string) (count : Z)
  | OpStoreMode (buf : string) (count : Z).

Definition dev_step (op : dev_op) (dev : simtemp_device)
  : option simtemp_device :=
  match op with
  | OpTick now random => Some (tick_dev (simtemp_timer_callback now random dev))
  | OpOpen => Some (snd (simtemp_open dev))
  | OpRelease => Some (snd (simtemp_release dev))
  | OpRead nonblock count user_ok events =>
      match simtemp_read nonblock count user_ok events dev with
      | Some r => Some (read_dev r)
      | None => None
      end
  | OpPoll => Some (snd (simtemp_poll dev))
  | OpStoreSampling now buf count => Some (snd (sampling_ms_store now buf count dev))
  | OpStoreThreshold buf count => Some (snd (threshold_mC_store buf count dev))
  | OpStoreMode buf count => Some (snd (mode_store buf count dev))
  end.

Fixpoint dev_run (ops : list dev_op) (dev : simtemp_device)
  : option simtemp_device :=
  match ops with
  | [] => Some dev
  | op :: ops' =>
      match dev_step op dev with
      | Some dev' => dev_run ops' dev'
      | None => None
      end
  end.

(** What holds of every device the driver can get into. *)
Definition sample_ok (s : simtemp_sample) : Prop :=
  30000 <= temp_mC s <= 70000 /\
  (flags s = SIMTEMP_FLAG_NEW_SAMPLE \/
   flags s = Z.lor SIMTEMP_FLAG_NEW_SAMPLE SIMTEMP_FLAG_THRESHOLD_CROSSED).

Definition dev_inv (dev : simtemp_device) : Prop :=
  rb_wf (ringbuf dev) /\
  Forall sample_ok (rb_contents (ringbuf dev)) /\
  SIMTEMP_SAMPLING_MS_MIN <= sampling_ms dev <= SIMTEMP_SAMPLING_MS_MAX /\
  sampling_period dev = ms_to_ktime (sampling_ms dev) /\
  recognized_mode (mode dev) = true /\
  ramp_inv dev /\
  hr_active (timer dev) = true.

(** ** Interleaved ring buffer traffic against a plain queue *)

Inductive rb_op :=
  | RbPut (s : simtemp_sample)
  | RbGet.

Inductive rb_out :=
  | PutRet (ret : Z)
  | GetRet (ret : Z) (s : simtemp_sample).

(** The driver's ring buffer under any interleaving of puts and gets
    (each get with a [zero_sample] out-parameter). *)
Fixpoint rb_run (ops : list rb_op) (rb : simtemp_ringbuf)
  : list rb_out * simtemp_ringbuf :=
  match ops with
  | [] => ([], rb)
  | RbPut s :: ops' =>
      let '(ret, rb1) := simtemp_ringbuf_put rb s in
      let '(outs, rb2) := rb_run ops' rb1 in
      (PutRet ret :: outs, rb2)
  | RbGet :: ops' =>
      let '(ret, s, rb1) := simtemp_ringbuf_get rb zero_sample in
      let '(outs, rb2) := rb_run ops' rb1 in
      (GetRet ret s :: outs, rb2)
  end.

(** The reference: a list used as a first-in first-out queue that
    refuses a put once it holds [cap] entries. *)
Fixpoint queue_run (cap : nat) (ops : list rb_op) (q : list simtemp_sample)
  : list rb_out * list simtemp_sample :=
  match ops with
  | [] => ([], q)
  | RbPut s :: ops' =>
      if (length q <? cap)%nat
      then let '(outs, q') := queue_run cap ops' (q ++ [s]) in
           (PutRet 0 :: outs, q')
      else let '(outs, q') := queue_run cap ops' q in
           (PutRet (- ENOSPC) :: outs, q')
  | RbGet :: ops' =>
      match q with
      | [] => let '(outs, q') := queue_run cap ops' q in
              (GetRet (- EAGAIN) zero_sample :: outs, q')
      | x :: q1 => let '(outs, q') := queue_run cap ops' q1 in
                   (GetRet 0 x :: outs, q')
      end
  end.

(** The net effect of an answered operation on the number of live
    entries: an accepted put adds one, a successful get takes one. *)
Definition accepted (o : rb_out) : Z :=
  match o with
  | PutRet ret => if ret =? 0 then 1 else 0
  | GetRet ret _ => if ret =? 0 then -1 else 0
  end.

Definition traffic_balance (outs : list rb_out) : Z :=
  fold_right (fun o acc => accepted o + acc) 0 outs.

(** [n] consecutive non-blocking reads into a writable 16-byte
    destination. *)
Fixpoint read_n (n : nat) (dev : simtemp_device)
  : list read_result * simtemp_device :=
  match n with
  | O => ([], dev)
  | S n' =>
      match simtemp_read true sizeof_simtemp_sample true [] dev with
      | Some r =>
          let '(rs, dev') := read_n n' (read_dev r) in (r :: rs, dev')
      | None => ([], dev)
      end
  end.

(** [n] consecutive polls; the masks in call order. *)
Fixpoint poll_n (n : nat) (dev : simtemp_device) : list Z * simtemp_device :=
  match n with
  | O => ([], dev)
  | S n' =>
      let '(mask, dev1) := simtemp_poll dev in
      let '(masks, dev2) := poll_n n' dev1 in
      (mask :: masks, dev2)
  end.

(** * The single-slot module

    The repository's second kernel module (misc device "fake_temp"): a
    work item formats the latest temperature and a timestamp into one
    text buffer; [read()] hands that text out once.  Its globals are
    the fields of [state]; the calendar time of a sample (what
    [ktime_get_real_ts64] and [time64_to_tm] deliver) is an argument of
    the work function, as are the random bytes. *)

Module FakeTemp.

(** [struct tm], the fields the module prints. *)
Record tm := {
  tm_sec : Z;
  tm_min : Z;
  tm_hour : Z;
  tm_mday : Z;
  tm_mon : Z;
  tm_year : Z   (* long *)
}.

Record state := {
  update_interval_ms : Z;   (* int *)
  temp_threshold : Z;       (* int *)
  current_temp : Z;         (* int *)
  temp_ready : Z;           (* int *)
  temp_buffer : string;     (* char[128]: the text up to its NUL *)
  temp_timer : hrtimer
}.

Definition POLLIN : Z := 1.
Definition POLLRDNORM : Z := 64.

(** Simulated temperature, 20 + (rand % 26) on [u32]. *)
Definition simulate_temperature (rand : Z) : Z :=
  20 + wrap_u32 rand mod 26.

(** [printf]'s [%0Nd]: decimal, zeros after the sign up to the field
    width ([%d] is width 0). *)
Fixpoint zeros (n : nat) : string :=
  match n with
  | O => EmptyString
  | S n' => String "0"%char (zeros n')
  end.

Definition fmt_d (width : nat) (z : Z) : string :=
  let digits := pretty (Z.abs z) in
  if z <? 0
  then (String "-"%char (zeros (width - 1 - String.length digits)) ++ digits)%string
  else (zeros (width - String.length digits) ++ digits)%string.

(** The two bytes of the degree sign in UTF-8. *)
Definition degree : string := String "194"%char (String "176"%char EmptyString).

(** The text [snprintf] leaves in the 128-byte buffer (at most 127
    bytes and the NUL). *)
Definition sample_text (temp : Z) (t : tm) : string :=
  String.substring 0 127
    ("Temp: " ++ fmt_d 0 temp ++ degree ++ "C Timestamp: " ++
     fmt_d 4 (tm_year t + 1900) ++ "-" ++ fmt_d 2 (tm_mon t + 1) ++ "-" ++
     fmt_d 2 (tm_mday t) ++ " " ++ fmt_d 2 (tm_hour t) ++ ":" ++
     fmt_d 2 (tm_min t) ++ ":" ++ fmt_d 2 (tm_sec t) ++ newline)%string.

(** The work item: new temperature, new text, ready flag. *)
Definition temp_work_func (rand : Z) (now_tm : tm) (st : state) : state :=
  let temp := simulate_temperature rand in
  {| update_interval_ms := update_interval_ms st;
     temp_threshold := temp_threshold st;
     current_temp := temp;
     temp_ready := 1;
     temp_buffer := sample_text temp now_tm;
     temp_timer := temp_timer st |}.

(** The timer callback queues the work item (run separately, see
    [temp_work_func]) and re-arms the timer with the interval current
    at that moment. *)
Definition temp_timer_callback (now : Z) (st : state) : state :=
  {| update_interval_ms := update_interval_ms st;
     temp_threshold := temp_threshold st;
     current_temp := current_temp st;
     temp_ready := temp_ready st;
     temp_buffer := temp_buffer st;
     temp_timer := hrtimer_forward_now (temp_timer st)
                     (ms_to_ktime (update_interval_ms st)) now |}.

(** The kernel's [simple_read_from_buffer] (fs/libfs.c).  [writable]:
    how many bytes of the destination [copy_to_user] can write before
    it faults ([None]: all of them).  Returns the status, the file
    position and the bytes copied. *)
Definition simple_read_from_buffer (writable : option Z) (count pos : Z)
    (from : string) : Z * Z * string :=
  let available := Z.of_nat (String.length from) in
  if pos <? 0 then (- EINVAL, pos, EmptyString)
  else if (pos >=? available) || (count =? 0) then (0, pos, EmptyString)
  else
    let count := if count >? available - pos then available - pos else count in
    let ret := match writable with
               | None => 0
               | Some w => Z.max 0 (count - Z.max 0 w)
               end in
    if ret =? count then (- EFAULT, pos, EmptyString)
    else
      let count := count - ret in
      (count, pos + count,
       String.substring (Z.to_nat pos) (Z.to_nat count) from).

Definition set_temp_ready (v : Z) (st : state) : state :=
  {| update_interval_ms := update_interval_ms st;
     temp_threshold := temp_threshold st;
     current_temp := current_temp st;
     temp_ready := v;
     temp_buffer := temp_buffer st;
     temp_timer := temp_timer st |}.

(** [read()]: status, new file position, bytes copied, state. *)
Definition temp_read (writable : option Z) (count ppos : Z) (st : state)
  : Z * Z * string * state :=
  if temp_ready st =? 0 then (0, ppos, EmptyString, st)
  else
    let st := set_temp_ready 0 st in
    (simple_read_from_buffer writable count ppos (temp_buffer st), st).

Definition temp_poll (st : state) : Z :=
  if temp_ready st =? 0 then 0 else Z.lor POLLIN POLLRDNORM.

Definition interval_show (st : state) : string :=
  (pretty (update_interval_ms st) ++ newline)%string.

Definition interval_store (buf : string) (count : Z) (st : state)
  : Z * state :=
  match kstrtoint buf with
  | KOk val =>
      if val >? 0
      then (count,
            {| update_interval_ms := val;
               temp_threshold := temp_threshold st;
               current_temp := current_temp st;
               temp_ready := temp_ready st;
               temp_buffer := temp_buffer st;
               temp_timer := temp_timer st |})
      else (count, st)
  | KErr _ => (count, st)
  end.

Definition threshold_show (st : state) : string :=
  (pretty (temp_threshold st) ++ newline)%string.

Definition threshold_store (buf : string) (count : Z) (st : state)
  : Z * state :=
  match kstrtoint buf with
  | KOk val =>
      (count,
       {| update_interval_ms := update_interval_ms st;
          temp_threshold := val;
          current_temp := current_temp st;
          temp_ready := temp_ready st;
          temp_buffer := temp_buffer st;
          temp_timer := temp_timer st |})
  | KErr _ => (count, st)
  end.

(** The state [temp_module_init] leaves when its registrations
    succeed: the initialised globals and the timer started. *)
Definition temp_module_init (now : Z) : state :=
  {| update_interval_ms := 1000;
     temp_threshold := 35;
     current_temp := 0;
     temp_ready := 0;
     temp_buffer := EmptyString;
     temp_timer := hrtimer_start hrtimer_init (ms_to_ktime 1000) now |}.

(** A calendar time as [time64_to_tm] produces it, with a four-digit
    year. *)
Definition calendar (t : tm) : Prop :=
  0 <= tm_sec t <= 59 /\ 0 <= tm_min t <= 59 /\ 0 <= tm_hour t <= 23 /\
  1 <= tm_mday t <= 31 /\ 0 <= tm_mon t <= 11 /\
  1000 <= tm_year t + 1900 <= 9999.

End FakeTemp.

(** * Ring buffer: arithmetic of the masked indices *)

Lemma land_mask (x : Z) : 0 <= x -> Z.land x RING_BUFFER_MASK = x mod 64.
Proof.
  intros Hx. change RING_BUFFER_MASK with (Z.ones 6).
  now rewrite Z.land_ones by lia.
Qed.

Lemma next_index (i : Z) :
  0 <= i < 64 -> Z.land (wrap_u32 (i + 1)) RING_BUFFER_MASK = (i + 1) mod 64.
Proof.
  intros Hi. unfold wrap_u32.
  rewrite land_mask by (apply Z.mod_pos_bound; lia).
  rewrite (Z.mod_small (i + 1)) by lia. reflexivity.
Qed.

Lemma count_mod (rb : simtemp_ringbuf) :
  rb_wf rb -> simtemp_ringbuf_count rb = (head rb - tail rb) mod 64.
Proof.
  intros (_ & Hh & Ht). unfold RING_BUFFER_SIZE in *.
  unfold simtemp_ringbuf_count, wrap_u32.
  rewrite land_mask by (apply Z.mod_pos_bound; lia).
  Z.to_euclidean_division_equations; lia.
Qed.

Lemma count_range (rb : simtemp_ringbuf) :
  rb_wf rb -> 0 <= simtemp_ringbuf_count rb <= 63.
Proof.
  intros Hwf. rewrite (count_mod rb Hwf).
  pose proof (Z.mod_pos_bound (head rb - tail rb) 64). lia.
Qed.

Lemma contents_length (rb : simtemp_ringbuf) :
  length (rb_contents rb) = Z.to_nat (simtemp_ringbuf_count rb).
Proof. unfold rb_contents. now rewrite length_map, length_seq. Qed.

Lemma init_wf (rb : simtemp_ringbuf) : rb_wf (simtemp_ringbuf_init rb).
Proof.
  split; [reflexivity|].
  unfold simtemp_ringbuf_init, RING_BUFFER_SIZE; simpl. lia.
Qed.

Lemma init_contents (rb : simtemp_ringbuf) :
  rb_contents (simtemp_ringbuf_init rb) = [].
Proof. reflexivity. Qed.

(** * Ring buffer: one put, one get *)

Lemma empty_iff_contents (rb : simtemp_ringbuf) :
  rb_wf rb -> simtemp_ringbuf_empty rb = true <-> rb_contents rb = [].
Proof.
  intros Hwf. pose proof (count_mod rb Hwf) as Hc.
  destruct Hwf as (_ & Hh & Ht). unfold RING_BUFFER_SIZE in *.
  unfold simtemp_ringbuf_empty. rewrite Z.eqb_eq. split.
  - intros Heq. unfold rb_contents. rewrite Hc, Heq, Z.sub_diag. reflexivity.
  - intros Hnil. apply (f_equal (@length _)) in Hnil.
    rewrite contents_length, Hc in Hnil. simpl in Hnil.
    assert ((head rb - tail rb) mod 64 = 0) as H0.
    { pose proof (Z.mod_pos_bound (head rb - tail rb) 64). lia. }
    revert H0. Z.to_euclidean_division_equations; lia.
Qed.

Lemma put_full (rb : simtemp_ringbuf) (s : simtemp_sample) :
  rb_wf rb -> simtemp_ringbuf_count rb = 63 ->
  simtemp_ringbuf_put rb s = (- ENOSPC, rb).
Proof.
  intros Hwf Hfull. rewrite (count_mod rb Hwf) in Hfull.
  destruct Hwf as (_ & Hh & Ht). unfold RING_BUFFER_SIZE in *.
  unfold simtemp_ringbuf_put. rewrite next_index by lia.
  replace ((head rb + 1) mod 64 =? tail rb) with true; [reflexivity|].
  symmetry. apply Z.eqb_eq.
  revert Hfull. Z.to_euclidean_division_equations; lia.
Qed.

Lemma put_room (rb : simtemp_ringbuf) (s : simtemp_sample) :
  rb_wf rb -> simtemp_ringbuf_count rb < 63 ->
  exists rb',
    simtemp_ringbuf_put rb s = (0, rb') /\ rb_wf rb' /\
    rb_contents rb' = rb_contents rb ++ [s].
Proof.
  intros Hwf Hroom. pose proof (count_mod rb Hwf) as Hc.
  pose proof (count_range rb Hwf) as Hr.
  destruct Hwf as (Hlen & Hh & Ht). unfold RING_BUFFER_SIZE in *.
  unfold simtemp_ringbuf_put. rewrite next_index by lia.
  assert ((head rb + 1) mod 64 <> tail rb) as Hne.
  { revert Hroom. rewrite Hc. Z.to_euclidean_division_equations; lia. }
  apply Z.eqb_neq in Hne. rewrite Hne.
  eexists; split; [reflexivity|].
  set (rb' := {| buffer := _; head := _; tail := _ |}).
  assert (rb_wf rb') as Hwf'.
  { unfold rb_wf, RING_BUFFER_SIZE; simpl. rewrite length_insert.
    pose proof (Z.mod_pos_bound (head rb + 1) 64). lia. }
  split; [exact Hwf'|].
  assert (simtemp_ringbuf_count rb' = simtemp_ringbuf_count rb + 1) as Hc'.
  { rewrite (count_mod rb' Hwf'), Hc; simpl.
    apply Z.eqb_neq in Hne. revert Hne Hroom. rewrite Hc.
    Z.to_euclidean_division_equations; lia. }
  unfold rb_contents. rewrite Hc'.
  replace (Z.to_nat (simtemp_ringbuf_count rb + 1))
    with (Z.to_nat (simtemp_ringbuf_count rb) + 1)%nat by lia.
  rewrite seq_app, map_app; simpl. f_equal.
  - apply map_ext_in. intros i Hi. apply in_seq in Hi.
    unfold rb_slot, RING_BUFFER_SIZE; simpl.
    apply list_lookup_total_insert_ne.
    assert (Z.of_nat i < (head rb - tail rb) mod 64) as Hlt by lia.
    assert ((tail rb + Z.of_nat i) mod 64 <> head rb) as Hd.
    { revert Hlt. Z.to_euclidean_division_equations; lia. }
    pose proof (Z.mod_pos_bound (tail rb + Z.of_nat i) 64). lia.
  - f_equal. unfold rb_slot, RING_BUFFER_SIZE; simpl.
    replace ((tail rb + Z.of_nat (Z.to_nat (simtemp_ringbuf_count rb))) mod 64)
      with (head rb).
    + apply list_lookup_total_insert_eq. lia.
    + rewrite Z2Nat.id by lia. rewrite Hc.
      Z.to_euclidean_division_equations; lia.
Qed.

Lemma get_empty (rb : simtemp_ringbuf) (s0 : simtemp_sample) :
  rb_wf rb -> rb_contents rb = [] ->
  simtemp_ringbuf_get rb s0 = (- EAGAIN, s0, rb).
Proof.
  intros Hwf Hnil. apply (empty_iff_contents rb Hwf) in Hnil.
  unfold simtemp_ringbuf_get. now rewrite Hnil.
Qed.

Lemma get_cons (rb : simtemp_ringbuf) (s0 x : simtemp_sample)
    (l : list simtemp_sample) :
  rb_wf rb -> rb_contents rb = x :: l ->
  exists rb',
    simtemp_ringbuf_get rb s0 = (0, x, rb') /\ rb_wf rb' /\
    rb_contents rb' = l /\ buffer rb' = buffer rb /\ head rb' = head rb.
Proof.
  intros Hwf Hcons. pose proof (count_mod rb Hwf) as Hc.
  pose proof (count_range rb Hwf) as Hr.
  assert (simtemp_ringbuf_empty rb = false) as Hne.
  { destruct (simtemp_ringbuf_empty rb) eqn:E; [|reflexivity].
    apply (empty_iff_contents rb Hwf) in E. congruence. }
  assert (0 < simtemp_ringbuf_count rb) as Hpos.
  { apply (f_equal (@length _)) in Hcons.
    rewrite contents_length in Hcons. simpl in Hcons. lia. }
  destruct Hwf as (Hlen & Hh & Ht). unfold RING_BUFFER_SIZE in *.
  unfold simtemp_ringbuf_get. rewrite Hne, next_index by lia.
  set (rb' := {| buffer := _; head := _; tail := _ |}).
  assert (rb_wf rb') as Hwf'.
  { unfold rb_wf, RING_BUFFER_SIZE; simpl.
    pose proof (Z.mod_pos_bound (tail rb + 1) 64). lia. }
  assert (simtemp_ringbuf_count rb = simtemp_ringbuf_count rb' + 1) as Hc'.
  { rewrite (count_mod rb' Hwf'), Hc; simpl.
    revert Hpos. rewrite Hc. Z.to_euclidean_division_equations; lia. }
  assert (rb_contents rb = rb_slot rb 0 :: rb_contents rb') as Hsplit.
  { unfold rb_contents. rewrite Hc'.
    replace (Z.to_nat (simtemp_ringbuf_count rb' + 1))
      with (S (Z.to_nat (simtemp_ringbuf_count rb')))
      by (pose proof (count_range rb' Hwf'); lia).
    rewrite <- cons_seq, <- seq_shift, map_cons, map_map. f_equal.
    apply map_ext. intros i. unfold rb_slot, RING_BUFFER_SIZE; simpl.
    f_equal. f_equal. Z.to_euclidean_division_equations; lia. }
  rewrite Hsplit in Hcons. injection Hcons as Hx Hl.
  exists rb'.
  split; [|split; [exact Hwf'|split; [exact Hl|split; reflexivity]]].
  f_equal. f_equal. rewrite <- Hx. unfold rb_slot, RING_BUFFER_SIZE.
  f_equal. f_equal. simpl. rewrite Z.add_0_r. symmetry. apply Z.mod_small. lia.
Qed.

(** * Ring buffer: runs of puts and gets *)

(** Puts are accepted while there is room and refused afterwards; the
    refused samples leave the buffer as it is. *)
Lemma put_all_spec (samples : list simtemp_sample) :
  forall rb : simtemp_ringbuf,
    rb_wf rb ->
    let room := (63 - length (rb_contents rb))%nat in
    exists rb',
      put_all samples rb =
        (replicate (min room (length samples)) 0 ++
         replicate (length samples - room) (- ENOSPC), rb') /\
      rb_wf rb' /\
      rb_contents rb' = rb_contents rb ++ take room samples.
Proof.
  induction samples as [|s samples IH]; intros rb Hwf room.
  - exists rb. simpl. rewrite Nat.min_0_r, take_nil. repeat rewrite app_nil_r.
    simpl. auto.
  - pose proof (count_range rb Hwf) as Hr.
    pose proof (contents_length rb) as Hlen.
    destruct (Z.eq_dec (simtemp_ringbuf_count rb) 63) as [Hfull|Hroom].
    + assert (room = 0%nat) as -> by (unfold room; lia).
      destruct (IH rb Hwf) as (rb' & Hput & Hwf' & Hc').
      replace (63 - length (rb_contents rb))%nat with 0%nat in * by lia.
      exists rb'. simpl. rewrite (put_full rb s Hwf Hfull), Hput.
      simpl. rewrite Nat.sub_0_r. rewrite take_0 in *. auto.
    + destruct (put_room rb s Hwf) as (rb1 & Hput1 & Hwf1 & Hc1); [lia|].
      destruct (IH rb1 Hwf1) as (rb' & Hput & Hwf' & Hc').
      rewrite Hc1, length_app in Hput, Hc'. simpl in Hput, Hc'.
      assert (exists room', room = S room') as (room' & Hroom').
      { exists (room - 1)%nat. unfold room. lia. }
      replace (63 - (length (rb_contents rb) + 1))%nat with room' in *
        by (unfold room in Hroom'; lia).
      exists rb'. simpl. rewrite Hput1, Hput, Hroom'. simpl.
      rewrite <- app_assoc in Hc'. auto.
Qed.

(** Gets hand back the live entries oldest first. *)
Lemma get_n_spec (l : list simtemp_sample) :
  forall (rb : simtemp_ringbuf) (rest : list simtemp_sample),
    rb_wf rb -> rb_contents rb = l ++ rest ->
    exists rb',
      get_n (length l) rb = (map (fun s => (0, s)) l, rb') /\
      rb_wf rb' /\ rb_contents rb' = rest.
Proof.
  induction l as [|x l IH]; intros rb rest Hwf Hc.
  - exists rb. auto.
  - destruct (get_cons rb zero_sample x (l ++ rest) Hwf Hc)
      as (rb1 & Hget & Hwf1 & Hc1 & _).
    destruct (IH rb1 rest Hwf1 Hc1) as (rb' & Hgets & Hwf' & Hc').
    exists rb'. simpl. rewrite Hget, Hgets. auto.
Qed.

(** * The generator and the timer callback: what a tick touches *)

(** The generator writes the ramp state only. *)
Lemma generate_frame (random : Z) (dev : simtemp_device) :
  let dev' := snd (simtemp_generate_temperature random dev) in
  timer dev' = timer dev /\
  sampling_period dev' = sampling_period dev /\
  ringbuf dev' = ringbuf dev /\
  sampling_ms dev' = sampling_ms dev /\
  threshold_mC dev' = threshold_mC dev /\
  mode dev' = mode dev /\
  stats dev' = stats dev /\
  threshold_crossed dev' = threshold_crossed dev /\
  device_open dev' = device_open dev.
Proof.
  unfold simtemp_generate_temperature.
  repeat match goal with
         | |- context [if ?b then _ else _] => destruct b
         end; simpl; tauto.
Qed.

(** The callback with its intermediate values named. *)
Lemma timer_callback_unfold (now random : Z) (dev : simtemp_device) :
  simtemp_timer_callback now random dev =
    let temp := fst (simtemp_generate_temperature random dev) in
    let d1 := snd (simtemp_generate_temperature random dev) in
    let fire := (temp >? threshold_mC d1) && negb (threshold_crossed d1) in
    let sample :=
      {| timestamp_ns := now; temp_mC := temp;
         flags := if fire
                  then Z.lor SIMTEMP_FLAG_NEW_SAMPLE SIMTEMP_FLAG_THRESHOLD_CROSSED
                  else SIMTEMP_FLAG_NEW_SAMPLE |} in
    let d2 :=
      if fire
      then set_stats (inc_threshold_alerts (stats d1))
                     (set_threshold_crossed true d1)
      else if temp >? threshold_mC d1 then d1
           else set_threshold_crossed false d1 in
    let p := simtemp_ringbuf_put (ringbuf d2) sample in
    {| tick_dev :=
         set_timer (hrtimer_forward_now (timer d2) (sampling_period d2) now)
           (set_stats (inc_total_samples (stats d2)) (set_ringbuf (snd p) d2));
       tick_sample := sample;
       tick_ret := fst p |}.
Proof.
  unfold simtemp_timer_callback.
  destruct (simtemp_generate_temperature random dev) as [temp d1]. simpl.
  destruct (temp >? threshold_mC d1); [destruct (threshold_crossed d1)|];
    simpl;
    match goal with
    | |- context [simtemp_ringbuf_put ?rb ?s] =>
        destruct (simtemp_ringbuf_put rb s) as [ret rb']
    end; reflexivity.
Qed.

(** The sample a tick builds is the one it offers to the ring buffer,
    and the status it gets back is the put's. *)
Lemma tick_put (now random : Z) (dev : simtemp_device) :
  let r := simtemp_timer_callback now random dev in
  simtemp_ringbuf_put (ringbuf dev) (tick_sample r) =
    (tick_ret r, ringbuf (tick_dev r)).
Proof.
  pose proof (generate_frame random dev) as (_ & _ & Hrb & _).
  rewrite timer_callback_unfold. simpl in *.
  set (d1 := snd (simtemp_generate_temperature random dev)) in *.
  set (temp := fst (simtemp_generate_temperature random dev)).
  destruct ((temp >? threshold_mC d1) && negb (threshold_crossed d1));
    [|destruct (temp >? threshold_mC d1)]; simpl; rewrite Hrb;
    apply surjective_pairing.
Qed.

(** Every tick counts one sample, accepted or not; the consumers'
    counters and [last_error] are not the producer's to write. *)
Lemma tick_stats (now random : Z) (dev : simtemp_device) :
  let r := simtemp_timer_callback now random dev in
  total_samples (stats (tick_dev r)) = wrap_u64 (total_samples (stats dev) + 1) /\
  read_count (stats (tick_dev r)) = read_count (stats dev) /\
  poll_count (stats (tick_dev r)) = poll_count (stats dev) /\
  last_error (stats (tick_dev r)) = last_error (stats dev).
Proof.
  pose proof (generate_frame random dev) as (_ & _ & _ & _ & _ & _ & Hst & _).
  rewrite timer_callback_unfold. simpl in *.
  set (d1 := snd (simtemp_generate_temperature random dev)) in *.
  set (temp := fst (simtemp_generate_temperature random dev)).
  destruct ((temp >? threshold_mC d1) && negb (threshold_crossed d1));
    [|destruct (temp >? threshold_mC d1)]; simpl; rewrite Hst; auto.
Qed.

(** The threshold latch, in terms of the temperature of the sample the
    tick built: the flag and the alert counter move on an upward
    crossing only, and the latch follows the comparison. *)
Lemma tick_latch (now random : Z) (dev : simtemp_device) :
  let r := simtemp_timer_callback now random dev in
  let t := temp_mC (tick_sample r) in
  threshold_mC (tick_dev r) = threshold_mC dev /\
  threshold_crossed (tick_dev r) = (t >? threshold_mC dev) /\
  flags (tick_sample r) =
    (if (t >? threshold_mC dev) && negb (threshold_crossed dev)
     then Z.lor SIMTEMP_FLAG_NEW_SAMPLE SIMTEMP_FLAG_THRESHOLD_CROSSED
     else SIMTEMP_FLAG_NEW_SAMPLE) /\
  threshold_alerts (stats (tick_dev r)) =
    (if (t >? threshold_mC dev) && negb (threshold_crossed dev)
     then wrap_u64 (threshold_alerts (stats dev) + 1)
     else threshold_alerts (stats dev)).
Proof.
  pose proof (generate_frame random dev)
    as (_ & _ & _ & _ & Hthr & _ & Hst & Hcr & _).
  rewrite timer_callback_unfold. simpl in *.
  set (d1 := snd (simtemp_generate_temperature random dev)) in *.
  set (temp := fst (simtemp_generate_temperature random dev)).
  rewrite <- Hthr, <- Hst, <- Hcr.
  destruct (temp >? threshold_mC d1) eqn:Hgt;
    destruct (threshold_crossed d1) eqn:Hc; simpl; rewrite ?Hgt, ?Hc; auto.
Qed.

(** A run of ticks is, for the ring buffer, a run of puts of the
    samples built. *)
Lemma run_ticks_put_all (inputs : list (Z * Z)) :
  forall dev : simtemp_device,
    put_all (map tick_sample (fst (run_ticks inputs dev))) (ringbuf dev) =
      (map tick_ret (fst (run_ticks inputs dev)),
       ringbuf (snd (run_ticks inputs dev))).
Proof.
  induction inputs as [|[now random] inputs IH]; intros dev; [reflexivity|].
  simpl. specialize (IH (tick_dev (simtemp_timer_callback now random dev))).
  destruct (run_ticks inputs (tick_dev (simtemp_timer_callback now random dev)))
    as [rs dev'].
  simpl in *. rewrite (tick_put now random dev), IH. reflexivity.
Qed.

Lemma run_ticks_length (inputs : list (Z * Z)) :
  forall dev : simtemp_device,
    length (fst (run_ticks inputs dev)) = length inputs.
Proof.
  induction inputs as [|[now random] inputs IH]; intros dev; [reflexivity|].
  simpl. specialize (IH (tick_dev (simtemp_timer_callback now random dev))).
  destruct (run_ticks inputs _) as [rs dev']. simpl in *. now rewrite IH.
Qed.

Lemma run_ticks_stats (inputs : list (Z * Z)) :
  forall (input : Z * Z) (dev : simtemp_device),
    let dev' := snd (run_ticks (input :: inputs) dev) in
    total_samples (stats dev') =
      wrap_u64 (total_samples (stats dev) + Z.of_nat (S (length inputs))) /\
    read_count (stats dev') = read_count (stats dev) /\
    poll_count (stats dev') = poll_count (stats dev) /\
    last_error (stats dev') = last_error (stats dev).
Proof.
  induction inputs as [|input' inputs IH]; intros [now random] dev.
  - simpl. apply tick_stats.
  - specialize (IH input' (tick_dev (simtemp_timer_callback now random dev))).
    pose proof (tick_stats now random dev) as (Ht & Hr & Hp & He).
    cbv zeta in *. rewrite Ht, Hr, Hp, He in IH.
    remember (input' :: inputs) as rest.
    simpl. destruct (run_ticks rest _) as [rs dev']. simpl in *.
    destruct IH as (IHt & IHr & IHp & IHe). subst rest.
    repeat split; try assumption.
    rewrite IHt. unfold wrap_u64. rewrite Zplus_mod_idemp_l.
    f_equal. simpl length. lia.
Qed.

(** * Claims about the ring buffer *)

(** C4: for every sequence of N <= 63 samples, pushing them into an
    empty ring buffer and then popping N times succeeds at every push
    and every pop (status 0), and the popped samples are the pushed
    ones in push order; the buffer is empty again afterwards. *)
Theorem C4_fifo_order (rb : simtemp_ringbuf) (samples : list simtemp_sample) :
  rb_wf rb ->
  simtemp_ringbuf_empty rb = true ->
  (length samples <= 63)%nat ->
  let n := length samples in
  let puts := put_all samples rb in
  let gets := get_n n (snd puts) in
  fst puts = replicate n 0 /\
  fst gets = map (fun s => (0, s)) samples /\
  simtemp_ringbuf_empty (snd gets) = true.
Proof.
  intros Hwf Hempty Hlen n puts gets.
  apply (empty_iff_contents rb Hwf) in Hempty.
  destruct (put_all_spec samples rb Hwf) as (rb1 & Hput & Hwf1 & Hc1).
  rewrite Hempty in Hput, Hc1.
  change (63 - length (@nil simtemp_sample))%nat with 63%nat in Hput, Hc1.
  rewrite Nat.min_r in Hput by lia.
  replace (length samples - 63)%nat with 0%nat in Hput by lia.
  rewrite take_ge in Hc1 by lia.
  simpl in Hput, Hc1. rewrite app_nil_r in Hput.
  destruct (get_n_spec samples rb1 [] Hwf1) as (rb2 & Hget & Hwf2 & Hc2).
  { now rewrite app_nil_r. }
  subst gets puts n. rewrite Hput. simpl. rewrite Hget. simpl.
  repeat split. now apply empty_iff_contents.
Qed.

Lemma C4_fifo_order_witness :
  let rb := simtemp_ringbuf_init
              {| buffer := []; head := 7; tail := 3 |} in
  let samples :=
    [ {| timestamp_ns := 100; temp_mC := 40500; flags := 1 |};
      {| timestamp_ns := 200; temp_mC := 46000; flags := 3 |};
      {| timestamp_ns := 300; temp_mC := 41500; flags := 1 |} ] in
  fst (put_all samples rb) = [0; 0; 0] /\
  fst (get_n 3 (snd (put_all samples rb))) = map (fun s => (0, s)) samples /\
  simtemp_ringbuf_empty (snd (get_n 3 (snd (put_all samples rb)))) = true.
Proof.
  intros rb samples.
  apply (C4_fifo_order rb samples).
  - split; [reflexivity|]. simpl. unfold RING_BUFFER_SIZE. lia.
  - reflexivity.
  - simpl. lia.
Defined.

(** * Claims about the producer's tick *)

(** C1 (as amended): 70 ticks into a device whose ring buffer is empty,
    with no read in between: the first 63 puts return 0 and the last 7
    return -ENOSPC; the buffer then holds 63 samples, namely the first
    63 built, oldest first, so nothing buffered was evicted and the 7
    incoming samples were dropped.  No counter records a drop:
    [total_samples] counts all 70 ticks, and [read_count], [poll_count]
    and [last_error] are as before.  Any further tick on the full
    buffer is refused the same way and leaves the ring buffer as it
    is. *)
Theorem C1_overflow_drops_incoming (dev : simtemp_device)
    (inputs : list (Z * Z)) :
  rb_wf (ringbuf dev) ->
  simtemp_ringbuf_empty (ringbuf dev) = true ->
  length inputs = 70%nat ->
  let rs := fst (run_ticks inputs dev) in
  let dev' := snd (run_ticks inputs dev) in
  map tick_ret rs = replicate 63 0 ++ replicate 7 (- ENOSPC) /\
  simtemp_ringbuf_count (ringbuf dev') = 63 /\
  rb_contents (ringbuf dev') = map tick_sample (take 63 rs) /\
  total_samples (stats dev') = wrap_u64 (total_samples (stats dev) + 70) /\
  read_count (stats dev') = read_count (stats dev) /\
  poll_count (stats dev') = poll_count (stats dev) /\
  last_error (stats dev') = last_error (stats dev) /\
  forall now random : Z,
    let r := simtemp_timer_callback now random dev' in
    tick_ret r = - ENOSPC /\
    ringbuf (tick_dev r) = ringbuf dev' /\
    total_samples (stats (tick_dev r)) =
      wrap_u64 (total_samples (stats dev') + 1) /\
    read_count (stats (tick_dev r)) = read_count (stats dev') /\
    poll_count (stats (tick_dev r)) = poll_count (stats dev') /\
    last_error (stats (tick_dev r)) = last_error (stats dev').
Proof.
  intros Hwf Hempty Hlen rs dev'.
  apply (empty_iff_contents _ Hwf) in Hempty.
  pose proof (run_ticks_put_all inputs dev) as Hrun.
  pose proof (run_ticks_length inputs dev) as Hrs.
  fold rs dev' in Hrun, Hrs.
  destruct (put_all_spec (map tick_sample rs) (ringbuf dev) Hwf)
    as (rb' & Hput & Hwf' & Hc').
  rewrite Hrun in Hput. injection Hput as Hrets Hrb. subst rb'.
  rewrite Hempty, length_map, Hrs, Hlen in Hrets.
  change (63 - length (@nil simtemp_sample))%nat with 63%nat in Hrets.
  simpl in Hrets.
  rewrite Hempty in Hc'.
  change (63 - length (@nil simtemp_sample))%nat with 63%nat in Hc'.
  rewrite firstn_map in Hc'. simpl in Hc'.
  assert (simtemp_ringbuf_count (ringbuf dev') = 63) as Hcount.
  { pose proof (contents_length (ringbuf dev')) as Hl.
    pose proof (count_range _ Hwf').
    rewrite Hc', length_map, length_take, Hrs, Hlen in Hl. simpl in Hl. lia. }
  assert (exists input inputs', inputs = input :: inputs'
                                /\ length inputs' = 69%nat)
    as (input & inputs' & -> & Hlen').
  { destruct inputs as [|input inputs']; [discriminate|].
    exists input, inputs'. split; [reflexivity|]. simpl in Hlen. lia. }
  pose proof (run_ticks_stats inputs' input dev) as (Ht & Hr & Hp & He).
  fold dev' in Ht, Hr, Hp, He. rewrite Hlen' in Ht.
  repeat split; try assumption.
  - pose proof (tick_put now random dev') as Hp1. simpl in Hp1.
    rewrite (put_full _ _ Hwf' Hcount) in Hp1. congruence.
  - pose proof (tick_put now random dev') as Hp1. simpl in Hp1.
    rewrite (put_full _ _ Hwf' Hcount) in Hp1. congruence.
  - apply tick_stats.
  - apply tick_stats.
  - apply tick_stats.
  - apply tick_stats.
Qed.

Lemma C1_overflow_drops_incoming_witness :
  let rs := fst (run_ticks (quiet_ticks 70) probed) in
  let dev' := snd (run_ticks (quiet_ticks 70) probed) in
  map tick_ret rs = replicate 63 0 ++ replicate 7 (- ENOSPC) /\
  simtemp_ringbuf_count (ringbuf dev') = 63 /\
  rb_contents (ringbuf dev') = map tick_sample (take 63 rs) /\
  total_samples (stats dev') = wrap_u64 (total_samples (stats probed) + 70).
Proof.
  assert (rb_wf (ringbuf probed)) as Hwf.
  { split; [reflexivity|]. simpl. unfold RING_BUFFER_SIZE. lia. }
  assert (simtemp_ringbuf_empty (ringbuf probed) = true) as Hempty
    by reflexivity.
  assert (length (quiet_ticks 70) = 70%nat) as Hlen by reflexivity.
  pose proof (C1_overflow_drops_incoming probed (quiet_ticks 70)
                Hwf Hempty Hlen) as (H1 & H2 & H3 & H4 & _).
  repeat split; assumption.
Defined.

(** C1, the claim as stated, fails: the driver has no drop indicator.
    On the probed device with a full ring buffer, a tick whose put is
    refused leaves the device as it was except for [total_samples] and
    the re-armed timer, and [total_samples] goes up on an accepted tick
    just the same: no field of the statistics goes up by one on the
    drop and stays put on an accepted push. *)
Lemma C1_no_drop_indicator :
  let accepted := simtemp_timer_callback (ms_to_ktime 100) 2000 probed in
  let dropped := simtemp_timer_callback (ms_to_ktime 6400) 2000 probed_full in
  tick_ret accepted = 0 /\
  tick_ret dropped = - ENOSPC /\
  tick_dev dropped =
    set_timer (timer (tick_dev dropped))
      (set_stats (inc_total_samples (stats probed_full)) probed_full) /\
  Forall (fun f : simtemp_stats -> Z =>
            ~ (f (stats (tick_dev dropped)) = f (stats probed_full) + 1 /\
               f (stats (tick_dev accepted)) = f (stats probed)))
         stats_fields.
Proof.
  intros accepted dropped.
  split; [reflexivity|]. split; [reflexivity|]. split; [reflexivity|].
  repeat constructor; intros [Hdrop Hacc]; vm_compute in Hdrop, Hacc;
    congruence.
Qed.

(** * The threshold latch *)

Lemma run_ticks_cons (now random : Z) (inputs : list (Z * Z))
    (dev : simtemp_device) :
  fst (run_ticks ((now, random) :: inputs) dev) =
    simtemp_timer_callback now random dev ::
    fst (run_ticks inputs (tick_dev (simtemp_timer_callback now random dev))).
Proof.
  simpl. now destruct (run_ticks inputs _).
Qed.

(** The driver's tick refines the latch of the design: over any run of
    ticks, the threshold-crossed flags of the samples built are the
    alerts of [latch_run] on their temperatures, and the alert counter
    follows [count_alerts]. *)
Lemma run_ticks_latch (inputs : list (Z * Z)) :
  forall dev : simtemp_device,
    let rs := fst (run_ticks inputs dev) in
    let fired :=
      latch_run (threshold_mC dev) (threshold_crossed dev)
        (map (fun r => temp_mC (tick_sample r)) rs) in
    map (fun r => crossed_flag (tick_sample r)) rs = fired /\
    map (fun r => threshold_alerts (stats (tick_dev r))) rs =
      count_alerts (threshold_alerts (stats dev)) fired.
Proof.
  induction inputs as [|[now random] inputs IH]; intros dev; [now split|].
  cbv zeta. rewrite run_ticks_cons.
  pose proof (tick_latch now random dev) as (Hthr & Hcr & Hfl & Hal).
  cbv zeta in Hthr, Hcr, Hfl, Hal.
  set (r := simtemp_timer_callback now random dev) in *.
  specialize (IH (tick_dev r)). cbv zeta in IH.
  rewrite Hthr, Hcr in IH. destruct IH as (IHf & IHa).
  rewrite !map_cons. unfold latch_run; fold latch_run.
  unfold count_alerts; fold count_alerts. unfold latch_step.
  assert (crossed_flag (tick_sample r) =
            (temp_mC (tick_sample r) >? threshold_mC dev)
            && negb (threshold_crossed dev)) as Hflag.
  { unfold crossed_flag. rewrite Hfl.
    now destruct ((temp_mC (tick_sample r) >? threshold_mC dev)
                  && negb (threshold_crossed dev)). }
  destruct (temp_mC (tick_sample r) >? threshold_mC dev) eqn:Hgt;
    simpl in Hflag, Hal |- *; rewrite Hflag, IHf, IHa, Hal;
    destruct (threshold_crossed dev); simpl; auto.
Qed.

(** C2: with threshold 45000 and the latch initially clear, a run of
    ticks whose samples carry the temperatures 40000, 46000, 47000,
    44000, 46000 sets the threshold-crossed flag exactly on the second
    and the fifth sample, and [threshold_alerts] goes up by one exactly
    at those two ticks (not at the third, sustained above, nor at the
    fourth, the downward crossing). *)
Theorem C2_latch_single_fire (dev : simtemp_device) (inputs : list (Z * Z)) :
  threshold_mC dev = 45000 ->
  threshold_crossed dev = false ->
  map (fun r => temp_mC (tick_sample r)) (fst (run_ticks inputs dev)) =
    [40000; 46000; 47000; 44000; 46000] ->
  let rs := fst (run_ticks inputs dev) in
  let a := threshold_alerts (stats dev) in
  map (fun r => crossed_flag (tick_sample r)) rs =
    [false; true; false; false; true] /\
  map (fun r => threshold_alerts (stats (tick_dev r))) rs =
    [a; wrap_u64 (a + 1); wrap_u64 (a + 1); wrap_u64 (a + 1);
     wrap_u64 (wrap_u64 (a + 1) + 1)].
Proof.
  intros Hthr Hcr Htemps rs a.
  pose proof (run_ticks_latch inputs dev) as (Hf & Ha).
  cbv zeta in Hf, Ha. fold rs in Hf, Ha, Htemps.
  rewrite Htemps, Hthr, Hcr in Hf, Ha.
  split; [exact Hf | exact Ha].
Qed.

Lemma C2_latch_single_fire_witness :
  let dev := {| timer := timer probed; sampling_period := sampling_period probed;
                ringbuf := ringbuf probed; sampling_ms := sampling_ms probed;
                threshold_mC := 45000; mode := SIMTEMP_MODE_NOISY;
                current_temp_mC := 40000; ramp_direction := true;
                stats := zero_stats; threshold_crossed := false;
                device_open := true |} in
  let inputs := [(100, 10000); (200, 16000); (300, 17000); (400, 14000);
                 (500, 16000)] in
  let rs := fst (run_ticks inputs dev) in
  map (fun r => temp_mC (tick_sample r)) rs =
    [40000; 46000; 47000; 44000; 46000] /\
  map (fun r => flags (tick_sample r)) rs = [1; 3; 1; 1; 3] /\
  map (fun r => crossed_flag (tick_sample r)) rs =
    [false; true; false; false; true] /\
  map (fun r => threshold_alerts (stats (tick_dev r))) rs = [0; 1; 1; 1; 2].
Proof.
  intros dev inputs rs.
  split; [reflexivity|]. split; [reflexivity|].
  pose proof (C2_latch_single_fire dev inputs eq_refl eq_refl eq_refl)
    as (Hf & Ha).
  split; [exact Hf | exact Ha].
Defined.

(** * The temperature generator *)

Lemma wrap_s32_small (x : Z) : - 2 ^ 31 <= x < 2 ^ 31 -> wrap_s32 x = x.
Proof.
  intros Hx. unfold wrap_s32. rewrite Z.mod_small; lia.
Qed.

Lemma generate_normal (random : Z) (dev : simtemp_device) :
  mode dev = SIMTEMP_MODE_NORMAL ->
  simtemp_generate_temperature random dev =
    (43000 + wrap_u32 random mod 4000, dev).
Proof.
  intros Hm. unfold simtemp_generate_temperature. rewrite Hm. simpl.
  pose proof (Z.mod_pos_bound (wrap_u32 random) 4000).
  rewrite (wrap_s32_small (wrap_u32 random mod 4000)) by lia.
  rewrite wrap_s32_small by lia. f_equal. lia.
Qed.

Lemma generate_noisy (random : Z) (dev : simtemp_device) :
  mode dev = SIMTEMP_MODE_NOISY ->
  simtemp_generate_temperature random dev =
    (30000 + wrap_u32 random mod 30000, dev).
Proof.
  intros Hm. unfold simtemp_generate_temperature. rewrite Hm. simpl.
  pose proof (Z.mod_pos_bound (wrap_u32 random) 30000).
  rewrite (wrap_s32_small (wrap_u32 random mod 30000)) by lia.
  rewrite wrap_s32_small by lia.
  replace (45000 + (wrap_u32 random mod 30000 - 15000) <? 30000) with false
    by (symmetry; apply Z.ltb_ge; lia).
  replace (45000 + (wrap_u32 random mod 30000 - 15000) >? 60000) with false
    by (symmetry; rewrite Z.gtb_ltb; apply Z.ltb_ge; lia).
  f_equal. lia.
Qed.

Lemma generate_unrecognized (random : Z) (dev : simtemp_device) :
  recognized_mode (mode dev) = false ->
  simtemp_generate_temperature random dev = (45000, dev).
Proof.
  unfold recognized_mode, simtemp_generate_temperature.
  destruct (mode dev =? SIMTEMP_MODE_NORMAL); [discriminate|].
  destruct (mode dev =? SIMTEMP_MODE_NOISY); [discriminate|].
  destruct (mode dev =? SIMTEMP_MODE_RAMP); [discriminate|].
  reflexivity.
Qed.

(** One tick of the ramp between the turning points. *)
Lemma generate_ramp (random : Z) (dev : simtemp_device) :
  mode dev = SIMTEMP_MODE_RAMP ->
  ramp_inv dev ->
  let t := if ramp_direction dev
           then Z.min (current_temp_mC dev + 500) 70000
           else Z.max (current_temp_mC dev - 500) 30000 in
  let up := if ramp_direction dev
            then current_temp_mC dev + 500 <? 70000
            else current_temp_mC dev - 500 <=? 30000 in
  simtemp_generate_temperature random dev = (t, set_ramp t up dev).
Proof.
  intros Hm Hinv. unfold ramp_inv in Hinv.
  unfold simtemp_generate_temperature. rewrite Hm. simpl.
  rewrite !wrap_s32_small by lia.
  destruct (ramp_direction dev) eqn:Hdir.
  - destruct (Z.geb_spec (current_temp_mC dev + 500) 70000) as [Hge|Hlt].
    + rewrite Z.min_r by lia.
      replace (current_temp_mC dev + 500 <? 70000) with false
        by (symmetry; apply Z.ltb_ge; lia).
      reflexivity.
    + rewrite Z.min_l by lia.
      replace (current_temp_mC dev + 500 <? 70000) with true
        by (symmetry; apply Z.ltb_lt; lia).
      reflexivity.
  - destruct (Z.leb_spec (current_temp_mC dev - 500) 30000) as [Hle|Hgt].
    + rewrite Z.max_r by lia. reflexivity.
    + rewrite Z.max_l by lia. reflexivity.
Qed.

(** The ramp state stays between the turning points: the probe puts it
    there, and neither the generator nor the rest of a tick takes it
    out. *)
Lemma probe_ramp_inv (dt_sampling_ms dt_threshold_mC : option Z) (now : Z) :
  ramp_inv (simtemp_probe dt_sampling_ms dt_threshold_mC now).
Proof. unfold ramp_inv. simpl. lia. Qed.

Lemma generate_ramp_inv (random : Z) (dev : simtemp_device) :
  ramp_inv dev -> ramp_inv (snd (simtemp_generate_temperature random dev)).
Proof.
  intros Hinv.
  destruct (Z.eqb_spec (mode dev) SIMTEMP_MODE_RAMP) as [Hr|Hr].
  - rewrite (generate_ramp random dev Hr Hinv). unfold ramp_inv in *.
    destruct (ramp_direction dev); simpl; lia.
  - unfold simtemp_generate_temperature.
    apply Z.eqb_neq in Hr. rewrite Hr.
    destruct (mode dev =? SIMTEMP_MODE_NORMAL); [exact Hinv|].
    destruct (mode dev =? SIMTEMP_MODE_NOISY); exact Hinv.
Qed.

Lemma tick_ramp_inv (now random : Z) (dev : simtemp_device) :
  ramp_inv dev -> ramp_inv (tick_dev (simtemp_timer_callback now random dev)).
Proof.
  intros Hinv. apply (generate_ramp_inv random) in Hinv.
  rewrite timer_callback_unfold. cbv zeta.
  set (d1 := snd (simtemp_generate_temperature random dev)) in *.
  set (temp := fst (simtemp_generate_temperature random dev)).
  destruct ((temp >? threshold_mC d1) && negb (threshold_crossed d1));
    [|destruct (temp >? threshold_mC d1)]; exact Hinv.
Qed.




(** * The ramp *)

Lemma set_ramp_set_ramp (t1 t2 : Z) (u1 u2 : bool) (dev : simtemp_device) :
  set_ramp t2 u2 (set_ramp t1 u1 dev) = set_ramp t2 u2 dev.
Proof. reflexivity. Qed.

Lemma set_ramp_same (dev : simtemp_device) :
  set_ramp (current_temp_mC dev) (ramp_direction dev) dev = dev.
Proof. now destruct dev. Qed.

Lemma ramp_wave_range (k : Z) : 30000 <= ramp_wave k <= 70000.
Proof.
  unfold ramp_wave. pose proof (Z.mod_pos_bound k 160).
  destruct (Z.leb_spec (k mod 160) 60); [lia|].
  destruct (Z.leb_spec (k mod 160) 140); lia.
Qed.

Lemma mod_succ (k : Z) :
  (k + 1) mod 160 = if k mod 160 =? 159 then 0 else k mod 160 + 1.
Proof.
  destruct (Z.eqb_spec (k mod 160) 159);
    Z.to_euclidean_division_equations; lia.
Qed.

(** Case analysis on every integer comparison in the goal. *)
Ltac cmp_cases :=
  repeat match goal with
         | |- context [?a <=? ?b] => destruct (Z.leb_spec a b)
         | |- context [?a <? ?b] => destruct (Z.ltb_spec a b)
         end.

(** A tick in Ramp mode moves the device one step along the wave. *)
Lemma ramp_step (k random : Z) (dev : simtemp_device) :
  mode dev = SIMTEMP_MODE_RAMP ->
  current_temp_mC dev = ramp_wave k ->
  ramp_direction dev = ramp_up k ->
  simtemp_generate_temperature random dev =
    (ramp_wave (k + 1), set_ramp (ramp_wave (k + 1)) (ramp_up (k + 1)) dev).
Proof.
  intros Hm Hcur Hdir.
  pose proof (ramp_wave_range k) as Hrange.
  rewrite (generate_ramp random dev Hm) by (unfold ramp_inv; lia).
  rewrite Hcur, Hdir. clear Hcur Hdir Hm Hrange.
  unfold ramp_wave, ramp_up. rewrite mod_succ.
  pose proof (Z.mod_pos_bound k 160) as Hj.
  set (j := k mod 160) in *.
  assert (forall a b x y : Z, forall u v : bool,
             a = b -> u = v -> (a, set_ramp a u dev) = (b, set_ramp b v dev))
    as Heq by (intros; subst; reflexivity).
  destruct (Z.eqb_spec j 159) as [->|Hne]; [reflexivity|].
  cmp_cases; simpl; apply (Heq _ _ 0 0); try reflexivity; lia.
Qed.

(** A run of ticks in Ramp mode follows the wave from wherever on it
    the device stands, whatever random words are on offer. *)
Lemma generate_n_ramp (randoms : list Z) :
  forall (k : Z) (dev : simtemp_device),
    mode dev = SIMTEMP_MODE_RAMP ->
    current_temp_mC dev = ramp_wave k ->
    ramp_direction dev = ramp_up k ->
    let n := length randoms in
    generate_n randoms dev =
      (map (fun i => ramp_wave (k + Z.of_nat i)) (seq 1 n),
       set_ramp (ramp_wave (k + Z.of_nat n)) (ramp_up (k + Z.of_nat n)) dev).
Proof.
  induction randoms as [|random randoms IH]; intros k dev Hm Hcur Hdir.
  - simpl. rewrite Z.add_0_r, <- Hcur, <- Hdir, set_ramp_same. reflexivity.
  - cbv zeta. simpl generate_n. rewrite (ramp_step k random dev Hm Hcur Hdir).
    rewrite (IH (k + 1)) by (try exact Hm; reflexivity).
    cbv zeta. rewrite set_ramp_set_ramp. simpl length.
    change (seq 1 (S (length randoms))) with (1%nat :: seq 2 (length randoms)).
    rewrite <- (seq_shift (length randoms) 1), map_cons, map_map.
    f_equal.
    + f_equal. apply map_ext. intros i. f_equal. lia.
    + f_equal; f_equal; lia.
Qed.

(** C3: in Ramp mode, from temperature 40000 going up, the run of
    generated temperatures is the triangular wave [ramp_wave]: after k
    ticks with 500 k <= 30000 the temperature is 40000 + 500 k; the
    tick that reaches 70000 (k = 60) flips the direction to down; each
    later tick takes 500 off until 30000 (k = 140), where the direction
    flips back to up.  The run depends on nothing but the start state
    and the number of ticks: the random words play no part. *)
Theorem C3_ramp_triangular_wave (dev : simtemp_device) (randoms : list Z) :
  mode dev = SIMTEMP_MODE_RAMP ->
  current_temp_mC dev = 40000 ->
  ramp_direction dev = true ->
  let k := Z.of_nat (length randoms) in
  let temps := fst (generate_n randoms dev) in
  let dev' := snd (generate_n randoms dev) in
  temps = map (fun i => ramp_wave (Z.of_nat i)) (seq 1 (length randoms)) /\
  current_temp_mC dev' = ramp_wave k /\
  ramp_direction dev' = ramp_up k /\
  (500 * k <= 30000 -> current_temp_mC dev' = 40000 + 500 * k) /\
  (k < 60 -> ramp_direction dev' = true) /\
  (60 <= k <= 140 -> current_temp_mC dev' = 70000 - 500 * (k - 60)) /\
  (60 <= k < 140 -> ramp_direction dev' = false) /\
  (k = 140 -> current_temp_mC dev' = 30000 /\ ramp_direction dev' = true) /\
  (forall randoms' : list Z,
      length randoms' = length randoms ->
      generate_n randoms' dev = generate_n randoms dev).
Proof.
  intros Hm Hcur Hdir k temps dev'.
  assert (forall rs : list Z,
             generate_n rs dev =
               (map (fun i => ramp_wave (Z.of_nat i)) (seq 1 (length rs)),
                set_ramp (ramp_wave (Z.of_nat (length rs)))
                         (ramp_up (Z.of_nat (length rs))) dev)) as Hrun.
  { intros rs. apply (generate_n_ramp rs 0 dev Hm); assumption. }
  subst temps dev'. rewrite (Hrun randoms). simpl fst. simpl snd.
  fold k. simpl current_temp_mC. simpl ramp_direction.
  assert (0 <= k) as Hk by (unfold k; lia).
  split; [reflexivity|]. split; [reflexivity|]. split; [reflexivity|].
  unfold ramp_wave, ramp_up.
  refine (conj _ (conj _ (conj _ (conj _ (conj _ _))))).
  - intros Hle. rewrite Z.mod_small by lia.
    replace (k <=? 60) with true by (symmetry; apply Z.leb_le; lia).
    reflexivity.
  - intros Hlt. rewrite Z.mod_small by lia.
    replace (k <? 60) with true by (symmetry; apply Z.ltb_lt; lia).
    reflexivity.
  - intros [Hlo Hhi]. rewrite Z.mod_small by lia.
    destruct (Z.leb_spec k 60); [lia|].
    replace (k <=? 140) with true by (symmetry; apply Z.leb_le; lia).
    reflexivity.
  - intros [Hlo Hhi]. rewrite Z.mod_small by lia.
    replace (k <? 60) with false by (symmetry; apply Z.ltb_ge; lia).
    replace (140 <=? k) with false by (symmetry; apply Z.leb_gt; lia).
    reflexivity.
  - intros ->. split; reflexivity.
  - intros randoms' Hlen. rewrite (Hrun randoms'), Hlen. reflexivity.
Qed.

Lemma C3_ramp_triangular_wave_witness :
  let dev := {| timer := timer probed; sampling_period := sampling_period probed;
                ringbuf := ringbuf probed; sampling_ms := sampling_ms probed;
                threshold_mC := 45000; mode := SIMTEMP_MODE_RAMP;
                current_temp_mC := 40000; ramp_direction := true;
                stats := zero_stats; threshold_crossed := false;
                device_open := false |} in
  fst (generate_n [11; 22; 33] dev) = [40500; 41000; 41500] /\
  current_temp_mC (snd (generate_n (replicate 60 0) dev)) = 70000 /\
  ramp_direction (snd (generate_n (replicate 60 0) dev)) = false /\
  current_temp_mC (snd (generate_n (replicate 61 0) dev)) = 69500 /\
  current_temp_mC (snd (generate_n (replicate 140 0) dev)) = 30000 /\
  ramp_direction (snd (generate_n (replicate 140 0) dev)) = true.
Proof.
  intros dev.
  pose proof (C3_ramp_triangular_wave dev [11; 22; 33]
                eq_refl eq_refl eq_refl) as (H3 & _).
  pose proof (C3_ramp_triangular_wave dev (replicate 60 0)
                eq_refl eq_refl eq_refl) as (_ & H60 & D60 & _).
  pose proof (C3_ramp_triangular_wave dev (replicate 61 0)
                eq_refl eq_refl eq_refl) as (_ & H61 & _).
  pose proof (C3_ramp_triangular_wave dev (replicate 140 0)
                eq_refl eq_refl eq_refl) as (_ & H140 & D140 & _).
  repeat split; assumption.
Defined.

(** * Configuration through sysfs *)

(** C5: a write of sampling period 50 succeeds (returns [count]); a
    read of the period then shows 50; and the write itself has
    restarted the sample timer with the new period before it returns:
    whatever the old period and the old expiry were, the timer is
    queued to fire 50 ms after the write, and the tick that fires then
    (or up to one period late) re-arms it 50 ms after that expiry. *)
Theorem C5_period_round_trip (now count : Z) (buf : string)
    (dev : simtemp_device) :
  kstrtouint buf = KOk 50 ->
  let res := sampling_ms_store now buf count dev in
  let dev' := snd res in
  fst res = count /\
  sampling_ms dev' = 50 /\
  sampling_ms_show dev' = ("50" ++ newline)%string /\
  sampling_period dev' = ms_to_ktime 50 /\
  timer dev' = {| hr_active := true; hr_expires := now + ms_to_ktime 50 |} /\
  forall late random : Z,
    0 <= late < ms_to_ktime 50 ->
    timer (tick_dev (simtemp_timer_callback
                       (now + ms_to_ktime 50 + late) random dev')) =
      {| hr_active := true; hr_expires := now + 2 * ms_to_ktime 50 |}.
Proof.
  intros Hparse res dev'. subst dev' res.
  unfold sampling_ms_store. rewrite Hparse. simpl.
  refine (conj eq_refl (conj eq_refl (conj eq_refl (conj eq_refl
            (conj eq_refl _))))).
  intros late random Hlate.
  rewrite timer_callback_unfold. cbv zeta. simpl timer.
  match goal with
  | |- context [snd (simtemp_generate_temperature ?r ?d)] =>
      pose proof (generate_frame r d) as (Ht & Hp & _);
      set (d1 := snd (simtemp_generate_temperature r d)) in *;
      set (temp := fst (simtemp_generate_temperature r d))
  end.
  simpl in Ht, Hp.
  assert (forall d2 : simtemp_device,
             timer d2 = timer d1 -> sampling_period d2 = sampling_period d1 ->
             hrtimer_forward_now (timer d2) (sampling_period d2)
               (now + ms_to_ktime 50 + late) =
               {| hr_active := true; hr_expires := now + 2 * ms_to_ktime 50 |})
    as Hfw.
  { intros d2 -> ->. rewrite Ht, Hp. unfold hrtimer_forward_now. simpl.
    unfold ms_to_ktime, NSEC_PER_MSEC, hrtimer_resolution in *.
    replace (now + 50 * 1000000 + late - (now + 50 * 1000000) <? 0)
      with false by (symmetry; apply Z.ltb_ge; lia).
    rewrite Z.max_l by lia.
    replace (50 * 1000000 <=? now + 50 * 1000000 + late - (now + 50 * 1000000))
      with false by (symmetry; apply Z.leb_gt; lia).
    f_equal. lia. }
  destruct ((temp >? threshold_mC d1) && negb (threshold_crossed d1));
    [|destruct (temp >? threshold_mC d1)]; apply Hfw; reflexivity.
Qed.

Lemma C5_period_round_trip_witness :
  let dev' := snd (sampling_ms_store 7000000 ("50" ++ newline) 3 probed) in
  kstrtouint ("50" ++ newline) = KOk 50 /\
  sampling_ms_show probed = ("100" ++ newline)%string /\
  fst (sampling_ms_store 7000000 ("50" ++ newline) 3 probed) = 3 /\
  sampling_ms_show dev' = ("50" ++ newline)%string /\
  timer probed = {| hr_active := true; hr_expires := 100000000 |} /\
  timer dev' = {| hr_active := true; hr_expires := 57000000 |}.
Proof.
  intros dev'.
  pose proof (C5_period_round_trip 7000000 3 ("50" ++ newline) probed eq_refl)
    as (Hret & _ & Hshow & _ & Htimer & _).
  split; [reflexivity|]. split; [reflexivity|]. split; [exact Hret|].
  split; [exact Hshow|]. split; [reflexivity|]. exact Htimer.
Defined.

(** C6: a threshold write whose text parses to a value outside
    [-40000, 125000], such as 200000, returns -EINVAL and leaves the
    device as it was, so a read of the threshold shows the previous
    value. *)
Theorem C6_threshold_out_of_range_rejected (buf : string) (val count : Z)
    (dev : simtemp_device) :
  kstrtoint buf = KOk val ->
  val < SIMTEMP_THRESHOLD_MC_MIN \/ SIMTEMP_THRESHOLD_MC_MAX < val ->
  threshold_mC_store buf count dev = (- EINVAL, dev) /\
  threshold_mC_show (snd (threshold_mC_store buf count dev)) =
    threshold_mC_show dev.
Proof.
  intros Hparse Hout.
  assert (threshold_mC_store buf count dev = (- EINVAL, dev)) as Hst.
  { unfold threshold_mC_store. rewrite Hparse.
    replace ((val <? SIMTEMP_THRESHOLD_MC_MIN) || (val >? SIMTEMP_THRESHOLD_MC_MAX))
      with true; [reflexivity|].
    symmetry. apply orb_true_iff. rewrite Z.gtb_ltb.
    destruct Hout; [left; apply Z.ltb_lt | right; apply Z.ltb_lt]; assumption. }
  rewrite Hst. split; reflexivity.
Qed.

Lemma C6_threshold_out_of_range_rejected_witness :
  kstrtoint "200000" = KOk 200000 /\
  threshold_mC_store "200000" 6 probed = (- EINVAL, probed) /\
  threshold_mC_show (snd (threshold_mC_store "200000" 6 probed)) =
    ("45000" ++ newline)%string.
Proof.
  assert (200000 < SIMTEMP_THRESHOLD_MC_MIN \/ SIMTEMP_THRESHOLD_MC_MAX < 200000)
    as Hout by (right; reflexivity).
  pose proof (C6_threshold_out_of_range_rejected "200000" 200000 6 probed
                eq_refl Hout) as (Hst & Hshow).
  split; [reflexivity|]. split; [exact Hst|].
  rewrite Hshow. reflexivity.
Defined.

(** * The read() file operation *)

(** C8: a blocking read that finds the ring buffer empty and whose
    sleep is ended by a signal before any sample arrives returns
    -ERESTARTSYS; no sample reaches the caller and the device, ring
    buffer and counters included, is as it was. *)
Theorem C8_read_interrupted (count : Z) (user_ok : bool)
    (events : list wait_event) (dev : simtemp_device) :
  sizeof_simtemp_sample <= count ->
  simtemp_ringbuf_empty (ringbuf dev) = true ->
  simtemp_read false count user_ok (WaitSignal :: events) dev =
    Some {| read_ret := - ERESTARTSYS; read_buf := None; read_dev := dev |}.
Proof.
  intros Hcount Hempty. unfold simtemp_read.
  replace (count <? sizeof_simtemp_sample) with false
    by (symmetry; apply Z.ltb_ge; assumption).
  simpl. rewrite Hempty. reflexivity.
Qed.

Lemma C8_read_interrupted_witness :
  sizeof_simtemp_sample <= 16 /\
  simtemp_ringbuf_empty (ringbuf probed) = true /\
  simtemp_read false 16 true [WaitSignal; WaitTick 100000000 2000] probed =
    Some {| read_ret := - ERESTARTSYS; read_buf := None; read_dev := probed |}.
Proof.
  assert (sizeof_simtemp_sample <= 16) as Hcount
    by (unfold sizeof_simtemp_sample; lia).
  split; [exact Hcount|]. split; [reflexivity|].
  exact (C8_read_interrupted 16 true [WaitTick 100000000 2000] probed
           Hcount eq_refl).
Defined.

(** C9: a read whose destination is smaller than 16 bytes, the size of
    a sample, returns -EINVAL at once, blocking or not: nothing is
    taken from the ring buffer, no counter moves, nothing is copied. *)
Theorem C9_read_short_buffer (nonblock user_ok : bool) (count : Z)
    (events : list wait_event) (dev : simtemp_device) :
  count < 16 ->
  sizeof_simtemp_sample = 16 /\
  simtemp_read nonblock count user_ok events dev =
    Some {| read_ret := - EINVAL; read_buf := None; read_dev := dev |}.
Proof.
  intros Hcount. split; [reflexivity|]. unfold simtemp_read.
  replace (count <? sizeof_simtemp_sample) with true
    by (symmetry; apply Z.ltb_lt; assumption).
  reflexivity.
Qed.

Lemma C9_read_short_buffer_witness :
  15 < 16 /\
  simtemp_read true 15 true [] (tick_dev (simtemp_timer_callback 100 2000 probed)) =
    Some {| read_ret := - EINVAL; read_buf := None;
            read_dev := tick_dev (simtemp_timer_callback 100 2000 probed) |}.
Proof.
  assert (15 < 16) as Hcount by lia.
  split; [exact Hcount|].
  exact (proj2 (C9_read_short_buffer true true 15 []
                  (tick_dev (simtemp_timer_callback 100 2000 probed)) Hcount)).
Defined.

(** ** The sleep of a blocking read *)

Lemma count_contents (rb : simtemp_ringbuf) :
  rb_wf rb ->
  simtemp_ringbuf_count rb = Z.of_nat (length (rb_contents rb)).
Proof.
  intros Hwf. pose proof (count_range rb Hwf). rewrite contents_length. lia.
Qed.

(** A tick appends the sample it built when there is room and leaves
    the ring buffer alone when there is none. *)
Lemma tick_contents (now random : Z) (dev : simtemp_device) :
  rb_wf (ringbuf dev) ->
  let r := simtemp_timer_callback now random dev in
  rb_wf (ringbuf (tick_dev r)) /\
  rb_contents (ringbuf (tick_dev r)) =
    (if simtemp_ringbuf_count (ringbuf dev) <? 63
     then rb_contents (ringbuf dev) ++ [tick_sample r]
     else rb_contents (ringbuf dev)) /\
  tick_ret r = (if simtemp_ringbuf_count (ringbuf dev) <? 63 then 0 else - ENOSPC).
Proof.
  intros Hwf r. pose proof (tick_put now random dev) as Hput.
  cbv zeta in Hput. fold r in Hput.
  pose proof (count_range _ Hwf) as Hr.
  destruct (Z.ltb_spec (simtemp_ringbuf_count (ringbuf dev)) 63) as [Hroom|Hfull].
  - destruct (put_room (ringbuf dev) (tick_sample r) Hwf Hroom)
      as (rb1 & Hput1 & Hwf1 & Hc1).
    rewrite Hput1 in Hput. injection Hput as <- <-. auto.
  - rewrite (put_full (ringbuf dev) (tick_sample r) Hwf) in Hput by lia.
    injection Hput as <- <-. auto.
Qed.

Lemma tick_nonempty (now random : Z) (dev : simtemp_device) :
  rb_wf (ringbuf dev) ->
  simtemp_ringbuf_empty
    (ringbuf (tick_dev (simtemp_timer_callback now random dev))) = false.
Proof.
  intros Hwf.
  destruct (tick_contents now random dev Hwf) as (Hwf' & Hc & _).
  destruct (simtemp_ringbuf_empty _) eqn:He; [|reflexivity].
  apply (empty_iff_contents _ Hwf') in He. rewrite He in Hc.
  pose proof (count_contents _ Hwf) as Hn.
  destruct (Z.ltb_spec (simtemp_ringbuf_count (ringbuf dev)) 63).
  - symmetry in Hc. apply app_eq_nil in Hc. destruct Hc; discriminate.
  - rewrite <- Hc in Hn. simpl in Hn. lia.
Qed.

(** The sleep ends with status 0 on a buffer that holds a sample, or
    with -ERESTARTSYS on one that does not; ticks during the sleep keep
    the ring buffer well-formed. *)
Lemma wait_spec (events : list wait_event) :
  forall dev : simtemp_device,
    rb_wf (ringbuf dev) ->
    match wait_event_interruptible events dev with
    | Some (ret, dev') =>
        rb_wf (ringbuf dev') /\
        ((ret = 0 /\ simtemp_ringbuf_empty (ringbuf dev') = false) \/
         (ret = - ERESTARTSYS /\ dev' = dev /\
          simtemp_ringbuf_empty (ringbuf dev') = true))
    | None => True
    end.
Proof.
  induction events as [|[now random|] events IH]; intros dev Hwf; simpl.
  - destruct (simtemp_ringbuf_empty (ringbuf dev)) eqn:He; simpl; auto.
  - destruct (simtemp_ringbuf_empty (ringbuf dev)) eqn:He; simpl; auto.
    pose proof (tick_contents now random dev Hwf) as (Hwf' & _).
    pose proof (tick_nonempty now random dev Hwf) as Hne.
    destruct events as [|e events']; simpl; rewrite Hne; simpl; auto.
  - destruct (simtemp_ringbuf_empty (ringbuf dev)) eqn:He; simpl; auto.
Qed.

(** The ticks that run during the sleep leave [read_count] alone. *)
Lemma wait_read_count (events : list wait_event) :
  forall (dev dev' : simtemp_device) (ret : Z),
    wait_event_interruptible events dev = Some (ret, dev') ->
    read_count (stats dev') = read_count (stats dev).
Proof.
  induction events as [|[now random|] events IH]; intros dev dev' ret; simpl;
    destruct (simtemp_ringbuf_empty (ringbuf dev)); simpl; intros Hw;
    try discriminate; try (injection Hw as _ <-; reflexivity).
  apply IH in Hw. rewrite Hw.
  exact (proj1 (proj2 (tick_stats now random dev))).
Qed.

(** C10: when the sleep of a blocking read has ended with status 0,
    leaving the device [dev1] with a sample in its ring buffer, and the
    destination is large enough but cannot be written, the read returns
    -EFAULT and nothing reaches the caller; yet the oldest sample of
    [dev1] has been taken out of the ring buffer (the entries left are
    the ones that were behind it) and [read_count] has gone up by one,
    the rest of [dev1] being untouched: that sample is lost. *)
Theorem C10_read_copy_fault (count : Z) (events : list wait_event)
    (dev dev1 : simtemp_device) :
  sizeof_simtemp_sample <= count ->
  rb_wf (ringbuf dev) ->
  wait_event_interruptible events dev = Some (0, dev1) ->
  exists r : read_result,
    simtemp_read false count false events dev = Some r /\
    read_ret r = - EFAULT /\
    read_buf r = None /\
    rb_contents (ringbuf dev1) =
      rb_slot (ringbuf dev1) 0 :: rb_contents (ringbuf (read_dev r)) /\
    simtemp_ringbuf_count (ringbuf (read_dev r)) =
      simtemp_ringbuf_count (ringbuf dev1) - 1 /\
    read_count (stats (read_dev r)) = wrap_u64 (read_count (stats dev) + 1) /\
    read_dev r =
      set_stats (inc_read_count (stats dev1))
        (set_ringbuf (ringbuf (read_dev r)) dev1).
Proof.
  intros Hcount Hwf Hwait.
  pose proof (wait_spec events dev Hwf) as Hspec. rewrite Hwait in Hspec.
  destruct Hspec as (Hwf1 & [(_ & Hne) | (Hret & _)]);
    [|unfold ERESTARTSYS in Hret; lia].
  pose proof (wait_read_count events dev dev1 0 Hwait) as Hrc.
  destruct (rb_contents (ringbuf dev1)) as [|x l] eqn:Hc.
  { apply (empty_iff_contents _ Hwf1) in Hc. congruence. }
  destruct (get_cons (ringbuf dev1) zero_sample x l Hwf1 Hc)
    as (rb' & Hget & Hwf' & Hc' & _).
  assert (x = rb_slot (ringbuf dev1) 0) as Hx.
  { unfold rb_contents in Hc.
    destruct (Z.to_nat (simtemp_ringbuf_count (ringbuf dev1))); [discriminate|].
    simpl in Hc. congruence. }
  assert (simtemp_ringbuf_count rb' = simtemp_ringbuf_count (ringbuf dev1) - 1)
    as Hn.
  { pose proof (contents_length (ringbuf dev1)) as H1.
    pose proof (contents_length rb') as H2.
    pose proof (count_range _ Hwf1). pose proof (count_range _ Hwf').
    rewrite Hc in H1. rewrite Hc' in H2. simpl length in H1. lia. }
  unfold simtemp_read.
  replace (count <? sizeof_simtemp_sample) with false
    by (symmetry; apply Z.ltb_ge; assumption).
  rewrite Hwait. simpl. rewrite Hget. simpl.
  eexists. split; [reflexivity|]. simpl.
  rewrite Hc', <- Hx, Hrc. auto 10.
Qed.

Lemma C10_read_copy_fault_witness :
  let events := [WaitTick 100000000 2000; WaitTick 200000000 0] in
  let dev1 := tick_dev (simtemp_timer_callback 100000000 2000 probed) in
  simtemp_ringbuf_empty (ringbuf probed) = true /\
  wait_event_interruptible events probed = Some (0, dev1) /\
  simtemp_ringbuf_count (ringbuf dev1) = 1 /\
  exists r : read_result,
    simtemp_read false 16 false events probed = Some r /\
    read_ret r = - EFAULT /\
    read_buf r = None /\
    simtemp_ringbuf_count (ringbuf (read_dev r)) = 0 /\
    read_count (stats (read_dev r)) = 1.
Proof.
  intros events dev1.
  assert (sizeof_simtemp_sample <= 16) as Hcount
    by (unfold sizeof_simtemp_sample; lia).
  assert (rb_wf (ringbuf probed)) as Hwf.
  { split; [reflexivity|].
    split; split; vm_compute; (reflexivity || discriminate). }
  assert (wait_event_interruptible events probed = Some (0, dev1)) as Hwait
    by reflexivity.
  destruct (C10_read_copy_fault 16 events probed dev1 Hcount Hwf Hwait)
    as (r & Hread & Hret & Hbuf & _ & Hn & Hrc & _).
  split; [reflexivity|]. split; [exact Hwait|]. split; [reflexivity|].
  exists r. repeat split; assumption.
Defined.

(** * Further properties: the ring buffer under interleaved traffic *)

(** X1: whatever the interleaving of puts and gets, a well-formed ring
    buffer answers exactly like a first-in first-out queue of capacity
    63 holding its live entries: the same statuses, the same samples
    out, and the same entries left.  Index wrap-around is invisible. *)
Theorem X1_ringbuf_refines_queue (ops : list rb_op) :
  forall rb : simtemp_ringbuf,
    rb_wf rb ->
    fst (rb_run ops rb) = fst (queue_run 63 ops (rb_contents rb)) /\
    rb_contents (snd (rb_run ops rb)) = snd (queue_run 63 ops (rb_contents rb)) /\
    rb_wf (snd (rb_run ops rb)).
Proof.
  induction ops as [|[s|] ops IH]; intros rb Hwf.
  - simpl. auto.
  - pose proof (count_range rb Hwf) as Hr.
    pose proof (contents_length rb) as Hlen.
    simpl. destruct (Nat.ltb_spec (length (rb_contents rb)) 63) as [Hroom|Hfull].
    + destruct (put_room rb s Hwf) as (rb1 & Hput & Hwf1 & Hc1); [lia|].
      rewrite Hput. destruct (IH rb1 Hwf1) as (Ho & Hc & Hw).
      rewrite Hc1 in Ho, Hc.
      destruct (rb_run ops rb1) as [outs rb2].
      destruct (queue_run 63 ops (rb_contents rb ++ [s])) as [outs' q'].
      simpl in *. subst. auto.
    + rewrite (put_full rb s Hwf) by lia.
      destruct (IH rb Hwf) as (Ho & Hc & Hw).
      destruct (rb_run ops rb) as [outs rb2].
      destruct (queue_run 63 ops (rb_contents rb)) as [outs' q'].
      simpl in *. subst. auto.
  - simpl. destruct (rb_contents rb) as [|x q1] eqn:Hq.
    + rewrite (get_empty rb zero_sample Hwf Hq).
      destruct (IH rb Hwf) as (Ho & Hc & Hw). rewrite Hq in Ho, Hc.
      destruct (rb_run ops rb) as [outs rb2].
      destruct (queue_run 63 ops []) as [outs' q'].
      simpl in *. subst. auto.
    + destruct (get_cons rb zero_sample x q1 Hwf Hq)
        as (rb1 & Hget & Hwf1 & Hc1 & _).
      rewrite Hget. destruct (IH rb1 Hwf1) as (Ho & Hc & Hw).
      rewrite Hc1 in Ho, Hc.
      destruct (rb_run ops rb1) as [outs rb2].
      destruct (queue_run 63 ops q1) as [outs' q'].
      simpl in *. subst. auto.
Qed.

(** 70 puts, 10 gets, 10 more puts on a buffer whose indices start at
    60: the traffic wraps around the end of the storage array. *)
Lemma X1_ringbuf_refines_queue_witness :
  let rb := {| buffer := replicate 64 zero_sample; head := 60; tail := 60 |} in
  let mk := fun i : nat =>
              {| timestamp_ns := Z.of_nat i; temp_mC := 40000 + Z.of_nat i;
                 flags := 1 |} in
  let ops := map (fun i => RbPut (mk i)) (seq 0 70) ++ replicate 10 RbGet ++
             map (fun i => RbPut (mk i)) (seq 70 10) in
  rb_wf rb /\
  head (snd (rb_run ops rb)) = 5 /\
  fst (rb_run ops rb) = fst (queue_run 63 ops []) /\
  rb_contents (snd (rb_run ops rb)) = map mk (seq 10 53 ++ seq 70 10).
Proof.
  intros rb mk ops.
  assert (rb_wf rb) as Hwf.
  { split; [reflexivity|]. simpl. unfold RING_BUFFER_SIZE. lia. }
  destruct (X1_ringbuf_refines_queue ops rb Hwf) as (Ho & Hc & _).
  split; [exact Hwf|]. split; [reflexivity|]. split; [exact Ho|].
  rewrite Hc. reflexivity.
Defined.

(** X2: the live count of a ring buffer follows the traffic and stays
    within 0..63: over any interleaving started on a well-formed
    buffer, [simtemp_ringbuf_count] ends at the initial count plus the
    puts that returned 0 minus the gets that returned 0, and
    [simtemp_ringbuf_empty] holds exactly when that count is 0. *)
Theorem X2_ringbuf_count_balance (ops : list rb_op) :
  forall rb : simtemp_ringbuf,
    rb_wf rb ->
    let rb' := snd (rb_run ops rb) in
    simtemp_ringbuf_count rb' =
      simtemp_ringbuf_count rb + traffic_balance (fst (rb_run ops rb)) /\
    0 <= simtemp_ringbuf_count rb' <= 63 /\
    (simtemp_ringbuf_empty rb' = true <-> simtemp_ringbuf_count rb' = 0).
Proof.
  assert (forall rb, rb_wf rb ->
            (simtemp_ringbuf_empty rb = true <-> simtemp_ringbuf_count rb = 0))
    as Hempty.
  { intros rb Hwf. rewrite (empty_iff_contents rb Hwf), (count_contents rb Hwf).
    destruct (rb_contents rb); simpl; split; intros; try lia; try discriminate;
      reflexivity. }
  induction ops as [|[s|] ops IH]; intros rb Hwf.
  - simpl. unfold traffic_balance. simpl.
    split; [lia|]. split; [apply (count_range rb Hwf) | apply (Hempty rb Hwf)].
  - pose proof (count_range rb Hwf) as Hr.
    destruct (Z.eq_dec (simtemp_ringbuf_count rb) 63) as [Hfull|Hroom].
    + simpl. rewrite (put_full rb s Hwf Hfull).
      specialize (IH rb Hwf). cbv zeta in IH.
      destruct (rb_run ops rb) as [outs rb2]. simpl in *.
      unfold traffic_balance in *. simpl. destruct IH as (-> & IH2). split; [lia|exact IH2].
    + destruct (put_room rb s Hwf) as (rb1 & Hput & Hwf1 & Hc1); [lia|].
      assert (simtemp_ringbuf_count rb1 = simtemp_ringbuf_count rb + 1) as Hn.
      { rewrite (count_contents rb Hwf), (count_contents rb1 Hwf1), Hc1,
          length_app. simpl. lia. }
      simpl. rewrite Hput.
      specialize (IH rb1 Hwf1). cbv zeta in IH.
      destruct (rb_run ops rb1) as [outs rb2]. simpl in *.
      unfold traffic_balance in *. simpl. destruct IH as (-> & IH2). split; [lia|exact IH2].
  - destruct (rb_contents rb) as [|x q1] eqn:Hq.
    + simpl. rewrite (get_empty rb zero_sample Hwf Hq).
      specialize (IH rb Hwf). cbv zeta in IH.
      destruct (rb_run ops rb) as [outs rb2]. simpl in *.
      unfold traffic_balance in *. simpl. destruct IH as (-> & IH2). split; [lia|exact IH2].
    + destruct (get_cons rb zero_sample x q1 Hwf Hq)
        as (rb1 & Hget & Hwf1 & Hc1 & _).
      assert (simtemp_ringbuf_count rb1 = simtemp_ringbuf_count rb - 1) as Hn.
      { rewrite (count_contents rb Hwf), (count_contents rb1 Hwf1), Hc1, Hq.
        simpl length. lia. }
      simpl. rewrite Hget.
      specialize (IH rb1 Hwf1). cbv zeta in IH.
      destruct (rb_run ops rb1) as [outs rb2]. simpl in *.
      unfold traffic_balance in *. simpl. destruct IH as (-> & IH2). split; [lia|exact IH2].
Qed.

Lemma X2_ringbuf_count_balance_witness :
  let rb := simtemp_ringbuf_init
              {| buffer := []; head := 0; tail := 0 |} in
  let s := {| timestamp_ns := 5; temp_mC := 45000; flags := 1 |} in
  let ops := [RbGet; RbPut s; RbPut s; RbGet; RbPut s] in
  rb_wf rb /\
  traffic_balance (fst (rb_run ops rb)) = 2 /\
  simtemp_ringbuf_count (snd (rb_run ops rb)) = 2.
Proof.
  intros rb s ops.
  assert (rb_wf rb) as Hwf.
  { split; [reflexivity|]. simpl. unfold RING_BUFFER_SIZE. lia. }
  destruct (X2_ringbuf_count_balance ops rb Hwf) as (Hn & _).
  split; [exact Hwf|]. split; [reflexivity|]. exact Hn.
Defined.

(** * Further properties: ticks, reads and polls together *)

Lemma set_ringbuf_same (dev : simtemp_device) :
  set_ringbuf (ringbuf dev) dev = dev.
Proof. now destruct dev. Qed.

(** X3: a non-blocking read that finds the ring buffer empty returns
    -EAGAIN at once (it never sleeps, whatever would have happened
    during a sleep): nothing is copied, and the device, [read_count]
    included, is exactly as before. *)
Theorem X3_nonblocking_read_empty (count : Z) (user_ok : bool)
    (events : list wait_event) (dev : simtemp_device) :
  sizeof_simtemp_sample <= count ->
  simtemp_ringbuf_empty (ringbuf dev) = true ->
  simtemp_read true count user_ok events dev =
    Some {| read_ret := - EAGAIN; read_buf := None; read_dev := dev |}.
Proof.
  intros Hcount Hempty. unfold simtemp_read.
  replace (count <? sizeof_simtemp_sample) with false
    by (symmetry; apply Z.ltb_ge; assumption).
  unfold simtemp_ringbuf_get. rewrite Hempty. simpl.
  rewrite set_ringbuf_same. reflexivity.
Qed.

Lemma X3_nonblocking_read_empty_witness :
  sizeof_simtemp_sample <= 64 /\
  simtemp_ringbuf_empty (ringbuf probed) = true /\
  simtemp_read true 64 true [WaitTick 100000000 0] probed =
    Some {| read_ret := - EAGAIN; read_buf := None; read_dev := probed |}.
Proof.
  assert (sizeof_simtemp_sample <= 64) as Hcount
    by (unfold sizeof_simtemp_sample; lia).
  split; [exact Hcount|]. split; [reflexivity|].
  exact (X3_nonblocking_read_empty 64 true [WaitTick 100000000 0] probed
           Hcount eq_refl).
Defined.

(** A read that gets past the size check and finds a sample: what it
    returns and what it leaves, for either outcome of the copy. *)
Lemma read_nonempty (nonblock user_ok : bool) (count : Z)
    (events : list wait_event) (dev : simtemp_device) :
  sizeof_simtemp_sample <= count ->
  rb_wf (ringbuf dev) ->
  simtemp_ringbuf_empty (ringbuf dev) = false ->
  exists (x : simtemp_sample) (l : list simtemp_sample) (rb' : simtemp_ringbuf),
    rb_contents (ringbuf dev) = x :: l /\
    rb_wf rb' /\ rb_contents rb' = l /\
    simtemp_read nonblock count user_ok events dev =
      Some {| read_ret := if user_ok then sizeof_simtemp_sample else - EFAULT;
              read_buf := if user_ok then Some x else None;
              read_dev := set_stats (inc_read_count (stats dev))
                            (set_ringbuf rb' dev) |}.
Proof.
  intros Hcount Hwf Hne.
  destruct (rb_contents (ringbuf dev)) as [|x l] eqn:Hc.
  { apply (empty_iff_contents _ Hwf) in Hc. congruence. }
  destruct (get_cons (ringbuf dev) zero_sample x l Hwf Hc)
    as (rb' & Hget & Hwf' & Hc' & _).
  exists x, l, rb'. split; [reflexivity|]. split; [exact Hwf'|].
  split; [exact Hc'|].
  unfold simtemp_read.
  replace (count <? sizeof_simtemp_sample) with false
    by (symmetry; apply Z.ltb_ge; assumption).
  destruct nonblock.
  - rewrite Hget. simpl. now destruct user_ok.
  - destruct events as [|e events]; simpl; rewrite Hne; simpl;
      rewrite Hget; simpl; now destruct user_ok.
Qed.

(** X4: a read (blocking or not) into a writable destination of at
    least 16 bytes, on a ring buffer that holds samples, returns 16 and
    hands out the oldest buffered sample; the remaining entries keep
    their order.  The device it leaves is the one it found with the
    read position advanced by one slot and [read_count] increased by
    one, and nothing else: in particular the threshold latch is not
    cleared by reading the sample that carried the alert. *)
Theorem X4_read_returns_oldest (nonblock : bool) (count : Z)
    (events : list wait_event) (dev : simtemp_device) :
  sizeof_simtemp_sample <= count ->
  rb_wf (ringbuf dev) ->
  simtemp_ringbuf_empty (ringbuf dev) = false ->
  let rb' := {| buffer := buffer (ringbuf dev);
                head := head (ringbuf dev);
                tail := Z.land (wrap_u32 (tail (ringbuf dev) + 1))
                          RING_BUFFER_MASK |} in
  exists x : simtemp_sample,
    rb_contents (ringbuf dev) = x :: rb_contents rb' /\
    rb_wf rb' /\
    simtemp_read nonblock count true events dev =
      Some {| read_ret := 16;
              read_buf := Some x;
              read_dev := set_stats (inc_read_count (stats dev))
                            (set_ringbuf rb' dev) |}.
Proof.
  intros Hcount Hwf Hne rb'.
  destruct (rb_contents (ringbuf dev)) as [|x l] eqn:Hc.
  { apply (empty_iff_contents _ Hwf) in Hc. congruence. }
  destruct (get_cons (ringbuf dev) zero_sample x l Hwf Hc)
    as (rb1 & Hget & Hwf1 & Hc1 & _).
  assert (rb1 = rb') as ->.
  { unfold simtemp_ringbuf_get in Hget. rewrite Hne in Hget.
    now injection Hget as _ <-. }
  exists x. split; [now rewrite Hc1|]. split; [exact Hwf1|].
  unfold simtemp_read.
  replace (count <? sizeof_simtemp_sample) with false
    by (symmetry; apply Z.ltb_ge; assumption).
  destruct nonblock.
  - rewrite Hget. reflexivity.
  - destruct events as [|e events]; simpl; rewrite Hne; simpl;
      rewrite Hget; reflexivity.
Qed.

Lemma X4_read_returns_oldest_witness :
  let inputs := [(100, 10000); (200, 16000); (300, 17000)] in
  let dev := snd (run_ticks inputs (set_mode SIMTEMP_MODE_NOISY probed)) in
  threshold_crossed dev = true /\
  exists r : read_result,
    simtemp_read false 16 true [] dev = Some r /\
    read_buf r = Some {| timestamp_ns := 100; temp_mC := 40000; flags := 1 |} /\
    map temp_mC (rb_contents (ringbuf (read_dev r))) = [46000; 47000] /\
    threshold_crossed (read_dev r) = true /\
    read_count (stats (read_dev r)) = 1.
Proof.
  intros inputs dev.
  assert (sizeof_simtemp_sample <= 16) as Hcount
    by (unfold sizeof_simtemp_sample; lia).
  assert (rb_wf (ringbuf dev)) as Hwf.
  { split; [reflexivity|].
    split; split; vm_compute; (reflexivity || discriminate). }
  destruct (X4_read_returns_oldest false 16 [] dev Hcount Hwf eq_refl)
    as (x & Hc & _ & Hread).
  split; [reflexivity|]. eexists. split; [exact Hread|].
  assert (x = {| timestamp_ns := 100; temp_mC := 40000; flags := 1 |}) as ->.
  { vm_compute in Hc. now injection Hc as <-. }
  repeat split.
Defined.

(** Non-blocking reads drain the live entries oldest first. *)
Lemma read_n_spec (l : list simtemp_sample) :
  forall (dev : simtemp_device) (rest : list simtemp_sample),
    rb_wf (ringbuf dev) ->
    rb_contents (ringbuf dev) = l ++ rest ->
    let reads := read_n (length l) dev in
    map read_ret (fst reads) = replicate (length l) 16 /\
    map read_buf (fst reads) = map Some l /\
    rb_wf (ringbuf (snd reads)) /\
    rb_contents (ringbuf (snd reads)) = rest.
Proof.
  induction l as [|x l IH]; intros dev rest Hwf Hc; [simpl; auto|].
  assert (simtemp_ringbuf_empty (ringbuf dev) = false) as Hne.
  { destruct (simtemp_ringbuf_empty (ringbuf dev)) eqn:He; [|reflexivity].
    apply (empty_iff_contents _ Hwf) in He. rewrite He in Hc. discriminate. }
  destruct (read_nonempty true true sizeof_simtemp_sample [] dev
              (Z.le_refl _) Hwf Hne)
    as (x' & l' & rb' & Hc0 & Hwf' & Hc' & Hread).
  rewrite Hc in Hc0. injection Hc0 as <- <-.
  cbv zeta. simpl read_n. rewrite Hread. cbv beta iota. simpl read_dev.
  specialize (IH (set_stats (inc_read_count (stats dev)) (set_ringbuf rb' dev))
                 rest Hwf' Hc').
  cbv zeta in IH.
  destruct (read_n (length l) _) as [rs dev']. simpl in *.
  destruct IH as (-> & -> & IH3 & IH4). auto.
Qed.

(** X5: the pipeline end to end.  After N <= 63 ticks on a device whose
    ring buffer was empty, N non-blocking reads return 16 each and hand
    out the samples the ticks built, in tick order; the buffer is then
    empty, and one more read returns -EAGAIN. *)
Theorem X5_ticks_then_reads (inputs : list (Z * Z)) (dev : simtemp_device) :
  rb_wf (ringbuf dev) ->
  simtemp_ringbuf_empty (ringbuf dev) = true ->
  (length inputs <= 63)%nat ->
  let n := length inputs in
  let ticks := fst (run_ticks inputs dev) in
  let reads := read_n n (snd (run_ticks inputs dev)) in
  map read_ret (fst reads) = replicate n 16 /\
  map read_buf (fst reads) = map (fun t => Some (tick_sample t)) ticks /\
  simtemp_ringbuf_empty (ringbuf (snd reads)) = true /\
  exists r : read_result,
    simtemp_read true 16 true [] (snd reads) = Some r /\
    read_ret r = - EAGAIN /\ read_buf r = None.
Proof.
  intros Hwf Hempty Hlen n ticks reads.
  apply (empty_iff_contents _ Hwf) in Hempty.
  pose proof (run_ticks_put_all inputs dev) as Hrun.
  pose proof (run_ticks_length inputs dev) as Hn.
  fold ticks in Hrun, Hn.
  destruct (put_all_spec (map tick_sample ticks) (ringbuf dev) Hwf)
    as (rb' & Hput & Hwf' & Hc').
  rewrite Hrun in Hput. injection Hput as _ Hrb.
  rewrite Hempty in Hc'.
  change (63 - length (@nil simtemp_sample))%nat with 63%nat in Hc'.
  rewrite take_ge in Hc' by (rewrite length_map; lia).
  simpl in Hc'. rewrite <- Hrb in Hwf', Hc'.
  pose proof (read_n_spec (map tick_sample ticks)
                (snd (run_ticks inputs dev)) [] Hwf') as Hreads.
  rewrite app_nil_r, length_map, Hn in Hreads.
  specialize (Hreads Hc'). cbv zeta in Hreads. fold n reads in Hreads.
  destruct Hreads as (Hret & Hbuf & Hwf2 & Hc2).
  split; [exact Hret|]. split; [now rewrite Hbuf, map_map|].
  apply (empty_iff_contents _ Hwf2) in Hc2.
  split; [exact Hc2|].
  eexists. split.
  - unfold simtemp_read. simpl. unfold simtemp_ringbuf_get. rewrite Hc2.
    simpl. reflexivity.
  - split; reflexivity.
Qed.

Lemma X5_ticks_then_reads_witness :
  let dev := set_mode SIMTEMP_MODE_RAMP probed in
  let inputs := quiet_ticks 3 in
  map (fun r => match read_buf r with
                | Some s => temp_mC s
                | None => 0
                end) (fst (read_n 3 (snd (run_ticks inputs dev)))) =
    [40500; 41000; 41500] /\
  map read_buf (fst (read_n 3 (snd (run_ticks inputs dev)))) =
    map (fun t => Some (tick_sample t)) (fst (run_ticks inputs dev)) /\
  simtemp_ringbuf_empty (ringbuf (snd (read_n 3 (snd (run_ticks inputs dev)))))
    = true.
Proof.
  intros dev inputs.
  assert (rb_wf (ringbuf dev)) as Hwf.
  { split; [reflexivity|]. simpl. unfold RING_BUFFER_SIZE. lia. }
  assert (length inputs <= 63)%nat as Hlen by (simpl; lia).
  destruct (X5_ticks_then_reads inputs dev Hwf eq_refl Hlen)
    as (_ & Hbuf & He & _).
  split; [reflexivity|]. split; [exact Hbuf | exact He].
Defined.

(** * Further properties: blocking reads *)



(** X7: how a blocking read can end.  On a well-formed ring buffer it
    returns -EINVAL (destination too small), -ERESTARTSYS (signal while
    the buffer was empty; the device is then untouched), -EFAULT
    (destination not writable) or 16 with a sample; it never returns
    -EAGAIN: with one reader, the "unexpected empty buffer after wait"
    branch cannot be taken. *)
Theorem X7_blocking_read_outcomes (count : Z) (user_ok : bool)
    (events : list wait_event) (dev : simtemp_device) (r : read_result) :
  rb_wf (ringbuf dev) ->
  simtemp_read false count user_ok events dev = Some r ->
  read_ret r <> - EAGAIN /\
  ((read_ret r = - EINVAL /\ count < 16 /\ read_dev r = dev) \/
   (read_ret r = - ERESTARTSYS /\ read_dev r = dev /\
    simtemp_ringbuf_empty (ringbuf dev) = true) \/
   (read_ret r = - EFAULT /\ user_ok = false /\ read_buf r = None) \/
   (read_ret r = 16 /\ user_ok = true /\ exists x, read_buf r = Some x)).
Proof.
  intros Hwf Hread.
  unfold simtemp_read in Hread.
  destruct (Z.ltb_spec count sizeof_simtemp_sample) as [Hlt|Hge].
  { injection Hread as <-. simpl. split; [discriminate|]. left. auto. }
  pose proof (wait_spec events dev Hwf) as Hw.
  destruct (wait_event_interruptible events dev) as [[ret dev']|];
    [|discriminate].
  destruct Hw as [Hwf' [[Hret Hne]|[Hret [Hdev He]]]]; subst ret;
    [|subst dev'].
  - simpl in Hread.
    destruct (rb_contents (ringbuf dev')) as [|x l] eqn:Hc.
    { apply (empty_iff_contents _ Hwf') in Hc. congruence. }
    destruct (get_cons (ringbuf dev') zero_sample x l Hwf' Hc)
      as (rb' & Hget & _).
    rewrite Hget in Hread. simpl in Hread.
    destruct user_ok; injection Hread as <-; simpl;
      (split; [discriminate|]).
    + right. right. right. eauto.
    + right. right. left. auto.
  - simpl in Hread. injection Hread as <-. simpl.
    split; [discriminate|]. right. left. auto.
Qed.

Lemma X7_blocking_read_outcomes_witness :
  let r := {| read_ret := - ERESTARTSYS; read_buf := None; read_dev := probed |} in
  simtemp_read false 16 true [WaitSignal] probed = Some r /\
  read_ret r <> - EAGAIN.
Proof.
  intros r.
  assert (rb_wf (ringbuf probed)) as Hwf.
  { split; [reflexivity|]. simpl. unfold RING_BUFFER_SIZE. lia. }
  assert (simtemp_read false 16 true [WaitSignal] probed = Some r) as Hread
    by reflexivity.
  destruct (X7_blocking_read_outcomes 16 true [WaitSignal] probed r Hwf Hread)
    as (Hno & _).
  split; [exact Hread | exact Hno].
Defined.

(** * Further properties: poll() and the alert latch *)

(** X8: polling observes and never consumes.  However many times in a
    row poll() is called, every call returns the same mask, the ring
    buffer and the alert latch are untouched (poll does not acknowledge
    an alert), and only [poll_count] moves, by one per call.  In the
    mask, EPOLLIN and EPOLLRDNORM are set exactly when the ring buffer
    holds a sample and EPOLLPRI exactly when the latch is set. *)
Theorem X8_poll_observes_only (n : nat) (dev : simtemp_device) :
  let mask := fst (simtemp_poll dev) in
  let polls := poll_n (S n) dev in
  fst polls = replicate (S n) mask /\
  snd polls =
    set_stats
      {| total_samples := total_samples (stats dev);
         threshold_alerts := threshold_alerts (stats dev);
         read_count := read_count (stats dev);
         poll_count := wrap_u64 (poll_count (stats dev) + Z.of_nat (S n));
         last_error := last_error (stats dev) |} dev /\
  Z.testbit mask 0 = negb (simtemp_ringbuf_empty (ringbuf dev)) /\
  Z.testbit mask 6 = negb (simtemp_ringbuf_empty (ringbuf dev)) /\
  Z.testbit mask 1 = threshold_crossed dev /\
  Z.land mask (Z.lnot (Z.lor (Z.lor EPOLLIN EPOLLRDNORM) EPOLLPRI)) = 0.
Proof.
  intros mask polls. subst mask polls.
  split; [|split].
  - revert dev. induction n as [|n IH]; intros dev; [reflexivity|].
    change (poll_n (S (S n)) dev)
      with (let '(mask, dev1) := simtemp_poll dev in
            let '(masks, dev2) := poll_n (S n) dev1 in (mask :: masks, dev2)).
    specialize (IH (set_stats (inc_poll_count (stats dev)) dev)).
    change (simtemp_poll dev)
      with (fst (simtemp_poll dev), set_stats (inc_poll_count (stats dev)) dev).
    cbv beta iota.
    destruct (poll_n (S n) _) as [masks dev2]. simpl fst in *.
    rewrite IH. reflexivity.
  - revert dev. induction n as [|n IH]; intros dev; [reflexivity|].
    change (poll_n (S (S n)) dev)
      with (let '(mask, dev1) := simtemp_poll dev in
            let '(masks, dev2) := poll_n (S n) dev1 in (mask :: masks, dev2)).
    specialize (IH (set_stats (inc_poll_count (stats dev)) dev)).
    change (simtemp_poll dev)
      with (fst (simtemp_poll dev), set_stats (inc_poll_count (stats dev)) dev).
    cbv beta iota.
    destruct (poll_n (S n) _) as [masks dev2]. simpl snd in *.
    rewrite IH. unfold set_stats, inc_poll_count. simpl.
    f_equal. f_equal. unfold wrap_u64. rewrite Zplus_mod_idemp_l.
    f_equal. lia.
  - unfold simtemp_poll. simpl.
    destruct (simtemp_ringbuf_empty (ringbuf dev));
      destruct (threshold_crossed dev); repeat split; reflexivity.
Qed.

(** X9: the two alert channels differ.  After any tick the device is
    readable (EPOLLIN | EPOLLRDNORM), and poll() reports EPOLLPRI for
    as long as the temperature of the latest tick is above the
    threshold, on every tick of an excursion; the threshold-crossed
    flag of the sample is set on the first tick of the excursion
    only. *)
Theorem X9_poll_after_tick (now random : Z) (dev : simtemp_device) :
  rb_wf (ringbuf dev) ->
  let t := simtemp_timer_callback now random dev in
  let mask := fst (simtemp_poll (tick_dev t)) in
  Z.land mask (Z.lor EPOLLIN EPOLLRDNORM) = Z.lor EPOLLIN EPOLLRDNORM /\
  Z.testbit mask 1 = (temp_mC (tick_sample t) >? threshold_mC dev) /\
  crossed_flag (tick_sample t) =
    (temp_mC (tick_sample t) >? threshold_mC dev) && negb (threshold_crossed dev).
Proof.
  intros Hwf t mask.
  pose proof (tick_nonempty now random dev Hwf) as Hne.
  pose proof (tick_latch now random dev) as (_ & Hcr & Hfl & _).
  cbv zeta in Hcr, Hfl. fold t in Hne, Hcr, Hfl.
  subst mask. unfold simtemp_poll. simpl.
  rewrite Hne, Hcr. simpl.
  unfold crossed_flag. rewrite Hfl.
  destruct (temp_mC (tick_sample t) >? threshold_mC dev);
    destruct (threshold_crossed dev); repeat split; reflexivity.
Qed.

Lemma X9_poll_after_tick_witness :
  let dev := set_mode SIMTEMP_MODE_NOISY probed in
  let t1 := simtemp_timer_callback 100 16000 dev in
  let t2 := simtemp_timer_callback 200 17000 (tick_dev t1) in
  map temp_mC [tick_sample t1; tick_sample t2] = [46000; 47000] /\
  map crossed_flag [tick_sample t1; tick_sample t2] = [true; false] /\
  Z.testbit (fst (simtemp_poll (tick_dev t1))) 1 = true /\
  Z.testbit (fst (simtemp_poll (tick_dev t2))) 1 = true.
Proof.
  intros dev t1 t2.
  assert (rb_wf (ringbuf dev)) as Hwf.
  { split; [reflexivity|]. simpl. unfold RING_BUFFER_SIZE. lia. }
  assert (rb_wf (ringbuf (tick_dev t1))) as Hwf1.
  { split; [reflexivity|].
    split; split; vm_compute; (reflexivity || discriminate). }
  destruct (X9_poll_after_tick 100 16000 dev Hwf) as (_ & H1 & _).
  destruct (X9_poll_after_tick 200 17000 (tick_dev t1) Hwf1) as (_ & H2 & _).
  split; [reflexivity|]. split; [reflexivity|].
  split; [exact H1 | exact H2].
Defined.

(** X10: an alert raised while the ring buffer is full is counted but
    never delivered.  If the latch is clear, the buffer is full and the
    tick's temperature is above the threshold, then the put is refused,
    so the only sample flagged for this crossing is dropped; yet
    [threshold_alerts] goes up and the latch is set, so no later sample
    of the same excursion is flagged either, even once there is room
    again. *)
Theorem X10_alert_lost_on_full_buffer (now random : Z) (dev : simtemp_device) :
  rb_wf (ringbuf dev) ->
  simtemp_ringbuf_count (ringbuf dev) = 63 ->
  threshold_crossed dev = false ->
  let t := simtemp_timer_callback now random dev in
  temp_mC (tick_sample t) > threshold_mC dev ->
  crossed_flag (tick_sample t) = true /\
  tick_ret t = - ENOSPC /\
  ringbuf (tick_dev t) = ringbuf dev /\
  threshold_alerts (stats (tick_dev t)) =
    wrap_u64 (threshold_alerts (stats dev) + 1) /\
  threshold_crossed (tick_dev t) = true /\
  forall (now' random' : Z) (dev' : simtemp_device),
    threshold_crossed dev' = true ->
    threshold_mC dev' = threshold_mC dev ->
    let t' := simtemp_timer_callback now' random' dev' in
    crossed_flag (tick_sample t') = false /\
    (temp_mC (tick_sample t') > threshold_mC dev ->
     threshold_crossed (tick_dev t') = true).
Proof.
  intros Hwf Hfull Hclear t Hgt.
  pose proof (tick_put now random dev) as Hput.
  pose proof (tick_latch now random dev) as (_ & Hcr & Hfl & Hal).
  cbv zeta in Hput, Hcr, Hfl, Hal. fold t in Hput, Hcr, Hfl, Hal.
  rewrite (put_full _ _ Hwf Hfull) in Hput. injection Hput as Hret Hrb.
  apply Z.gt_lt, Z.ltb_lt in Hgt. rewrite <- Z.gtb_ltb in Hgt.
  rewrite Hgt, Hclear in *. simpl in Hfl, Hal.
  split; [unfold crossed_flag; rewrite Hfl; reflexivity|].
  split; [congruence|]. split; [congruence|].
  split; [exact Hal|]. split; [exact Hcr|].
  intros now' random' dev' Hset Hthr t'.
  pose proof (tick_latch now' random' dev') as (_ & Hcr' & Hfl' & _).
  cbv zeta in Hcr', Hfl'. fold t' in Hcr', Hfl'.
  rewrite Hset, andb_false_r in Hfl'. rewrite Hthr in Hcr'.
  split; [unfold crossed_flag; rewrite Hfl'; reflexivity|].
  intros Hgt'. rewrite Hcr'.
  rewrite Z.gtb_ltb. apply Z.ltb_lt. lia.
Qed.

Lemma X10_alert_lost_on_full_buffer_witness :
  let t := simtemp_timer_callback (ms_to_ktime 6400) 3000 probed_full in
  simtemp_ringbuf_count (ringbuf probed_full) = 63 /\
  temp_mC (tick_sample t) = 46000 /\
  crossed_flag (tick_sample t) = true /\
  tick_ret t = - ENOSPC /\
  map crossed_flag (rb_contents (ringbuf (tick_dev t))) = replicate 63 false /\
  threshold_alerts (stats (tick_dev t)) = 1.
Proof.
  intros t.
  assert (rb_wf (ringbuf probed_full)) as Hwf.
  { split; [reflexivity|].
    split; split; vm_compute; (reflexivity || discriminate). }
  assert (temp_mC (tick_sample t) > threshold_mC probed_full) as Hgt
    by reflexivity.
  destruct (X10_alert_lost_on_full_buffer (ms_to_ktime 6400) 3000 probed_full
              Hwf eq_refl eq_refl Hgt) as (Hfl & Hret & _ & Hal & _).
  split; [reflexivity|]. split; [reflexivity|]. split; [exact Hfl|].
  split; [exact Hret|]. split; [reflexivity | exact Hal].
Defined.

(** While the latch is set, the design's latch raises no alert on the
    next temperature; and it never raises two in a row. *)
Lemma latch_run_head (threshold : Z) (temps : list Z) :
  latch_run threshold true temps !! 0%nat <> Some true.
Proof.
  destruct temps as [|t temps]; simpl; [discriminate|].
  unfold latch_step. destruct (t >? threshold); simpl; discriminate.
Qed.

Lemma latch_run_no_adjacent (threshold : Z) (temps : list Z) :
  forall (above : bool) (i : nat),
    latch_run threshold above temps !! i = Some true ->
    latch_run threshold above temps !! S i <> Some true.
Proof.
  induction temps as [|t temps IH]; intros above i Hi; [discriminate|].
  simpl in Hi |- *. unfold latch_step in *.
  destruct (t >? threshold) eqn:Hgt.
  - destruct i as [|i]; simpl in Hi |- *.
    + apply latch_run_head.
    + apply IH. exact Hi.
  - destruct i as [|i]; simpl in Hi |- *; [discriminate|].
    apply IH. exact Hi.
Qed.

(** X11: alerts never come back to back.  In any run of ticks (with no
    configuration write in between) no two consecutive samples both
    carry the threshold-crossed flag, and if the latch is already set
    when the run starts, the first sample does not carry it. *)
Theorem X11_no_consecutive_alerts (inputs : list (Z * Z))
    (dev : simtemp_device) (i : nat) :
  let fired := map (fun r => crossed_flag (tick_sample r))
                   (fst (run_ticks inputs dev)) in
  (threshold_crossed dev = true -> fired !! 0%nat <> Some true) /\
  (fired !! i = Some true -> fired !! S i <> Some true).
Proof.
  intros fired.
  pose proof (run_ticks_latch inputs dev) as (Hf & _).
  cbv zeta in Hf. fold fired in Hf. rewrite Hf. split.
  - intros ->. apply latch_run_head.
  - apply latch_run_no_adjacent.
Qed.

Lemma X11_no_consecutive_alerts_witness :
  let dev := set_mode SIMTEMP_MODE_NOISY probed in
  let inputs := [(100, 10000); (200, 16000); (300, 17000); (400, 14000);
                 (500, 16000)] in
  let fired := map (fun r => crossed_flag (tick_sample r))
                   (fst (run_ticks inputs dev)) in
  fired !! 1%nat = Some true /\ fired !! 2%nat <> Some true.
Proof.
  intros dev inputs fired.
  assert (fired !! 1%nat = Some true) as H1 by reflexivity.
  split; [exact H1|].
  exact (proj2 (X11_no_consecutive_alerts inputs dev 1) H1).
Defined.

(** * Further properties: what every reachable device satisfies *)

(** Whatever the mode field holds, the generated temperature lies
    between the ramp's turning points. *)
Lemma generate_within (random : Z) (dev : simtemp_device) :
  ramp_inv dev ->
  30000 <= fst (simtemp_generate_temperature random dev) <= 70000.
Proof.
  intros Hinv.
  destruct (Z.eqb_spec (mode dev) SIMTEMP_MODE_NORMAL) as [Hn|Hn].
  { rewrite (generate_normal random dev Hn). simpl.
    pose proof (Z.mod_pos_bound (wrap_u32 random) 4000). lia. }
  destruct (Z.eqb_spec (mode dev) SIMTEMP_MODE_NOISY) as [Hy|Hy].
  { rewrite (generate_noisy random dev Hy). simpl.
    pose proof (Z.mod_pos_bound (wrap_u32 random) 30000). lia. }
  destruct (Z.eqb_spec (mode dev) SIMTEMP_MODE_RAMP) as [Hr|Hr].
  { rewrite (generate_ramp random dev Hr Hinv). unfold ramp_inv in Hinv.
    destruct (ramp_direction dev); simpl; lia. }
  rewrite generate_unrecognized; [simpl; lia|].
  unfold recognized_mode.
  apply Z.eqb_neq in Hn, Hy, Hr. now rewrite Hn, Hy, Hr.
Qed.

Lemma tick_sample_ok (now random : Z) (dev : simtemp_device) :
  ramp_inv dev ->
  sample_ok (tick_sample (simtemp_timer_callback now random dev)).
Proof.
  intros Hinv. pose proof (generate_within random dev Hinv) as Hrange.
  pose proof (tick_latch now random dev) as (_ & _ & Hfl & _).
  cbv zeta in Hfl. split.
  - rewrite timer_callback_unfold. exact Hrange.
  - rewrite Hfl. destruct (_ && _); auto.
Qed.

(** The configuration fields a tick leaves alone, and the timer it
    re-arms. *)
Lemma tick_config (now random : Z) (dev : simtemp_device) :
  let dev' := tick_dev (simtemp_timer_callback now random dev) in
  sampling_ms dev' = sampling_ms dev /\
  sampling_period dev' = sampling_period dev /\
  mode dev' = mode dev /\
  device_open dev' = device_open dev /\
  hr_active (timer dev') = true.
Proof.
  pose proof (generate_frame random dev)
    as (_ & Hp & _ & Hms & _ & Hm & _ & _ & Ho).
  rewrite timer_callback_unfold. cbv zeta in *.
  set (d1 := snd (simtemp_generate_temperature random dev)) in *.
  set (temp := fst (simtemp_generate_temperature random dev)).
  assert (forall t i n, hr_active (hrtimer_forward_now t i n) = true) as Hact.
  { intros t i n. unfold hrtimer_forward_now.
    repeat match goal with
           | |- context [if ?b then _ else _] => destruct b
           end; reflexivity. }
  destruct ((temp >? threshold_mC d1) && negb (threshold_crossed d1));
    [|destruct (temp >? threshold_mC d1)]; simpl; rewrite Hact; auto.
Qed.

Lemma dev_inv_tick (now random : Z) (dev : simtemp_device) :
  dev_inv dev -> dev_inv (tick_dev (simtemp_timer_callback now random dev)).
Proof.
  intros (Hwf & Hall & Hms & Hper & Hmode & Hramp & Hact).
  pose proof (tick_contents now random dev Hwf) as (Hwf' & Hc & _).
  pose proof (tick_config now random dev) as (Hms' & Hper' & Hmode' & _ & Hact').
  cbv zeta in Hms', Hper', Hmode', Hact'.
  unfold dev_inv. rewrite Hms', Hper', Hmode'.
  refine (conj Hwf' (conj _ (conj Hms (conj Hper (conj Hmode
            (conj (tick_ramp_inv now random dev Hramp) Hact')))))).
  rewrite Hc. destruct (_ <? 63); [|assumption].
  apply Forall_app. split; [assumption|].
  constructor; [|constructor]. now apply tick_sample_ok.
Qed.

Lemma dev_inv_wait (events : list wait_event) :
  forall (dev dev' : simtemp_device) (ret : Z),
    dev_inv dev ->
    wait_event_interruptible events dev = Some (ret, dev') ->
    dev_inv dev'.
Proof.
  induction events as [|[now random|] events IH]; intros dev dev' ret Hinv Hw;
    simpl in Hw;
    destruct (simtemp_ringbuf_empty (ringbuf dev)); simpl in Hw;
    try discriminate; try (injection Hw as _ <-; assumption).
  apply (IH _ _ _ (dev_inv_tick now random dev Hinv) Hw).
Qed.

(** Taking the oldest sample out keeps the invariant, and the sample
    taken is one a tick built. *)
Lemma dev_inv_get (dev : simtemp_device) (s0 : simtemp_sample) :
  dev_inv dev ->
  let g := simtemp_ringbuf_get (ringbuf dev) s0 in
  dev_inv (set_ringbuf (snd g) dev) /\
  (fst (fst g) = - EAGAIN \/ (fst (fst g) = 0 /\ sample_ok (snd (fst g)))).
Proof.
  intros (Hwf & Hall & Hrest).
  destruct (rb_contents (ringbuf dev)) as [|x l] eqn:Hc.
  - rewrite (get_empty _ s0 Hwf Hc). simpl. rewrite set_ringbuf_same.
    split; [|left; reflexivity]. split; [assumption|]. rewrite Hc. auto.
  - destruct (get_cons _ s0 x l Hwf Hc) as (rb' & Hget & Hwf' & Hc' & _).
    rewrite Hget. simpl. inversion Hall; subst.
    split; [|right; auto].
    split; [exact Hwf'|]. split; [assumption | exact Hrest].
Qed.

Lemma dev_inv_read (nonblock user_ok : bool) (count : Z)
    (events : list wait_event) (dev : simtemp_device) (r : read_result) :
  dev_inv dev ->
  simtemp_read nonblock count user_ok events dev = Some r ->
  dev_inv (read_dev r) /\
  (forall x, read_buf r = Some x -> sample_ok x).
Proof.
  intros Hinv Hread. unfold simtemp_read in Hread.
  destruct (count <? sizeof_simtemp_sample).
  { injection Hread as <-. simpl. split; [assumption|discriminate]. }
  destruct nonblock.
  - pose proof (dev_inv_get dev zero_sample Hinv) as (Hinv' & Hok).
    cbv zeta in Hinv', Hok.
    destruct (simtemp_ringbuf_get (ringbuf dev) zero_sample) as [[ret s] rb'].
    simpl in *.
    destruct Hok as [->|[-> Hok]]; simpl in Hread.
    + injection Hread as <-. simpl. split; [assumption|discriminate].
    + destruct user_ok; injection Hread as <-; simpl;
        (split; [exact Hinv'|]); [|discriminate].
      intros x Hx. injection Hx as <-. exact Hok.
  - destruct (wait_event_interruptible events dev) as [[ret dev1]|] eqn:Hw;
      [|discriminate].
    pose proof (dev_inv_wait events dev dev1 ret Hinv Hw) as Hinv1.
    destruct (ret =? 0); simpl in Hread.
    + pose proof (dev_inv_get dev1 zero_sample Hinv1) as (Hinv' & Hok).
      cbv zeta in Hinv', Hok.
      destruct (simtemp_ringbuf_get (ringbuf dev1) zero_sample)
        as [[ret' s] rb'].
      simpl in *.
      destruct Hok as [->|[-> Hok]]; simpl in Hread.
      * injection Hread as <-. simpl. split; [assumption|discriminate].
      * destruct user_ok; injection Hread as <-; simpl;
          (split; [exact Hinv'|]); [|discriminate].
        intros x Hx. injection Hx as <-. exact Hok.
    + injection Hread as <-. simpl. split; [assumption|discriminate].
Qed.

Lemma dev_inv_probe (dt_sampling_ms dt_threshold_mC : option Z) (now : Z) :
  dev_inv (simtemp_probe dt_sampling_ms dt_threshold_mC now).
Proof.
  unfold dev_inv, simtemp_probe; simpl.
  refine (conj _ (conj _ (conj _ (conj eq_refl (conj eq_refl (conj _ eq_refl)))))).
  - apply init_wf.
  - constructor.
  - unfold SIMTEMP_SAMPLING_MS_MIN, SIMTEMP_SAMPLING_MS_MAX, DEFAULT_SAMPLING_MS.
    destruct dt_sampling_ms as [val|]; [|lia].
    destruct (Z.leb_spec 1 val); destruct (Z.leb_spec val 10000); simpl; lia.
  - unfold ramp_inv. simpl. lia.
Qed.

Lemma dev_inv_sampling_store (now count : Z) (buf : string)
    (dev : simtemp_device) :
  dev_inv dev -> dev_inv (snd (sampling_ms_store now buf count dev)).
Proof.
  intros Hinv. unfold sampling_ms_store.
  destruct (kstrtouint buf) as [val|ret]; [|exact Hinv].
  destruct (Z.ltb_spec val SIMTEMP_SAMPLING_MS_MIN); [exact Hinv|].
  destruct (Z.gtb_spec val SIMTEMP_SAMPLING_MS_MAX); [exact Hinv|].
  destruct Hinv as (Hwf & Hall & _ & _ & Hmode & Hramp & _).
  simpl. unfold dev_inv. simpl.
  refine (conj Hwf (conj Hall (conj _ (conj eq_refl (conj Hmode
            (conj Hramp eq_refl)))))).
  lia.
Qed.

Lemma dev_inv_threshold_store (count : Z) (buf : string)
    (dev : simtemp_device) :
  dev_inv dev -> dev_inv (snd (threshold_mC_store buf count dev)).
Proof.
  intros Hinv. unfold threshold_mC_store.
  destruct (kstrtoint buf) as [val|ret]; [|exact Hinv].
  destruct (_ || _); exact Hinv.
Qed.

Lemma dev_inv_mode_store (count : Z) (buf : string) (dev : simtemp_device) :
  dev_inv dev -> dev_inv (snd (mode_store buf count dev)).
Proof.
  intros Hinv. unfold mode_store.
  destruct Hinv as (Hwf & Hall & Hms & Hper & Hmode & Hramp & Hact).
  destruct (sysfs_streq buf "normal");
    [|destruct (sysfs_streq buf "noisy");
      [|destruct (sysfs_streq buf "ramp")]];
    simpl; unfold dev_inv; simpl; auto 10.
Qed.

Lemma dev_inv_step (op : dev_op) (dev dev' : simtemp_device) :
  dev_inv dev -> dev_step op dev = Some dev' -> dev_inv dev'.
Proof.
  intros Hinv Hstep. destruct op; simpl in Hstep.
  - injection Hstep as <-. now apply dev_inv_tick.
  - injection Hstep as <-. exact Hinv.
  - injection Hstep as <-. exact Hinv.
  - destruct (simtemp_read nonblock count user_ok events dev) as [r|] eqn:Hr;
      [|discriminate].
    injection Hstep as <-. apply (dev_inv_read _ _ _ _ _ _ Hinv Hr).
  - injection Hstep as <-. exact Hinv.
  - injection Hstep as <-. now apply dev_inv_sampling_store.
  - injection Hstep as <-. now apply dev_inv_threshold_store.
  - injection Hstep as <-. now apply dev_inv_mode_store.
Qed.

Lemma dev_inv_run (ops : list dev_op) :
  forall dev dev' : simtemp_device,
    dev_inv dev -> dev_run ops dev = Some dev' -> dev_inv dev'.
Proof.
  induction ops as [|op ops IH]; intros dev dev' Hinv Hrun; simpl in Hrun.
  - injection Hrun as <-. exact Hinv.
  - destruct (dev_step op dev) as [dev1|] eqn:Hstep; [|discriminate].
    apply (IH dev1 dev' (dev_inv_step op dev dev1 Hinv Hstep) Hrun).
Qed.

(** X12: the driver's invariant.  From the probe (whatever the
    device-tree properties) and through any sequence of ticks, opens,
    releases, reads, polls and attribute writes, valid or not, the
    device satisfies [dev_inv]: the ring buffer indices stay below 64
    over 64 slots, every buffered sample has a temperature in
    30000..70000 and flags 1 or 3, the sampling period is in 1..10000
    ms and [sampling_period] is its nanosecond value, the mode is one
    of the three enumerators (the generator's fallback branch is never
    reached), the ramp stays between its turning points, and the sample
    timer is queued. *)
Theorem X12_reachable_invariant (dt_sampling_ms dt_threshold_mC : option Z)
    (now : Z) (ops : list dev_op) (dev : simtemp_device) :
  dev_run ops (simtemp_probe dt_sampling_ms dt_threshold_mC now) = Some dev ->
  dev_inv dev.
Proof.
  apply dev_inv_run, dev_inv_probe.
Qed.

Lemma X12_reachable_invariant_witness :
  let ops := [OpStoreSampling 1000 "0" 1; OpStoreMode "ramp" 4; OpOpen;
              OpRead false 16 true [WaitTick 100000000 7];
              OpStoreMode "turbo" 5; OpTick 200000000 9; OpPoll;
              OpStoreThreshold "41000" 5; OpTick 300000000 9; OpRelease] in
  exists dev : simtemp_device,
    dev_run ops (simtemp_probe (Some 20000) (Some 200000) 0) = Some dev /\
    sampling_ms dev = 100 /\ mode dev = SIMTEMP_MODE_RAMP /\
    map temp_mC (rb_contents (ringbuf dev)) = [41000; 41500] /\
    dev_inv dev.
Proof.
  intros ops. eexists.
  split; [vm_compute; reflexivity|].
  split; [reflexivity|]. split; [reflexivity|]. split; [reflexivity|].
  apply (X12_reachable_invariant (Some 20000) (Some 200000) 0 ops).
  vm_compute. reflexivity.
Defined.

(** X13: every sample a read hands to user space on a reachable device
    was built by a tick: its temperature is in 30000..70000 and its
    flags are 1 (new sample) or 3 (new sample, threshold crossed). *)
Theorem X13_delivered_samples_in_range
    (dt_sampling_ms dt_threshold_mC : option Z) (now : Z) (ops : list dev_op)
    (dev : simtemp_device) (nonblock user_ok : bool) (count : Z)
    (events : list wait_event) (r : read_result) (x : simtemp_sample) :
  dev_run ops (simtemp_probe dt_sampling_ms dt_threshold_mC now) = Some dev ->
  simtemp_read nonblock count user_ok events dev = Some r ->
  read_buf r = Some x ->
  30000 <= temp_mC x <= 70000 /\ (flags x = 1 \/ flags x = 3).
Proof.
  intros Hrun Hread Hbuf.
  pose proof (dev_inv_run ops _ dev (dev_inv_probe _ _ _) Hrun) as Hinv.
  destruct (dev_inv_read _ _ _ _ _ _ Hinv Hread) as (_ & Hok).
  exact (Hok x Hbuf).
Qed.

Lemma X13_delivered_samples_in_range_witness :
  let ops := [OpStoreMode "noisy" 5; OpTick 100 4294967295; OpTick 200 0] in
  let x := {| timestamp_ns := 100; temp_mC := 47295; flags := 3 |} in
  exists (dev : simtemp_device) (r : read_result),
    dev_run ops (simtemp_probe None None 0) = Some dev /\
    simtemp_read true 16 true [] dev = Some r /\
    read_buf r = Some x /\
    30000 <= temp_mC x <= 70000 /\ (flags x = 1 \/ flags x = 3).
Proof.
  intros ops x.
  destruct (dev_run ops (simtemp_probe None None 0)) as [dev|] eqn:Hrun;
    [|discriminate].
  assert (exists r, simtemp_read true 16 true [] dev = Some r /\
                    read_buf r = Some x) as (r & Hread & Hbuf).
  { vm_compute in Hrun. injection Hrun as <-.
    eexists. split; vm_compute; reflexivity. }
  exists dev, r. split; [reflexivity|]. split; [exact Hread|].
  split; [exact Hbuf|].
  exact (X13_delivered_samples_in_range None None 0 ops dev true true 16
           [] r x Hrun Hread Hbuf).
Defined.

(** * Further properties: the text of the attributes *)

(** Decimal digits.  [pretty] (the [%u] / [%d] of [sysfs_emit]) writes
    them most significant first, and [_parse_integer] reads them back. *)
Lemma digit_of_pretty_char (m : N) :
  (m < 10)%N -> digit_of (pretty_N_char m) = Some (Z.of_N m).
Proof.
  intros Hm.
  assert (m = 0 \/ m = 1 \/ m = 2 \/ m = 3 \/ m = 4 \/ m = 5 \/ m = 6 \/
          m = 7 \/ m = 8 \/ m = 9)%N as Hcases by lia.
  repeat (destruct Hcases as [->|Hcases]; [reflexivity|]).
  subst m. reflexivity.
Qed.

Lemma pretty_N_go_app (x : N) :
  forall s t : string,
    (pretty_N_go x s ++ t)%string = pretty_N_go x (s ++ t)%string.
Proof.
  induction (N.lt_wf_0 x) as [x _ IH]; intros s t.
  destruct (N.eq_dec x 0%N) as [->|Hx]; [reflexivity|].
  rewrite (pretty_N_go_step x s), (pretty_N_go_step x (s ++ t)) by lia.
  rewrite IH by (apply N.div_lt; lia). reflexivity.
Qed.

Lemma parse_pretty_N_go (x : N) :
  exists d : nat,
    (x <> 0%N -> d <> 0%nat) /\
    forall (s : string) (res : Z) (rv : nat),
      _parse_integer (pretty_N_go x s) res rv =
        _parse_integer s (res * 10 ^ Z.of_nat d + Z.of_N x) (rv + d).
Proof.
  induction (N.lt_wf_0 x) as [x _ IH].
  destruct (N.eq_dec x 0%N) as [->|Hx].
  { exists 0%nat. split; [congruence|]. intros s res rv.
    rewrite pretty_N_go_0. f_equal; [f_equal; simpl; lia | lia]. }
  destruct (IH (x `div` 10)%N) as (d & _ & Hd); [apply N.div_lt; lia|].
  exists (S d). split; [discriminate|]. intros s res rv.
  rewrite pretty_N_go_step by lia. rewrite Hd.
  simpl _parse_integer.
  rewrite digit_of_pretty_char by (apply N.mod_lt; lia).
  pose proof (N.div_mod x 10%N) as Hdm.
  apply (f_equal Z.of_N) in Hdm; [|lia].
  rewrite N2Z.inj_add, N2Z.inj_mul in Hdm. simpl Z.of_N in Hdm.
  replace ((res * 10 ^ Z.of_nat d + Z.of_N (x `div` 10)) * 10 +
           Z.of_N (x `mod` 10))
    with (res * 10 ^ Z.of_nat (S d) + Z.of_N x).
  - f_equal. lia.
  - rewrite Nat2Z.inj_succ, Z.pow_succ_r, Hdm by lia. ring.
Qed.

(** The text of a positive number starts with a digit. *)
Lemma pretty_N_go_head (x : N) :
  x <> 0%N ->
  forall s : string,
    exists (c : ascii) (rest : string),
      pretty_N_go x s = String c rest /\ digit_of c <> None.
Proof.
  induction (N.lt_wf_0 x) as [x _ IH]; intros Hx s.
  rewrite pretty_N_go_step by lia.
  destruct (N.eq_dec (x `div` 10)%N 0%N) as [H0|H0].
  - rewrite H0, pretty_N_go_0. eexists _, _. split; [reflexivity|].
    rewrite digit_of_pretty_char by (apply N.mod_lt; lia). discriminate.
  - apply IH; [apply N.div_lt; lia | assumption].
Qed.

(** What the parser makes of a printed number followed by a newline. *)
Lemma kstrtoull_pretty (x : N) :
  (Z.of_N x <= ULLONG_MAX) ->
  kstrtoull (pretty x ++ newline) = KOk (Z.of_N x) /\
  _kstrtoull (pretty x ++ newline) = KOk (Z.of_N x) /\
  exists (c : ascii) (rest : string),
    (pretty x ++ newline)%string = String c rest /\ digit_of c <> None.
Proof.
  intros Hmax.
  assert (_kstrtoull (pretty x ++ newline) = KOk (Z.of_N x) /\
          exists (c : ascii) (rest : string),
            (pretty x ++ newline)%string = String c rest /\ digit_of c <> None)
    as (Hk & c & rest & Hs & Hc).
  { unfold pretty, pretty_N. destruct (decide (x = 0%N)) as [->|Hx].
    - split; [reflexivity|]. eexists _, _. split; [reflexivity|discriminate].
    - rewrite pretty_N_go_app. simpl append. split.
      + unfold _kstrtoull.
        destruct (parse_pretty_N_go x) as (d & Hd & Hparse).
        rewrite Hparse. simpl _parse_integer.
        replace (0 * 10 ^ Z.of_nat d + Z.of_N x) with (Z.of_N x) by lia.
        replace (Z.of_N x >? ULLONG_MAX) with false
          by (symmetry; rewrite Z.gtb_ltb; apply Z.ltb_ge; assumption).
        specialize (Hd Hx). destruct d; [congruence|]. reflexivity.
      + apply pretty_N_go_head. assumption. }
  split; [|split; [exact Hk|eauto]].
  unfold kstrtoull. rewrite Hs in *.
  destruct (Ascii.eqb_spec c "+"%char) as [->|Hne]; [now elim Hc|].
  destruct c as [[] [] [] [] [] [] [] []]; try exact Hk. now elim Hne.
Qed.

Lemma kstrtouint_pretty (v : Z) :
  0 <= v < 2 ^ 32 ->
  kstrtouint (pretty v ++ newline) = KOk v.
Proof.
  intros Hv. unfold kstrtouint.
  replace (pretty v) with (pretty (Z.to_N v)).
  2: { destruct v as [|p|p]; try reflexivity. lia. }
  destruct (kstrtoull_pretty (Z.to_N v)) as (Hk & _).
  { unfold ULLONG_MAX. lia. }
  rewrite Hk, Z2N.id by lia.
  unfold wrap_u32. rewrite Z.mod_small by lia. now rewrite Z.eqb_refl.
Qed.

Lemma kstrtoint_pretty (v : Z) :
  - 2 ^ 31 <= v < 2 ^ 31 ->
  kstrtoint (pretty v ++ newline) = KOk v.
Proof.
  intros Hv. unfold kstrtoint.
  assert (kstrtoll (pretty v ++ newline) = KOk v) as ->.
  { destruct (Z.neg_nonneg_cases v) as [Hneg|Hpos].
    - destruct v as [|p|p]; try lia.
      change (pretty (Z.neg p) ++ newline)%string
        with (String "-"%char (pretty (N.pos p) ++ newline)).
      destruct (kstrtoull_pretty (N.pos p)) as (_ & Hk & _).
      { unfold ULLONG_MAX. lia. }
      change (kstrtoll (String "-"%char (pretty (N.pos p) ++ newline)))
        with (match _kstrtoull (pretty (N.pos p) ++ newline) with
              | KErr rv => KErr rv
              | KOk tmp => if tmp >? 2 ^ 63 then KErr (- ERANGE) else KOk (- tmp)
              end).
      rewrite Hk.
      replace (Z.of_N (N.pos p) >? 2 ^ 63) with false
        by (symmetry; rewrite Z.gtb_ltb; apply Z.ltb_ge; lia).
      reflexivity.
    - replace (pretty v) with (pretty (Z.to_N v)).
      2: { destruct v as [|p|p]; try reflexivity. lia. }
      destruct (kstrtoull_pretty (Z.to_N v)) as (Hk & _ & c & rest & Hs & Hc).
      { unfold ULLONG_MAX. lia. }
      unfold kstrtoll. rewrite Hs in *.
      destruct (Ascii.eqb_spec c "-"%char) as [->|Hne]; [now elim Hc|].
      assert (match c with
              | "-"%char => KErr 0
              | _ => KOk 0
              end = KOk 0) as Hmatch.
      { destruct c as [[] [] [] [] [] [] [] []]; try reflexivity.
        now elim Hne. }
      destruct c as [[] [] [] [] [] [] [] []]; try discriminate Hmatch;
        rewrite Hk, Z2N.id by lia;
        (replace (v >=? 2 ^ 63) with false
           by (symmetry; rewrite Z.geb_leb; apply Z.leb_gt; lia));
        reflexivity. }
  rewrite wrap_s32_small by lia. now rewrite Z.eqb_refl.
Qed.

(** The parsers fail with a negative status only. *)
Lemma _kstrtoull_err (s : string) (e : Z) : _kstrtoull s = KErr e -> e < 0.
Proof.
  unfold _kstrtoull.
  destruct (_parse_integer s 0 0) as [[res rv] rest].
  destruct (res >? ULLONG_MAX); [intros [= <-]; reflexivity|].
  destruct (Nat.eqb rv 0); [intros [= <-]; reflexivity|].
  match goal with
  | |- match ?r with EmptyString => _ | String _ _ => _ end = _ -> _ =>
      destruct r as [|c r']
  end; [discriminate|].
  destruct (Ascii.eqb c "000"%char); [discriminate|].
  intros [= <-]; reflexivity.
Qed.

Lemma kstrtoull_err (s : string) (e : Z) : kstrtoull s = KErr e -> e < 0.
Proof.
  unfold kstrtoull. destruct s as [|c s]; [apply _kstrtoull_err|].
  destruct c as [[] [] [] [] [] [] [] []]; apply _kstrtoull_err.
Qed.

Lemma kstrtouint_err (s : string) (e : Z) : kstrtouint s = KErr e -> e < 0.
Proof.
  unfold kstrtouint. destruct (kstrtoull s) as [tmp|rv] eqn:Hk.
  - destruct (tmp =? wrap_u32 tmp); [discriminate|].
    intros [= <-]; reflexivity.
  - intros [= <-]. now apply (kstrtoull_err s).
Qed.

Lemma kstrtoll_err (s : string) (e : Z) : kstrtoll s = KErr e -> e < 0.
Proof.
  assert (forall s',
             match _kstrtoull s' with
             | KErr rv => KErr rv
             | KOk tmp => if tmp >? 2 ^ 63 then KErr (- ERANGE) else KOk (- tmp)
             end = KErr e -> e < 0) as Hneg.
  { intros s'. destruct (_kstrtoull s') as [tmp|rv] eqn:Hk.
    - destruct (tmp >? 2 ^ 63); [|discriminate]. intros [= <-]; reflexivity.
    - intros [= <-]. now apply (_kstrtoull_err s'). }
  assert (match kstrtoull s with
          | KErr rv => KErr rv
          | KOk tmp => if tmp >=? 2 ^ 63 then KErr (- ERANGE) else KOk tmp
          end = KErr e -> e < 0) as Hpos.
  { destruct (kstrtoull s) as [tmp|rv] eqn:Hk.
    - destruct (tmp >=? 2 ^ 63); [|discriminate]. intros [= <-]; reflexivity.
    - intros [= <-]. now apply (kstrtoull_err s). }
  unfold kstrtoll. destruct s as [|c s]; [exact Hpos|].
  destruct c as [[] [] [] [] [] [] [] []]; try exact Hpos. apply Hneg.
Qed.

Lemma kstrtoint_err (s : string) (e : Z) : kstrtoint s = KErr e -> e < 0.
Proof.
  unfold kstrtoint. destruct (kstrtoll s) as [tmp|rv] eqn:Hk.
  - destruct (tmp =? wrap_s32 tmp); [discriminate|].
    intros [= <-]; reflexivity.
  - intros [= <-]. now apply (kstrtoll_err s).
Qed.

(** X14: a threshold write takes effect at the next tick and does not
    touch the latch.  After an accepted write of [val], the latch is as
    it was; the next tick generates the temperature it would have
    generated anyway, compares it with [val], flags its sample exactly
    when that temperature is above [val] and the latch was clear before
    the write, and leaves the latch at the outcome of the comparison. *)
Theorem X14_threshold_write_then_tick (buf : string) (val count now random : Z)
    (dev : simtemp_device) :
  kstrtoint buf = KOk val ->
  SIMTEMP_THRESHOLD_MC_MIN <= val <= SIMTEMP_THRESHOLD_MC_MAX ->
  let w := threshold_mC_store buf count dev in
  let t := simtemp_timer_callback now random (snd w) in
  fst w = count /\
  threshold_mC (snd w) = val /\
  threshold_crossed (snd w) = threshold_crossed dev /\
  temp_mC (tick_sample t) = fst (simtemp_generate_temperature random dev) /\
  crossed_flag (tick_sample t) =
    (temp_mC (tick_sample t) >? val) && negb (threshold_crossed dev) /\
  threshold_crossed (tick_dev t) = (temp_mC (tick_sample t) >? val).
Proof.
  intros Hparse Hrange w t.
  assert (w = (count, set_threshold_mC val dev)) as Hw.
  { subst w. unfold threshold_mC_store. rewrite Hparse.
    replace (val <? SIMTEMP_THRESHOLD_MC_MIN) with false
      by (symmetry; apply Z.ltb_ge; lia).
    replace (val >? SIMTEMP_THRESHOLD_MC_MAX) with false
      by (symmetry; rewrite Z.gtb_ltb; apply Z.ltb_ge; lia).
    reflexivity. }
  subst t. rewrite Hw. simpl fst. simpl snd.
  pose proof (tick_latch now random (set_threshold_mC val dev))
    as (_ & Hcr & Hfl & _).
  cbv zeta in Hcr, Hfl. simpl threshold_mC in Hcr, Hfl.
  simpl threshold_crossed in Hfl.
  refine (conj eq_refl (conj eq_refl (conj eq_refl (conj _ (conj _ Hcr))))).
  - rewrite timer_callback_unfold. simpl.
    unfold simtemp_generate_temperature. simpl.
    repeat match goal with
           | |- context [if ?b then _ else _] => destruct b
           end; reflexivity.
  - unfold crossed_flag. rewrite Hfl.
    now destruct (_ && _).
Qed.

Lemma X14_threshold_write_then_tick_witness :
  let dev := snd (run_ticks [(100, 16000)] (set_mode SIMTEMP_MODE_NOISY probed)) in
  let w := threshold_mC_store "50000" 5 dev in
  let t := simtemp_timer_callback 200 17000 (snd w) in
  threshold_crossed dev = true /\
  threshold_crossed (snd w) = true /\
  temp_mC (tick_sample t) = 47000 /\
  crossed_flag (tick_sample t) = false /\
  threshold_crossed (tick_dev t) = false.
Proof.
  intros dev w t.
  assert (SIMTEMP_THRESHOLD_MC_MIN <= 50000 <= SIMTEMP_THRESHOLD_MC_MAX)
    as Hrange by (unfold SIMTEMP_THRESHOLD_MC_MIN, SIMTEMP_THRESHOLD_MC_MAX; lia).
  destruct (X14_threshold_write_then_tick "50000" 50000 5 200 17000 dev
              eq_refl Hrange) as (_ & _ & Hl & _ & Hf & Hc).
  split; [reflexivity|]. split; [exact Hl|]. split; [reflexivity|].
  split; [exact Hf | exact Hc].
Defined.

(** X15: a write to [sampling_ms] or [threshold_mC] applies completely
    or not at all, and its return value tells which.  Either it returns
    [count], the text parsed to a value inside the attribute's range,
    and the device differs from the old one in that attribute alone
    (for the period: [sampling_ms], [sampling_period] and the timer,
    restarted to fire one new period after the write); or it returns a
    negative status and the device, timer included, is untouched. *)
Theorem X15_store_all_or_nothing (now count : Z) (buf : string)
    (dev : simtemp_device) :
  0 <= count ->
  let s := sampling_ms_store now buf count dev in
  let t := threshold_mC_store buf count dev in
  ((fst s = count /\
    exists v, kstrtouint buf = KOk v /\ 1 <= v <= 10000 /\
              snd s = set_timer {| hr_active := true;
                                   hr_expires := now + v * 1000000 |}
                        (set_sampling v (v * 1000000) dev)) \/
   (fst s < 0 /\ snd s = dev)) /\
  ((fst t = count /\
    exists v, kstrtoint buf = KOk v /\ -40000 <= v <= 125000 /\
              snd t = set_threshold_mC v dev) \/
   (fst t < 0 /\ snd t = dev)).
Proof.
  intros Hcount s t. subst s t. split.
  - unfold sampling_ms_store.
    destruct (kstrtouint buf) as [val|ret] eqn:Hk.
    + destruct (Z.ltb_spec val SIMTEMP_SAMPLING_MS_MIN);
        [right; split; reflexivity|].
      destruct (Z.gtb_spec val SIMTEMP_SAMPLING_MS_MAX);
        [right; split; reflexivity|].
      left. split; [reflexivity|]. exists val.
      unfold SIMTEMP_SAMPLING_MS_MIN, SIMTEMP_SAMPLING_MS_MAX in *.
      split; [reflexivity|]. split; [lia|reflexivity].
    + right. split; [|reflexivity]. simpl. now apply (kstrtouint_err buf).
  - unfold threshold_mC_store.
    destruct (kstrtoint buf) as [val|ret] eqn:Hk.
    + destruct (Z.ltb_spec val SIMTEMP_THRESHOLD_MC_MIN);
        [right; split; reflexivity|].
      destruct (Z.gtb_spec val SIMTEMP_THRESHOLD_MC_MAX);
        [right; split; reflexivity|].
      left. split; [reflexivity|]. exists val.
      unfold SIMTEMP_THRESHOLD_MC_MIN, SIMTEMP_THRESHOLD_MC_MAX in *.
      split; [reflexivity|]. split; [lia|reflexivity].
    + right. split; [|reflexivity]. simpl. now apply (kstrtoint_err buf).
Qed.

Lemma X15_store_all_or_nothing_witness :
  0 <= 6 /\
  (fst (sampling_ms_store 5000 "-5000" 6 probed) < 0 /\
   snd (sampling_ms_store 5000 "-5000" 6 probed) = probed) /\
  threshold_mC_store "-5000" 6 probed = (6, set_threshold_mC (-5000) probed) /\
  sampling_ms_store 5000 "99999999999" 12 probed = (- ERANGE, probed) /\
  sampling_ms_store 5000 "10001" 5 probed = (- EINVAL, probed).
Proof.
  assert (0 <= 6) as Hcount by lia.
  destruct (X15_store_all_or_nothing 5000 6 "-5000" probed Hcount)
    as ([(Hc & _)|Hs] & _).
  { vm_compute in Hc. discriminate. }
  split; [exact Hcount|]. split; [exact Hs|]. repeat split.
Defined.

Lemma str_app_nil (s : string) : ("" ++ s)%string = s.
Proof. reflexivity. Qed.

Lemma str_app_cons (c : ascii) (s t : string) :
  (String c s ++ t)%string = String c (s ++ t)%string.
Proof. reflexivity. Qed.

(** The C string in a buffer is empty when the buffer starts with NUL. *)
Lemma c_str_nil (s : string) : c_str s = "" <-> is_nul (str_head s) = true.
Proof.
  destruct s as [|c s]; simpl; [intuition reflexivity|].
  destruct (is_nul c); intuition discriminate.
Qed.

Lemma c_str_cons (c : ascii) (s : string) :
  is_nul c = false -> c_str (String c s) = String c (c_str s).
Proof. intros H. simpl. now rewrite H. Qed.

Lemma c_str_head (s : string) :
  is_nul (str_head s) = false ->
  c_str s = String (str_head s) (c_str (str_tail s)).
Proof.
  destruct s as [|c s]; simpl; [discriminate|]. intros H. now rewrite H.
Qed.

(** After the loop of [sysfs_streq]: the first text is at its end, or
    the two texts differ in their first byte. *)
Lemma streq_rest_spec (s1 s2 : string) :
  is_nul (str_head s1) = true \/ str_head s1 <> str_head s2 ->
  streq_rest s1 s2 = true <->
  (c_str s1 = c_str s2 \/ c_str s1 = (c_str s2 ++ newline)%string \/
   c_str s2 = (c_str s1 ++ newline)%string).
Proof.
  intros Hexit. unfold streq_rest, newline.
  destruct (is_nul (str_head s1)) eqn:N1.
  - pose proof (proj2 (c_str_nil s1) N1) as E1. rewrite E1, str_app_nil.
    destruct (is_nul (str_head s2)) eqn:N2.
    + pose proof (proj2 (c_str_nil s2) N2) as E2. rewrite E2.
      unfold is_nul in N1, N2. apply Ascii.eqb_eq in N1, N2.
      rewrite N1, N2. simpl. intuition.
    + rewrite (c_str_head s2 N2).
      destruct (Ascii.eqb_spec (str_head s1) (str_head s2)) as [He|Hne].
      { rewrite <- He, N1 in N2. discriminate. }
      simpl andb.
      destruct (Ascii.eqb_spec (str_head s2) "010"%char) as [Hn|Hn].
      * rewrite Hn. simpl andb.
        destruct (is_nul (str_head (str_tail s2))) eqn:N3.
        -- rewrite (proj2 (c_str_nil _) N3). intuition.
        -- rewrite andb_false_r.
           assert (c_str (str_tail s2) <> "") as Hc.
           { intros Hc. apply c_str_nil in Hc. congruence. }
           rewrite str_app_cons.
           split; [discriminate|].
           intros [H | [H | H]]; try discriminate. congruence.
      * simpl andb. rewrite andb_false_r. rewrite str_app_cons.
        split; [discriminate|].
        intros [H | [H | H]]; try discriminate. congruence.
  - destruct Hexit as [Hexit|Hne]; [discriminate|].
    apply Ascii.eqb_neq in Hne. rewrite Hne. simpl andb.
    rewrite (c_str_head s1 N1).
    destruct (is_nul (str_head s2)) eqn:N2.
    + rewrite (proj2 (c_str_nil s2) N2), str_app_nil, andb_true_r.
      destruct (Ascii.eqb_spec (str_head s1) "010"%char) as [Hn|Hn].
      * rewrite Hn. simpl andb.
        destruct (is_nul (str_head (str_tail s1))) eqn:N3.
        -- rewrite (proj2 (c_str_nil _) N3). intuition.
        -- assert (c_str (str_tail s1) <> "") as Hc.
           { intros Hc. apply c_str_nil in Hc. congruence. }
           rewrite str_app_cons.
           split; [discriminate|].
           intros [H | [H | H]]; try discriminate. congruence.
      * simpl andb. rewrite str_app_cons.
        split; [discriminate|].
        intros [H | [H | H]]; try discriminate. congruence.
    + rewrite andb_false_r. rewrite (c_str_head s2 N2), !str_app_cons.
      apply Ascii.eqb_neq in Hne.
      split; [discriminate|].
      intros [H | [H | H]]; congruence.
Qed.

(** [sysfs_streq] is equality of the two C strings up to one trailing
    newline on either side. *)
Lemma sysfs_streq_spec (s1 : string) :
  forall s2 : string,
    sysfs_streq s1 s2 = true <->
    (c_str s1 = c_str s2 \/ c_str s1 = (c_str s2 ++ newline)%string \/
     c_str s2 = (c_str s1 ++ newline)%string).
Proof.
  induction s1 as [|c1 s1 IH]; intros s2.
  - change (sysfs_streq "" s2) with (streq_rest "" s2).
    apply streq_rest_spec. left. reflexivity.
  - destruct s2 as [|c2 s2].
    + change (sysfs_streq (String c1 s1) "")
        with (streq_rest (String c1 s1) "").
      apply streq_rest_spec. simpl.
      destruct (is_nul c1) eqn:N1; [now left|right].
      intros ->. discriminate.
    + change (sysfs_streq (String c1 s1) (String c2 s2))
        with (if negb (is_nul c1) && Ascii.eqb c1 c2 then sysfs_streq s1 s2
              else streq_rest (String c1 s1) (String c2 s2)).
      destruct (is_nul c1) eqn:N1.
      { cbn [negb andb]. apply streq_rest_spec. now left. }
      destruct (Ascii.eqb_spec c1 c2) as [<-|Hne].
      * cbn [negb andb]. rewrite IH, !c_str_cons by assumption.
        unfold newline. rewrite !str_app_cons. intuition congruence.
      * cbn [negb andb]. apply streq_rest_spec. now right.
Qed.

(** None of the three mode names ends in a newline, so a text matches
    one of them when the C string it holds is the name or the name and
    a newline. *)
Lemma mode_name_streq (buf name : string) :
  name = "normal" \/ name = "noisy" \/ name = "ramp" ->
  sysfs_streq buf name = true <->
  (c_str buf = name \/ c_str buf = (name ++ newline)%string).
Proof.
  intros Hname. rewrite sysfs_streq_spec.
  assert (c_str name = name) as ->
    by (destruct Hname as [-> | [-> | ->]]; reflexivity).
  assert (name <> (c_str buf ++ newline)%string) as Hno.
  { intros Heq. unfold newline in Heq. revert Heq.
    generalize (c_str buf) as text. intros text Heq.
    destruct Hname as [-> | [-> | ->]];
      repeat (destruct text as [|? text];
              rewrite ?str_app_nil, ?str_app_cons in Heq;
              [discriminate | injection Heq as _ Heq]);
      destruct text; discriminate. }
  intuition congruence.
Qed.

(** X16: the [mode] attribute goes by the C string in the written
    buffer, the bytes before the first NUL, and accepts exactly six of
    them: "normal", "noisy" and "ramp", each with or without one
    trailing newline.  An accepted write returns [count], sets the mode
    and nothing else, and a read of the attribute then shows the name
    followed by a newline; any other text (different case, surrounding
    blanks, a number, the empty text) returns -EINVAL and leaves the
    device as it was. *)
Theorem X16_mode_store_names (buf : string) (count : Z) (dev : simtemp_device) :
  let res := mode_store buf count dev in
  let text := c_str buf in
  ((text = "normal" \/ text = ("normal" ++ newline)%string) /\
   res = (count, set_mode SIMTEMP_MODE_NORMAL dev) /\
   mode_show (snd res) = ("normal" ++ newline)%string) \/
  ((text = "noisy" \/ text = ("noisy" ++ newline)%string) /\
   res = (count, set_mode SIMTEMP_MODE_NOISY dev) /\
   mode_show (snd res) = ("noisy" ++ newline)%string) \/
  ((text = "ramp" \/ text = ("ramp" ++ newline)%string) /\
   res = (count, set_mode SIMTEMP_MODE_RAMP dev) /\
   mode_show (snd res) = ("ramp" ++ newline)%string) \/
  (~ In text ["normal"; ("normal" ++ newline)%string; "noisy";
              ("noisy" ++ newline)%string; "ramp"; ("ramp" ++ newline)%string] /\
   res = (- EINVAL, dev)).
Proof.
  intros res text. subst res text. unfold mode_store.
  destruct (sysfs_streq buf "normal") eqn:H1.
  { left. apply mode_name_streq in H1; [|auto]. auto. }
  destruct (sysfs_streq buf "noisy") eqn:H2.
  { right. left. apply mode_name_streq in H2; [|auto]. auto. }
  destruct (sysfs_streq buf "ramp") eqn:H3.
  { right. right. left. apply mode_name_streq in H3; [|auto]. auto. }
  right. right. right. split; [|reflexivity].
  intros Hin.
  assert (sysfs_streq buf "normal" = true \/ sysfs_streq buf "noisy" = true \/
          sysfs_streq buf "ramp" = true) as Hyes.
  { rewrite !mode_name_streq by auto. simpl in Hin.
    destruct Hin as [<- | [<- | [<- | [<- | [<- | [<- | []]]]]]]; auto 10. }
  rewrite H1, H2, H3 in Hyes. intuition discriminate.
Qed.

(** A buffer with bytes after a NUL: the attributes go by what is
    before it. *)
Example stores_stop_at_nul :
  let junk := String "000"%char "junk" in
  mode_store ("ramp" ++ junk) 9 probed = (9, set_mode SIMTEMP_MODE_RAMP probed) /\
  kstrtouint ("250" ++ junk) = KOk 250 /\
  kstrtoint ("-40000" ++ newline ++ junk) = KOk (- 40000).
Proof. repeat split. Qed.

Lemma wrap_s32_range (x : Z) : - 2 ^ 31 <= wrap_s32 x < 2 ^ 31.
Proof.
  unfold wrap_s32. pose proof (Z.mod_pos_bound (x + 2 ^ 31) (2 ^ 32)). lia.
Qed.

(** X17: what the attributes show, they accept.  For a device whose
    period is in 1..10000, whose threshold is in -40000..125000 and
    whose mode is one of the three, writing the texts read from its
    [sampling_ms], [threshold_mC] and [mode] attributes to any other
    device succeeds each time and gives that device the same period,
    threshold and mode; its three attributes then read the same. *)
Theorem X17_show_store_round_trip (now count : Z) (src dst : simtemp_device) :
  SIMTEMP_SAMPLING_MS_MIN <= sampling_ms src <= SIMTEMP_SAMPLING_MS_MAX ->
  SIMTEMP_THRESHOLD_MC_MIN <= threshold_mC src <= SIMTEMP_THRESHOLD_MC_MAX ->
  recognized_mode (mode src) = true ->
  let w1 := sampling_ms_store now (sampling_ms_show src) count dst in
  let w2 := threshold_mC_store (threshold_mC_show src) count (snd w1) in
  let w3 := mode_store (mode_show src) count (snd w2) in
  fst w1 = count /\ fst w2 = count /\ fst w3 = count /\
  sampling_ms (snd w3) = sampling_ms src /\
  threshold_mC (snd w3) = threshold_mC src /\
  mode (snd w3) = mode src /\
  sampling_ms_show (snd w3) = sampling_ms_show src /\
  threshold_mC_show (snd w3) = threshold_mC_show src /\
  mode_show (snd w3) = mode_show src.
Proof.
  intros Hms Hthr Hmode w1 w2 w3.
  unfold SIMTEMP_SAMPLING_MS_MIN, SIMTEMP_SAMPLING_MS_MAX,
    SIMTEMP_THRESHOLD_MC_MIN, SIMTEMP_THRESHOLD_MC_MAX in Hms, Hthr.
  assert (w1 = (count,
                set_timer (hrtimer_start (snd (hrtimer_cancel (timer dst)))
                             (ms_to_ktime (sampling_ms src)) now)
                  (set_timer (snd (hrtimer_cancel (timer dst)))
                     (set_sampling (sampling_ms src)
                        (ms_to_ktime (sampling_ms src)) dst)))) as H1.
  { subst w1. unfold sampling_ms_store, sampling_ms_show.
    rewrite kstrtouint_pretty by lia.
    unfold SIMTEMP_SAMPLING_MS_MIN, SIMTEMP_SAMPLING_MS_MAX.
    replace (sampling_ms src <? 1) with false
      by (symmetry; apply Z.ltb_ge; lia).
    replace (sampling_ms src >? 10000) with false
      by (symmetry; rewrite Z.gtb_ltb; apply Z.ltb_ge; lia).
    reflexivity. }
  assert (w2 = (count, set_threshold_mC (threshold_mC src) (snd w1))) as H2.
  { subst w2. unfold threshold_mC_store, threshold_mC_show.
    rewrite kstrtoint_pretty by lia.
    unfold SIMTEMP_THRESHOLD_MC_MIN, SIMTEMP_THRESHOLD_MC_MAX.
    replace (threshold_mC src <? -40000) with false
      by (symmetry; apply Z.ltb_ge; lia).
    replace (threshold_mC src >? 125000) with false
      by (symmetry; rewrite Z.gtb_ltb; apply Z.ltb_ge; lia).
    reflexivity. }
  assert (w3 = (count, set_mode (mode src) (snd w2))) as H3.
  { subst w3. unfold recognized_mode in Hmode. unfold mode_show.
    destruct (Z.eqb_spec (mode src) SIMTEMP_MODE_NORMAL) as [->|Hn];
      [reflexivity|].
    destruct (Z.eqb_spec (mode src) SIMTEMP_MODE_NOISY) as [->|Hy];
      [reflexivity|].
    destruct (Z.eqb_spec (mode src) SIMTEMP_MODE_RAMP) as [->|Hr];
      [reflexivity|discriminate]. }
  rewrite H3, H2, H1. simpl.
  repeat split.
Qed.

Lemma X17_show_store_round_trip_witness :
  let src := set_mode SIMTEMP_MODE_RAMP
               (set_threshold_mC (-12345) (set_sampling 250 250000000 probed)) in
  let w1 := sampling_ms_store 0 (sampling_ms_show src) 7 probed in
  let w2 := threshold_mC_store (threshold_mC_show src) 7 (snd w1) in
  let w3 := mode_store (mode_show src) 7 (snd w2) in
  threshold_mC_show src = ("-12345" ++ newline)%string /\
  sampling_ms (snd w3) = 250 /\
  threshold_mC (snd w3) = -12345 /\
  mode (snd w3) = SIMTEMP_MODE_RAMP.
Proof.
  intros src.
  assert (SIMTEMP_SAMPLING_MS_MIN <= sampling_ms src <= SIMTEMP_SAMPLING_MS_MAX)
    as Hms by (vm_compute; split; discriminate).
  assert (SIMTEMP_THRESHOLD_MC_MIN <= threshold_mC src <= SIMTEMP_THRESHOLD_MC_MAX)
    as Hthr by (vm_compute; split; discriminate).
  destruct (X17_show_store_round_trip 0 7 src probed Hms Hthr eq_refl)
    as (_ & _ & _ & H1 & H2 & H3 & _).
  intros w1 w2 w3. split; [reflexivity|].
  split; [exact H1|]. split; [exact H2 | exact H3].
Defined.

(** X18: the probe validates the device-tree sampling period but not
    the device-tree threshold.  Whatever the properties, the probed
    period is in 1..10000 (an out-of-range value is replaced by 100);
    a threshold property is installed as it is (as a 32-bit signed
    value), and when that value is outside -40000..125000 the device
    shows a threshold which its own [threshold_mC] attribute refuses
    with -EINVAL when written back. *)
Theorem X18_probe_threshold_unchecked (dt_sampling_ms : option Z)
    (val now count : Z) :
  wrap_s32 val < SIMTEMP_THRESHOLD_MC_MIN \/
  SIMTEMP_THRESHOLD_MC_MAX < wrap_s32 val ->
  let dev := simtemp_probe dt_sampling_ms (Some val) now in
  SIMTEMP_SAMPLING_MS_MIN <= sampling_ms dev <= SIMTEMP_SAMPLING_MS_MAX /\
  threshold_mC dev = wrap_s32 val /\
  threshold_mC_store (threshold_mC_show dev) count dev = (- EINVAL, dev).
Proof.
  intros Hout dev.
  split; [apply (dev_inv_probe dt_sampling_ms (Some val) now)|].
  split; [reflexivity|].
  unfold threshold_mC_store, threshold_mC_show.
  rewrite kstrtoint_pretty by apply wrap_s32_range.
  change (threshold_mC dev) with (wrap_s32 val).
  replace ((wrap_s32 val <? SIMTEMP_THRESHOLD_MC_MIN)
           || (wrap_s32 val >? SIMTEMP_THRESHOLD_MC_MAX)) with true;
    [reflexivity|].
  symmetry. apply orb_true_iff. rewrite Z.gtb_ltb.
  destruct Hout; [left|right]; now apply Z.ltb_lt.
Qed.

Lemma X18_probe_threshold_unchecked_witness :
  let dev := simtemp_probe (Some 0) (Some 4294927295) 0 in
  sampling_ms dev = 100 /\
  threshold_mC dev = -40001 /\
  threshold_mC_store (threshold_mC_show dev) 7 dev = (- EINVAL, dev).
Proof.
  intros dev.
  assert (wrap_s32 4294927295 < SIMTEMP_THRESHOLD_MC_MIN \/
          SIMTEMP_THRESHOLD_MC_MAX < wrap_s32 4294927295) as Hout
    by (left; reflexivity).
  destruct (X18_probe_threshold_unchecked (Some 0) 4294927295 0 7 Hout)
    as (_ & Hthr & Hst).
  split; [reflexivity|]. split; [exact Hthr | exact Hst].
Defined.

(** * Further properties: the generator *)

(** Outside Ramp mode the generator leaves the device as it is. *)
Lemma generate_n_other_mode (randoms : list Z) :
  forall dev : simtemp_device,
    mode dev <> SIMTEMP_MODE_RAMP ->
    snd (generate_n randoms dev) = dev.
Proof.
  induction randoms as [|random randoms IH]; intros dev Hm; [reflexivity|].
  simpl.
  assert (snd (simtemp_generate_temperature random dev) = dev) as Hsame.
  { unfold simtemp_generate_temperature.
    apply Z.eqb_neq in Hm. rewrite Hm.
    destruct (mode dev =? SIMTEMP_MODE_NORMAL); [reflexivity|].
    destruct (mode dev =? SIMTEMP_MODE_NOISY); reflexivity. }
  destruct (simtemp_generate_temperature random dev) as [t dev1].
  simpl in Hsame. subst dev1. specialize (IH dev Hm).
  destruct (generate_n randoms dev) as [ts dev2]. exact IH.
Qed.

(** X19: the ramp keeps its place across a mode change.  Start the
    ramp at 40000 going up, let it run [a] ticks, switch to any other
    mode for any number of ticks, and switch back: the next [b] ticks
    continue the triangular wave at tick a+1, as if the ticks in the
    other mode had not happened. *)
Theorem X19_ramp_resumes_after_mode_switch (dev : simtemp_device)
    (other : Z) (ra ro rb : list Z) :
  mode dev = SIMTEMP_MODE_RAMP ->
  current_temp_mC dev = 40000 ->
  ramp_direction dev = true ->
  other <> SIMTEMP_MODE_RAMP ->
  let d1 := snd (generate_n ra dev) in
  let d2 := snd (generate_n ro (set_mode other d1)) in
  let resumed := generate_n rb (set_mode SIMTEMP_MODE_RAMP d2) in
  fst resumed =
    map (fun i => ramp_wave (Z.of_nat (length ra) + Z.of_nat i))
        (seq 1 (length rb)) /\
  fst resumed = fst (generate_n rb d1).
Proof.
  intros Hm Hcur Hdir Hother d1 d2 resumed.
  pose proof (generate_n_ramp ra 0 dev Hm Hcur Hdir) as Ha.
  cbv zeta in Ha. rewrite Z.add_0_l in Ha.
  assert (d2 = set_mode other d1) as Hd2.
  { subst d2. now apply generate_n_other_mode. }
  assert (set_mode SIMTEMP_MODE_RAMP d2 = d1) as Hback.
  { rewrite Hd2. subst d1. rewrite Ha. simpl. unfold set_mode, set_ramp.
    simpl. now rewrite Hm. }
  subst resumed. rewrite Hback. split; [|reflexivity].
  subst d1. rewrite Ha. simpl snd.
  rewrite (generate_n_ramp rb (Z.of_nat (length ra))); try reflexivity.
  exact Hm.
Qed.

Lemma X19_ramp_resumes_after_mode_switch_witness :
  let dev := set_mode SIMTEMP_MODE_RAMP probed in
  let d1 := snd (generate_n [1; 2] dev) in
  let d2 := snd (generate_n [3; 4; 5] (set_mode SIMTEMP_MODE_NOISY d1)) in
  fst (generate_n [3; 4; 5] (set_mode SIMTEMP_MODE_NOISY d1)) =
    [30003; 30004; 30005] /\
  fst (generate_n [6; 7] (set_mode SIMTEMP_MODE_RAMP d2)) = [41500; 42000].
Proof.
  intros dev d1 d2.
  assert (SIMTEMP_MODE_NOISY <> SIMTEMP_MODE_RAMP) as Hother by discriminate.
  destruct (X19_ramp_resumes_after_mode_switch dev SIMTEMP_MODE_NOISY
              [1; 2] [3; 4; 5] [6; 7] eq_refl eq_refl eq_refl Hother)
    as (Hwave & _).
  split; [reflexivity | exact Hwave].
Defined.

(** X20: the ramp has a period of 160 ticks.  From 40000 going up, 160
    ticks in Ramp mode visit both turning points (70000 at tick 60,
    30000 at tick 140) and bring the device back to exactly the state
    it started in, so every later stretch of 160 ticks generates the
    same temperatures. *)
Theorem X20_ramp_period (dev : simtemp_device) (randoms more : list Z) :
  mode dev = SIMTEMP_MODE_RAMP ->
  current_temp_mC dev = 40000 ->
  ramp_direction dev = true ->
  length randoms = 160%nat ->
  snd (generate_n randoms dev) = dev /\
  fst (generate_n randoms dev) !! 59%nat = Some 70000 /\
  fst (generate_n randoms dev) !! 139%nat = Some 30000 /\
  Forall (fun t => 30000 <= t <= 70000) (fst (generate_n randoms dev)) /\
  fst (generate_n more (snd (generate_n randoms dev))) =
    fst (generate_n more dev).
Proof.
  intros Hm Hcur Hdir Hlen.
  pose proof (generate_n_ramp randoms 0 dev Hm Hcur Hdir) as Hrun.
  cbv zeta in Hrun. rewrite Hlen in Hrun. rewrite Hrun. cbn [fst snd].
  assert (set_ramp (ramp_wave (0 + Z.of_nat 160)) (ramp_up (0 + Z.of_nat 160))
            dev = dev) as Hsame.
  { change (ramp_wave (0 + Z.of_nat 160)) with 40000.
    change (ramp_up (0 + Z.of_nat 160)) with true.
    rewrite <- Hcur, <- Hdir. apply set_ramp_same. }
  rewrite Hsame.
  split; [reflexivity|]. split; [reflexivity|]. split; [reflexivity|].
  split; [|reflexivity].
  apply Forall_forall. intros t Ht.
  apply list_elem_of_In, in_map_iff in Ht.
  destruct Ht as (i & <- & _). apply ramp_wave_range.
Qed.

Lemma X20_ramp_period_witness :
  let dev := set_mode SIMTEMP_MODE_RAMP probed in
  snd (generate_n (replicate 160 0) dev) = dev /\
  fst (generate_n [0; 0] (snd (generate_n (replicate 160 0) dev))) =
    [40500; 41000].
Proof.
  intros dev.
  destruct (X20_ramp_period dev (replicate 160 0) [0; 0]
              eq_refl eq_refl eq_refl eq_refl) as (Hsame & _ & _ & _ & Hmore).
  split; [exact Hsame|]. rewrite Hmore. reflexivity.
Defined.

(** X21: the random modes in closed form.  Normal mode returns 43000
    plus the random word modulo 4000, so 43000..46999; Noisy mode
    returns 30000 plus the random word modulo 30000, so 30000..59999:
    its two clamps never change the value, and 60000 is never
    generated.  Neither mode reads or writes the ramp state. *)
Theorem X21_random_modes_closed_form (random : Z) (dev : simtemp_device) :
  (mode dev = SIMTEMP_MODE_NORMAL ->
   simtemp_generate_temperature random dev =
     (43000 + (random mod 2 ^ 32) mod 4000, dev) /\
   43000 <= fst (simtemp_generate_temperature random dev) <= 46999) /\
  (mode dev = SIMTEMP_MODE_NOISY ->
   simtemp_generate_temperature random dev =
     (30000 + (random mod 2 ^ 32) mod 30000, dev) /\
   30000 <= fst (simtemp_generate_temperature random dev) <= 59999).
Proof.
  split; intros Hm.
  - rewrite (generate_normal random dev Hm). split; [reflexivity|]. simpl.
    pose proof (Z.mod_pos_bound (wrap_u32 random) 4000). lia.
  - rewrite (generate_noisy random dev Hm). split; [reflexivity|]. simpl.
    pose proof (Z.mod_pos_bound (wrap_u32 random) 30000). lia.
Qed.

Lemma X21_random_modes_closed_form_witness :
  simtemp_generate_temperature 4294967295
    (set_mode SIMTEMP_MODE_NOISY probed) =
    (47295, set_mode SIMTEMP_MODE_NOISY probed) /\
  simtemp_generate_temperature 29999 (set_mode SIMTEMP_MODE_NOISY probed) =
    (59999, set_mode SIMTEMP_MODE_NOISY probed).
Proof.
  destruct (X21_random_modes_closed_form 4294967295
              (set_mode SIMTEMP_MODE_NOISY probed)) as (_ & Hnoisy).
  destruct (Hnoisy eq_refl) as (H1 & _).
  split; [exact H1 | reflexivity].
Defined.

(** * Further properties: the single-slot module *)

Lemma str_length_app (s t : string) :
  String.length (s ++ t) = (String.length s + String.length t)%nat.
Proof.
  induction s as [|c s IH]; [reflexivity|].
  rewrite str_app_cons. simpl. now rewrite IH.
Qed.

Lemma substring_all (s : string) :
  forall n : nat, (String.length s <= n)%nat -> String.substring 0 n s = s.
Proof.
  induction s as [|c s IH]; intros n Hn.
  - destruct n; reflexivity.
  - destruct n as [|n]; simpl in Hn; [lia|].
    simpl. rewrite IH by lia. reflexivity.
Qed.

(** The number of digits [pretty] writes. *)
Lemma pretty_N_go_length (d : nat) :
  forall (x : N) (s : string),
    (10 ^ N.of_nat d <= x < 10 ^ N.of_nat (S d))%N ->
    String.length (pretty_N_go x s) = (S d + String.length s)%nat.
Proof.
  induction d as [|d IH]; intros x s Hx.
  - change (10 ^ N.of_nat 0)%N with 1%N in Hx.
    change (10 ^ N.of_nat 1)%N with 10%N in Hx.
    rewrite pretty_N_go_step by lia.
    rewrite (N.div_small x 10) by lia. reflexivity.
  - rewrite pretty_N_go_step.
    2: { pose proof (N.pow_nonzero 10 (N.of_nat (S d))). lia. }
    rewrite IH; [simpl; lia|].
    rewrite !Nat2N.inj_succ, !N.pow_succ_r' in *.
    split.
    + apply N.div_le_lower_bound; lia.
    + apply N.Div0.div_lt_upper_bound; lia.
Qed.

Lemma pretty_Z_length (d : nat) (z : Z) :
  10 ^ Z.of_nat d <= z < 10 ^ Z.of_nat (S d) ->
  String.length (pretty z) = S d.
Proof.
  intros Hz.
  assert (0 < 10 ^ Z.of_nat d) by (apply Z.pow_pos_nonneg; lia).
  destruct z as [|p|p]; try lia.
  change (pretty (Z.pos p)) with (pretty_N_go (N.pos p) "").
  rewrite (pretty_N_go_length d); [simpl; lia|].
  assert (forall n : nat, Z.of_N (10 ^ N.of_nat n) = 10 ^ Z.of_nat n) as Hpow
    by (intros n; now rewrite N2Z.inj_pow, nat_N_Z).
  pose proof (Hpow d). pose proof (Hpow (S d)). lia.
Qed.

Lemma zeros_length (n : nat) : String.length (FakeTemp.zeros n) = n.
Proof. induction n as [|n IH]; simpl; congruence. Qed.

Lemma fmt_d_length (width d : nat) (z : Z) :
  0 <= z ->
  String.length (pretty z) = d ->
  String.length (FakeTemp.fmt_d width z) = Nat.max width d.
Proof.
  intros Hz Hd. unfold FakeTemp.fmt_d.
  replace (z <? 0) with false by (symmetry; apply Z.ltb_ge; lia).
  rewrite Z.abs_eq by lia.
  rewrite str_length_app, zeros_length, Hd. lia.
Qed.

Lemma pretty_digits (z : Z) :
  0 <= z <= 9999 ->
  String.length (pretty z) =
    if z <? 10 then 1%nat else if z <? 100 then 2%nat
    else if z <? 1000 then 3%nat else 4%nat.
Proof.
  intros Hz.
  destruct (Z.ltb_spec z 10).
  { destruct (Z.eq_dec z 0) as [->|]; [reflexivity|].
    apply (pretty_Z_length 0). simpl. lia. }
  destruct (Z.ltb_spec z 100); [apply (pretty_Z_length 1); simpl; lia|].
  destruct (Z.ltb_spec z 1000); [apply (pretty_Z_length 2); simpl; lia|].
  apply (pretty_Z_length 3). simpl. lia.
Qed.

Lemma fmt_d2_length (z : Z) :
  0 <= z <= 99 -> String.length (FakeTemp.fmt_d 2 z) = 2%nat.
Proof.
  intros Hz. rewrite (fmt_d_length 2 _ z (proj1 Hz) (pretty_digits z ltac:(lia))).
  destruct (z <? 10); [reflexivity|].
  replace (z <? 100) with true by (symmetry; apply Z.ltb_lt; lia).
  reflexivity.
Qed.

(** Every sample text for a calendar time is 43 bytes long. *)
Lemma sample_text_length (rand : Z) (t : FakeTemp.tm) :
  FakeTemp.calendar t ->
  String.length
    (FakeTemp.sample_text (FakeTemp.simulate_temperature rand) t) = 43%nat.
Proof.
  intros (Hs & Hmi & Hh & Hd & Hmo & Hy).
  assert (20 <= FakeTemp.simulate_temperature rand <= 45) as Ht.
  { unfold FakeTemp.simulate_temperature.
    pose proof (Z.mod_pos_bound (wrap_u32 rand) 26). lia. }
  set (temp := FakeTemp.simulate_temperature rand) in *.
  assert (String.length (FakeTemp.fmt_d 0 temp) = 2%nat) as L0.
  { rewrite (fmt_d_length 0 _ temp ltac:(lia) (pretty_digits temp ltac:(lia))).
    replace (temp <? 10) with false by (symmetry; apply Z.ltb_ge; lia).
    replace (temp <? 100) with true by (symmetry; apply Z.ltb_lt; lia).
    reflexivity. }
  assert (String.length (FakeTemp.fmt_d 4 (FakeTemp.tm_year t + 1900)) = 4%nat)
    as L4.
  { rewrite (fmt_d_length 4 _ (FakeTemp.tm_year t + 1900) ltac:(lia)
               (pretty_digits (FakeTemp.tm_year t + 1900) ltac:(lia))).
    replace (FakeTemp.tm_year t + 1900 <? 10) with false
      by (symmetry; apply Z.ltb_ge; lia).
    replace (FakeTemp.tm_year t + 1900 <? 100) with false
      by (symmetry; apply Z.ltb_ge; lia).
    replace (FakeTemp.tm_year t + 1900 <? 1000) with false
      by (symmetry; apply Z.ltb_ge; lia).
    reflexivity. }
  unfold FakeTemp.sample_text.
  match goal with
  | |- String.length (String.substring 0 127 ?s) = _ =>
      assert (String.length s = 43%nat) as Hlen
  end.
  { repeat rewrite str_length_app.
    rewrite L0, L4, !fmt_d2_length by lia. reflexivity. }
  rewrite substring_all by lia. exact Hlen.
Qed.

Lemma sample_text_nonempty (temp : Z) (t : FakeTemp.tm) :
  (0 < String.length (FakeTemp.sample_text temp t))%nat.
Proof.
  assert (exists rest, FakeTemp.sample_text temp t = String "T"%char rest)
    as (rest & ->) by (eexists; reflexivity).
  simpl. lia.
Qed.

(** A read of a ready sample at position 0 into a destination that is
    writable and at least as long as the text: all of the text. *)
Lemma temp_read_whole (count : Z) (st : FakeTemp.state) :
  FakeTemp.temp_ready st <> 0 ->
  (0 < String.length (FakeTemp.temp_buffer st))%nat ->
  Z.of_nat (String.length (FakeTemp.temp_buffer st)) <= count ->
  FakeTemp.temp_read None count 0 st =
    (Z.of_nat (String.length (FakeTemp.temp_buffer st)),
     Z.of_nat (String.length (FakeTemp.temp_buffer st)),
     FakeTemp.temp_buffer st,
     FakeTemp.set_temp_ready 0 st).
Proof.
  intros Hready Hpos Hcount. unfold FakeTemp.temp_read.
  apply Z.eqb_neq in Hready. rewrite Hready.
  unfold FakeTemp.simple_read_from_buffer. simpl FakeTemp.temp_buffer.
  set (available := Z.of_nat (String.length (FakeTemp.temp_buffer st))) in *.
  change (0 <? 0) with false. cbv iota.
  replace (0 >=? available) with false
    by (symmetry; rewrite Z.geb_leb; apply Z.leb_gt; lia).
  replace (count =? 0) with false by (symmetry; apply Z.eqb_neq; lia).
  simpl orb. cbv iota. rewrite Z.sub_0_r.
  assert ((if count >? available then available else count) = available) as ->.
  { destruct (Z.gtb_spec count available); lia. }
  replace (0 =? available) with false by (symmetry; apply Z.eqb_neq; lia).
  rewrite Z.sub_0_r, Z.add_0_l. unfold available at 3.
  rewrite Nat2Z.id. change (Z.to_nat 0) with 0%nat.
  rewrite substring_all by lia. reflexivity.
Qed.

(** X22: the single-slot module keeps the latest sample only.  When
    the work item runs twice before anyone reads, one read (writable
    destination, large enough) returns the whole text of the second
    sample; the first sample is gone: poll then reports nothing and
    every further read returns 0 bytes until the work item runs
    again. *)
Theorem X22_single_slot_latest_wins (st : FakeTemp.state) (r1 r2 count : Z)
    (t1 t2 : FakeTemp.tm) :
  let text2 := FakeTemp.sample_text (FakeTemp.simulate_temperature r2) t2 in
  Z.of_nat (String.length text2) <= count ->
  let st2 := FakeTemp.temp_work_func r2 t2 (FakeTemp.temp_work_func r1 t1 st) in
  let rd := FakeTemp.temp_read None count 0 st2 in
  FakeTemp.temp_poll st2 = Z.lor FakeTemp.POLLIN FakeTemp.POLLRDNORM /\
  rd = (Z.of_nat (String.length text2), Z.of_nat (String.length text2), text2,
        FakeTemp.set_temp_ready 0 st2) /\
  FakeTemp.temp_poll (snd rd) = 0 /\
  forall (writable : option Z) (count' pos : Z),
    FakeTemp.temp_read writable count' pos (snd rd) =
      (0, pos, EmptyString, snd rd).
Proof.
  intros text2 Hcount st2 rd.
  assert (rd = (Z.of_nat (String.length text2), Z.of_nat (String.length text2),
                text2, FakeTemp.set_temp_ready 0 st2)) as Hrd.
  { subst rd. apply (temp_read_whole count st2).
    - discriminate.
    - apply sample_text_nonempty.
    - exact Hcount. }
  split; [reflexivity|]. split; [exact Hrd|]. rewrite Hrd.
  split; reflexivity.
Qed.

Lemma X22_single_slot_latest_wins_witness :
  let t1 := {| FakeTemp.tm_sec := 5; FakeTemp.tm_min := 4; FakeTemp.tm_hour := 3;
               FakeTemp.tm_mday := 2; FakeTemp.tm_mon := 0;
               FakeTemp.tm_year := 125 |} in
  let t2 := {| FakeTemp.tm_sec := 6; FakeTemp.tm_min := 4; FakeTemp.tm_hour := 3;
               FakeTemp.tm_mday := 2; FakeTemp.tm_mon := 0;
               FakeTemp.tm_year := 125 |} in
  let st2 := FakeTemp.temp_work_func 25 t2
               (FakeTemp.temp_work_func 7 t1 (FakeTemp.temp_module_init 0)) in
  FakeTemp.simulate_temperature 7 = 27 /\
  FakeTemp.simulate_temperature 25 = 45 /\
  snd (fst (FakeTemp.temp_read None 128 0 st2)) =
    FakeTemp.sample_text 45 t2 /\
  fst (fst (fst (FakeTemp.temp_read None 128 0 st2))) = 43.
Proof.
  intros t1 t2 st2.
  assert (Z.of_nat (String.length
            (FakeTemp.sample_text (FakeTemp.simulate_temperature 25) t2)) <= 128)
    as Hcount by (vm_compute; discriminate).
  destruct (X22_single_slot_latest_wins (FakeTemp.temp_module_init 0) 7 25 128
              t1 t2 Hcount) as (_ & Hrd & _).
  split; [reflexivity|]. split; [reflexivity|].
  fold st2 in Hrd. rewrite Hrd. split; reflexivity.
Defined.

(** X23: in the single-slot module the file position sticks.  A
    complete read of one sample leaves the position at 43, the length
    of every sample text; when the next sample is ready, a read at that
    position returns 0 bytes and still clears the ready flag, so that
    sample is lost to a reader that keeps its file open and does not
    seek back. *)
Theorem X23_single_slot_position_sticks (st : FakeTemp.state)
    (r1 r2 count : Z) (t1 t2 : FakeTemp.tm) :
  FakeTemp.calendar t1 ->
  FakeTemp.calendar t2 ->
  43 <= count ->
  let s1 := FakeTemp.temp_work_func r1 t1 st in
  let rd1 := FakeTemp.temp_read None count 0 s1 in
  let pos1 := snd (fst (fst rd1)) in
  let s2 := FakeTemp.temp_work_func r2 t2 (snd rd1) in
  let rd2 := FakeTemp.temp_read None count pos1 s2 in
  fst (fst (fst rd1)) = 43 /\
  pos1 = 43 /\
  snd (fst rd1) = FakeTemp.sample_text (FakeTemp.simulate_temperature r1) t1 /\
  FakeTemp.temp_poll s2 = Z.lor FakeTemp.POLLIN FakeTemp.POLLRDNORM /\
  rd2 = (0, 43, EmptyString, FakeTemp.set_temp_ready 0 s2) /\
  FakeTemp.temp_poll (snd rd2) = 0.
Proof.
  intros Hc1 Hc2 Hcount s1 rd1 pos1 s2 rd2.
  pose proof (sample_text_length r1 t1 Hc1) as Hl1.
  pose proof (sample_text_length r2 t2 Hc2) as Hl2.
  assert (rd1 = (43, 43,
                 FakeTemp.sample_text (FakeTemp.simulate_temperature r1) t1,
                 FakeTemp.set_temp_ready 0 s1)) as Hrd1.
  { subst rd1. rewrite (temp_read_whole count s1).
    - simpl FakeTemp.temp_buffer. rewrite Hl1. reflexivity.
    - discriminate.
    - simpl FakeTemp.temp_buffer. rewrite Hl1. lia.
    - simpl FakeTemp.temp_buffer. rewrite Hl1. simpl. lia. }
  subst pos1. subst rd2. subst s2. rewrite Hrd1. cbn [fst snd].
  refine (conj eq_refl (conj eq_refl (conj eq_refl (conj eq_refl _)))).
  unfold FakeTemp.temp_read.
  change (FakeTemp.temp_ready (FakeTemp.temp_work_func r2 t2
                                 (FakeTemp.set_temp_ready 0 s1)) =? 0)
    with false.
  cbv iota. unfold FakeTemp.simple_read_from_buffer.
  simpl FakeTemp.temp_buffer. rewrite Hl2.
  change (43 <? 0) with false. change (43 >=? Z.of_nat 43) with true.
  simpl. split; reflexivity.
Qed.

Lemma X23_single_slot_position_sticks_witness :
  let t1 := {| FakeTemp.tm_sec := 59; FakeTemp.tm_min := 59;
               FakeTemp.tm_hour := 23; FakeTemp.tm_mday := 31;
               FakeTemp.tm_mon := 11; FakeTemp.tm_year := 125 |} in
  let t2 := {| FakeTemp.tm_sec := 0; FakeTemp.tm_min := 0;
               FakeTemp.tm_hour := 0; FakeTemp.tm_mday := 1;
               FakeTemp.tm_mon := 0; FakeTemp.tm_year := 126 |} in
  let s1 := FakeTemp.temp_work_func 0 t1 (FakeTemp.temp_module_init 0) in
  let rd1 := FakeTemp.temp_read None 64 0 s1 in
  let s2 := FakeTemp.temp_work_func 1 t2 (snd rd1) in
  FakeTemp.calendar t1 /\ FakeTemp.calendar t2 /\
  fst (fst (fst rd1)) = 43 /\
  FakeTemp.temp_read None 64 43 s2 =
    (0, 43, EmptyString, FakeTemp.set_temp_ready 0 s2).
Proof.
  intros t1 t2 s1 rd1 s2.
  assert (FakeTemp.calendar t1) as Hc1 by (unfold FakeTemp.calendar; simpl; lia).
  assert (FakeTemp.calendar t2) as Hc2 by (unfold FakeTemp.calendar; simpl; lia).
  assert (43 <= 64) as Hcount by lia.
  destruct (X23_single_slot_position_sticks (FakeTemp.temp_module_init 0)
              0 1 64 t1 t2 Hc1 Hc2 Hcount) as (Hret & Hpos & _ & _ & Hrd2 & _).
  split; [exact Hc1|]. split; [exact Hc2|]. split; [exact Hret|].
  fold s1 rd1 in Hpos, Hrd2. rewrite Hpos in Hrd2. exact Hrd2.
Defined.

(** X24: the single-slot module's attribute writes never report an
    error.  Both stores return [count] whatever the text.  The interval
    changes only to a parsed value above 0, so it stays positive; text
    that does not parse, or a value of 0 or less, leaves the state
    untouched.  The threshold takes any [int] that parses, without a
    range check.  Neither store restarts the timer: a new interval is
    first used when the timer callback re-arms. *)
Theorem X24_single_slot_stores (buf : string) (count now : Z)
    (st : FakeTemp.state) :
  0 < FakeTemp.update_interval_ms st ->
  let i := FakeTemp.interval_store buf count st in
  let t := FakeTemp.threshold_store buf count st in
  fst i = count /\ fst t = count /\
  0 < FakeTemp.update_interval_ms (snd i) /\
  FakeTemp.temp_timer (snd i) = FakeTemp.temp_timer st /\
  FakeTemp.temp_timer (snd t) = FakeTemp.temp_timer st /\
  FakeTemp.temp_timer (FakeTemp.temp_timer_callback now (snd i)) =
    hrtimer_forward_now (FakeTemp.temp_timer st)
      (ms_to_ktime (FakeTemp.update_interval_ms (snd i))) now /\
  (forall v, kstrtoint buf = KOk v ->
     FakeTemp.temp_threshold (snd t) = v /\
     FakeTemp.update_interval_ms (snd i) =
       (if v >? 0 then v else FakeTemp.update_interval_ms st)) /\
  (forall e, kstrtoint buf = KErr e -> snd i = st /\ snd t = st) /\
  (forall v, kstrtoint buf = KOk v -> v <= 0 -> snd i = st).
Proof.
  intros Hpos i t. subst i t.
  unfold FakeTemp.interval_store, FakeTemp.threshold_store.
  destruct (kstrtoint buf) as [val|ret].
  - destruct (Z.gtb_spec val 0) as [Hgt|Hle]; simpl.
    + refine (conj eq_refl (conj eq_refl (conj _ (conj eq_refl (conj eq_refl
                (conj eq_refl (conj _ (conj _ _)))))))).
      * lia.
      * intros v [= <-]. split; [reflexivity|].
        destruct (Z.gtb_spec val 0); [reflexivity|lia].
      * intros e He. discriminate He.
      * intros v [= <-] Hv. lia.
    + refine (conj eq_refl (conj eq_refl (conj Hpos (conj eq_refl (conj eq_refl
                (conj eq_refl (conj _ (conj _ _)))))))).
      * intros v [= <-]. split; [reflexivity|].
        destruct (Z.gtb_spec val 0); [lia|reflexivity].
      * intros e He. discriminate He.
      * intros v _ _. reflexivity.
  - simpl.
    refine (conj eq_refl (conj eq_refl (conj Hpos (conj eq_refl (conj eq_refl
              (conj eq_refl (conj _ (conj _ _)))))))).
    + intros v Hv. discriminate Hv.
    + intros e _. split; reflexivity.
    + intros v _ _. reflexivity.
Qed.

Lemma X24_single_slot_stores_witness :
  let st := FakeTemp.temp_module_init 0 in
  0 < FakeTemp.update_interval_ms st /\
  FakeTemp.interval_store "-250" 5 st = (5, st) /\
  FakeTemp.interval_store "fast" 5 st = (5, st) /\
  FakeTemp.temp_threshold (snd (FakeTemp.threshold_store "-250" 5 st)) = -250 /\
  FakeTemp.temp_timer (snd (FakeTemp.interval_store "250" 4 st)) =
    {| hr_active := true; hr_expires := 1000000000 |} /\
  FakeTemp.temp_timer
    (FakeTemp.temp_timer_callback 1000000000
       (snd (FakeTemp.interval_store "250" 4 st))) =
    {| hr_active := true; hr_expires := 1250000000 |}.
Proof.
  intros st.
  assert (0 < FakeTemp.update_interval_ms st) as Hpos by reflexivity.
  destruct (X24_single_slot_stores "-250" 5 0 st Hpos)
    as (_ & _ & _ & _ & _ & _ & Hok & _ & Hneg).
  destruct (Hok (-250) eq_refl) as (Hthr & _).
  assert (-250 <= 0) as Hle by lia.
  pose proof (Hneg (-250) eq_refl Hle) as Hsame.
  split; [exact Hpos|].
  split; [rewrite (surjective_pairing (FakeTemp.interval_store "-250" 5 st)),
            Hsame; reflexivity|].
  split; [reflexivity|]. split; [exact Hthr|]. split; reflexivity.
Defined.

(** * Further properties: the stats attribute *)

Lemma str_app_inv_head (s x y : string) :
  (s ++ x)%string = (s ++ y)%string -> x = y.
Proof.
  induction s as [|c s IH]; [trivial|].
  rewrite !str_app_cons. intros [= H]. auto.
Qed.

Lemma str_app_assoc (s t u : string) :
  ((s ++ t) ++ u)%string = (s ++ (t ++ u))%string.
Proof.
  induction s as [|c s IH]; [reflexivity|].
  rewrite !str_app_cons. now rewrite IH.
Qed.

(** A printed counter followed by a newline reads back as the counter,
    whatever follows. *)
Lemma parse_pretty_line (z : Z) (rest : string) :
  0 <= z ->
  exists d : nat,
    _parse_integer (pretty z ++ (newline ++ rest))%string 0 0 =
      (z, d, (newline ++ rest)%string).
Proof.
  intros Hz. destruct z as [|p|p]; [exists 1%nat; reflexivity| |lia].
  change (pretty (Z.pos p)) with (pretty_N_go (N.pos p) "").
  rewrite pretty_N_go_app, str_app_nil.
  destruct (parse_pretty_N_go (N.pos p)) as (d & _ & Hparse).
  exists d. rewrite Hparse. unfold newline. rewrite str_app_cons.
  simpl _parse_integer. reflexivity.
Qed.

Lemma pretty_line_inj (a b : Z) (r1 r2 : string) :
  0 <= a -> 0 <= b ->
  (pretty a ++ (newline ++ r1))%string = (pretty b ++ (newline ++ r2))%string ->
  a = b /\ r1 = r2.
Proof.
  intros Ha Hb Heq.
  destruct (parse_pretty_line a r1 Ha) as (d1 & H1).
  destruct (parse_pretty_line b r2 Hb) as (d2 & H2).
  rewrite Heq, H2 in H1. injection H1 as <- _ Hr.
  split; [reflexivity|]. symmetry. exact Hr.
Qed.

(** X25: the stats text determines the counters.  If two devices (with
    counters in the unsigned range) show the same [stats] text, their
    [total_samples], [threshold_alerts], [read_count] and [poll_count]
    agree: the four labelled lines can be read back without ambiguity.
    [last_error] is not part of the text. *)
Theorem X25_stats_text_determines_counters (d1 d2 : simtemp_device) :
  0 <= total_samples (stats d1) -> 0 <= threshold_alerts (stats d1) ->
  0 <= read_count (stats d1) -> 0 <= poll_count (stats d1) ->
  0 <= total_samples (stats d2) -> 0 <= threshold_alerts (stats d2) ->
  0 <= read_count (stats d2) -> 0 <= poll_count (stats d2) ->
  stats_show d1 = stats_show d2 ->
  total_samples (stats d1) = total_samples (stats d2) /\
  threshold_alerts (stats d1) = threshold_alerts (stats d2) /\
  read_count (stats d1) = read_count (stats d2) /\
  poll_count (stats d1) = poll_count (stats d2).
Proof.
  intros Ht1 Ha1 Hr1 Hp1 Ht2 Ha2 Hr2 Hp2 Heq.
  unfold stats_show in Heq.
  apply str_app_inv_head in Heq.
  apply pretty_line_inj in Heq; try assumption. destruct Heq as (Et & Heq).
  apply str_app_inv_head in Heq.
  apply pretty_line_inj in Heq; try assumption. destruct Heq as (Ea & Heq).
  apply str_app_inv_head in Heq.
  apply pretty_line_inj in Heq; try assumption. destruct Heq as (Er & Heq).
  apply str_app_inv_head in Heq.
  assert (forall s : string, (s ++ "")%string = s) as Hnil.
  { induction s as [|c s IH]; [reflexivity|].
    rewrite str_app_cons. now rewrite IH. }
  rewrite <- (Hnil newline) in Heq at 1 2.
  apply pretty_line_inj in Heq; try assumption. destruct Heq as (Ep & _).
  auto.
Qed.

Lemma X25_stats_text_determines_counters_witness :
  let d1 := snd (simtemp_poll (tick_dev (simtemp_timer_callback 100 2000 probed))) in
  let d2 := tick_dev (simtemp_timer_callback 999 1000 (snd (simtemp_poll probed))) in
  stats_show d1 = stats_show d2 /\
  rb_contents (ringbuf d1) <> rb_contents (ringbuf d2) /\
  total_samples (stats d1) = total_samples (stats d2) /\
  poll_count (stats d1) = poll_count (stats d2).
Proof.
  intros d1 d2.
  assert (stats_show d1 = stats_show d2) as Hshow by reflexivity.
  destruct (X25_stats_text_determines_counters d1 d2
              ltac:(vm_compute; discriminate) ltac:(vm_compute; discriminate)
              ltac:(vm_compute; discriminate) ltac:(vm_compute; discriminate)
              ltac:(vm_compute; discriminate) ltac:(vm_compute; discriminate)
              ltac:(vm_compute; discriminate) ltac:(vm_compute; discriminate)
              Hshow) as (Ht & _ & _ & Hp).
  split; [exact Hshow|]. split; [discriminate|]. split; [exact Ht | exact Hp].
Defined.
